(** * Workspace migration and notebook synchronisation scripts

    A shallow embedding of [user_creation_adding_notebooks.py] (bulk
    migration of users, directories and notebooks between two workspaces)
    and of [multicloud_git.py] (single notebook fetched from the source
    host, imported into two workspaces, permissions copied), together
    with the properties their specification states.

    The remote systems are an arbitrary state machine answering HTTP
    requests; every call of [requests.get], [requests.post] and
    [requests.patch] is recorded in a log, in program order.  Python
    exceptions are explicit: a computation either returns a value or
    raises, and [try ... except requests.exceptions.RequestException]
    catches exactly the exceptions of that class. *)

From Stdlib Require Import ZArith String Ascii List Lia Bool.
From stdpp Require Import base gmap strings list sorting pretty.

Set Warnings "-register-all".

(** ** Python values, exceptions and results *)

Module Py.

(** The exceptions the two scripts can meet.  [ConnectionError],
    [HTTPError] and [JSONDecodeError] are the [requests.exceptions]
    classes (all three derive from [RequestException]; for
    [JSONDecodeError] this holds from requests 2.27 on); the others are the
    builtin classes, [BinasciiError] standing for [binascii.Error]. *)
Inductive exn :=
  | ConnectionError | HTTPError | JSONDecodeError
  | BinasciiError | UnicodeDecodeError | UnicodeEncodeError | ValueError
  | KeyError | TypeError | AttributeError | RecursionError.

(** [isinstance(e, requests.exceptions.RequestException)] *)
Definition is_RequestException (e : exn) : bool :=
  match e with
  | ConnectionError | HTTPError | JSONDecodeError => true
  | _ => false
  end.

Inductive result (A : Type) :=
  | Ret (a : A)
  | Raise (e : exn).
Arguments Ret {A} a.
Arguments Raise {A} e.

Definition rbind {A B} (r : result A) (k : A -> result B) : result B :=
  match r with
  | Ret a => k a
  | Raise e => Raise e
  end.

Definition rmap {A B} (f : A -> B) (r : result A) : result B :=
  rbind r (fun a => Ret (f a)).

(** A parsed JSON document, which is also the Python value [json()] hands
    to the scripts.  Objects keep their keys in insertion order, as Python
    dictionaries do; a key occurs once and lookup takes its first
    occurrence.  Numbers are integers: the scripts observe of a number only
    its type and whether it is zero. *)
Inductive json :=
  | JNull
  | JBool (b : bool)
  | JNum (n : Z)
  | JStr (s : string)
  | JArr (l : list json)
  | JObj (kvs : list (string * json)).

(** Truth value of a Python object ([if x], [if not x]). *)
Definition truthy (v : json) : bool :=
  match v with
  | JNull => false
  | JBool b => b
  | JNum n => negb (n =? 0)%Z
  | JStr s => negb (s =? "")%string
  | JArr l => match l with [] => false | _ => true end
  | JObj kvs => match kvs with [] => false | _ => true end
  end.

(** Dictionaries as association lists. *)
Fixpoint dict_get {V} (k : string) (d : list (string * V)) : option V :=
  match d with
  | [] => None
  | (k', v) :: d' => if (k =? k')%string then Some v else dict_get k d'
  end.

(** [d[k] = v]: the value is replaced in place when the key is present and
    appended otherwise, so iteration keeps insertion order. *)
Fixpoint dict_set {V} (k : string) (v : V) (d : list (string * V))
  : list (string * V) :=
  match d with
  | [] => [(k, v)]
  | (k', v') :: d' =>
      if (k =? k')%string then (k, v) :: d' else (k', v') :: dict_set k v d'
  end.

(** [d.pop(k, None)], the dictionary after the call. *)
Definition dict_pop {V} (k : string) (d : list (string * V))
  : list (string * V) :=
  List.filter (fun kv => negb (k =? fst kv)%string) d.

(** [v.get(k, default)]: only dictionaries have [get]. *)
Definition py_get (v : json) (k : string) (default : json) : result json :=
  match v with
  | JObj d => Ret (match dict_get k d with Some x => x | None => default end)
  | _ => Raise AttributeError
  end.

(** [v[k]] with a string key. *)
Definition py_getitem (v : json) (k : string) : result json :=
  match v with
  | JObj d => match dict_get k d with
              | Some x => Ret x
              | None => Raise KeyError
              end
  | _ => Raise TypeError
  end.

(** [v.pop(k, None)]: the object after the call.  A list has [pop] but
    not with two arguments; the other values have no [pop]. *)
Definition py_pop (v : json) (k : string) : result json :=
  match v with
  | JObj d => Ret (JObj (dict_pop k d))
  | JArr _ => Raise TypeError
  | _ => Raise AttributeError
  end.

(** [len(v)] *)
Definition py_len (v : json) : result nat :=
  match v with
  | JStr s => Ret (String.length s)
  | JArr l => Ret (length l)
  | JObj d => Ret (length d)
  | _ => Raise TypeError
  end.

(** The elements [for x in v] visits: the items of a list, the keys of a
    dictionary, the characters of a string. *)
Definition py_iter (v : json) : result (list json) :=
  match v with
  | JArr l => Ret l
  | JObj d => Ret (map (fun kv => JStr (fst kv)) d)
  | JStr s => Ret (map (fun c => JStr (String c EmptyString))
                       (list_ascii_of_string s))
  | _ => Raise TypeError
  end.

(** Lists and dictionaries cannot be dictionary keys or set members. *)
Definition py_hashable (v : json) : bool :=
  match v with
  | JArr _ | JObj _ => false
  | _ => true
  end.

(** [v == JStr s] *)
Definition py_eq_str (v : json) (s : string) : bool :=
  match v with
  | JStr s' => (s' =? s)%string
  | _ => false
  end.

(** A value of [os.getenv] inside an f-string: [None] prints as "None". *)
Definition fmt (o : option string) : string :=
  match o with
  | Some s => s
  | None => "None"
  end.

End Py.
Export Py.

(** ** Base64 and UTF-8, as the standard library of Python implements them

    Bytes and code points are integers.  [b64encode] is
    [base64.b64encode]; [b64decode] is [base64.b64decode] on a string
    with its default [validate=False], that is the loop of
    [binascii.a2b_base64] with strict mode off: characters outside the
    alphabet are skipped, a complete padding ends the input, and a group
    left incomplete at the end of the input is an error. *)

Module Codec.
Local Open Scope Z_scope.

Definition byte_ok (b : Z) : Prop := 0 <= b < 256.

Definition chr (n : Z) : ascii := ascii_of_N (Z.to_N n).
Definition ord (c : ascii) : Z := Z.of_N (N_of_ascii c).

(** The character of a six-bit value in the standard alphabet. *)
Definition b64_char (v : Z) : ascii :=
  if v <? 26 then chr (65 + v)
  else if v <? 52 then chr (97 + (v - 26))
  else if v <? 62 then chr (48 + (v - 52))
  else if v =? 62 then "+"%char
  else "/"%char.

(** [table_a2b_base64]: the six-bit value of a character, if it has one. *)
Definition b64_value (c : ascii) : option Z :=
  let n := ord c in
  if (65 <=? n) && (n <=? 90) then Some (n - 65)
  else if (97 <=? n) && (n <=? 122) then Some (n - 97 + 26)
  else if (48 <=? n) && (n <=? 57) then Some (n - 48 + 52)
  else if n =? 43 then Some 62
  else if n =? 47 then Some 63
  else None.

Definition pad : ascii := "="%char.

(** What the decoder needs of the character of a six-bit value: it
    decodes to that value, it is not the padding, and it is ASCII. *)
Definition sextet_ok (v : Z) : bool :=
  match b64_value (b64_char v) with
  | Some v' => (v' =? v) && negb (Ascii.eqb (b64_char v) pad)
               && (ord (b64_char v) <? 128)
  | None => false
  end.

Fixpoint b64encode (bs : list Z) : string :=
  match bs with
  | [] => EmptyString
  | [b1] =>
      String (b64_char (b1 / 4))
        (String (b64_char ((b1 mod 4) * 16))
           (String pad (String pad EmptyString)))
  | [b1; b2] =>
      String (b64_char (b1 / 4))
        (String (b64_char ((b1 mod 4) * 16 + b2 / 16))
           (String (b64_char ((b2 mod 16) * 4))
              (String pad EmptyString)))
  | b1 :: b2 :: b3 :: rest =>
      String (b64_char (b1 / 4))
        (String (b64_char ((b1 mod 4) * 16 + b2 / 16))
           (String (b64_char ((b2 mod 16) * 4 + b3 / 64))
              (String (b64_char (b3 mod 64)) (b64encode rest))))
  end.

(** The decoding loop.  [quad_pos] is the position inside the current
    group of four characters, [leftchar] the bits of the group not yet
    written, [pads] the number of padding characters seen in a row. *)
Fixpoint a2b_base64 (s : string) (quad_pos leftchar pads : Z)
  : result (list Z) :=
  match s with
  | EmptyString =>
      if quad_pos =? 0 then Ret [] else Raise BinasciiError
  | String c s' =>
      if Ascii.eqb c pad then
        if 2 <=? quad_pos then
          if 4 <=? quad_pos + (pads + 1) then Ret []
          else a2b_base64 s' quad_pos leftchar (pads + 1)
        else a2b_base64 s' quad_pos leftchar pads
      else
        match b64_value c with
        | None => a2b_base64 s' quad_pos leftchar pads
        | Some v =>
            if quad_pos =? 0 then a2b_base64 s' 1 v 0
            else if quad_pos =? 1 then
              rmap (cons (leftchar * 4 + v / 16))
                   (a2b_base64 s' 2 (v mod 16) 0)
            else if quad_pos =? 2 then
              rmap (cons (leftchar * 16 + v / 4))
                   (a2b_base64 s' 3 (v mod 4) 0)
            else
              rmap (cons (leftchar * 64 + v)) (a2b_base64 s' 0 0 0)
        end
  end.

Fixpoint is_ascii (s : string) : bool :=
  match s with
  | EmptyString => true
  | String c s' => (ord c <? 128) && is_ascii s'
  end.

(** [base64.b64decode(v)] on a value taken from a JSON document: a string
    must be ASCII, and a value that is no string is no bytes-like object. *)
Definition b64decode_str (s : string) : result (list Z) :=
  if is_ascii s then a2b_base64 s 0 0 0 else Raise ValueError.

Definition b64decode (v : json) : result (list Z) :=
  match v with
  | JStr s => b64decode_str s
  | _ => Raise TypeError
  end.

(** Python text: a sequence of code points, each between 0 and 0x10FFFF.
    [str.encode('utf-8')] rejects the surrogates, which a [str] can hold
    but UTF-8 cannot; the other code points are the scalar values. *)
Definition text := list Z.

Definition scalar (c : Z) : Prop :=
  (0 <= c < 55296) \/ (57343 < c < 1114112).

Definition utf8_encode_cp (c : Z) : result (list Z) :=
  if c <? 128 then Ret [c]
  else if c <? 2048 then Ret [192 + c / 64; 128 + c mod 64]
  else if c <? 65536 then
    if (55296 <=? c) && (c <=? 57343) then Raise UnicodeEncodeError
    else Ret [224 + c / 4096; 128 + (c / 64) mod 64; 128 + c mod 64]
  else
    Ret [240 + c / 262144; 128 + (c / 4096) mod 64;
         128 + (c / 64) mod 64; 128 + c mod 64].

Fixpoint utf8_encode (t : text) : result (list Z) :=
  match t with
  | [] => Ret []
  | c :: t' =>
      rbind (utf8_encode_cp c) (fun bs =>
      rmap (app bs) (utf8_encode t'))
  end.

Definition cont (b : Z) : bool := (128 <=? b) && (b <=? 191).

(** [bytes.decode('utf-8')], strict: overlong forms, surrogates, code
    points above 0x10FFFF and truncated sequences are errors. *)
Fixpoint utf8_decode (bs : list Z) : result text :=
  match bs with
  | [] => Ret []
  | b0 :: r0 =>
      if b0 <? 128 then rmap (cons b0) (utf8_decode r0)
      else if (194 <=? b0) && (b0 <=? 223) then
        match r0 with
        | b1 :: r1 =>
            if cont b1
            then rmap (cons ((b0 - 192) * 64 + (b1 - 128))) (utf8_decode r1)
            else Raise UnicodeDecodeError
        | _ => Raise UnicodeDecodeError
        end
      else if (224 <=? b0) && (b0 <=? 239) then
        match r0 with
        | b1 :: b2 :: r2 =>
            if cont b1 && cont b2
               && (negb (b0 =? 224) || (160 <=? b1))
               && (negb (b0 =? 237) || (b1 <=? 159))
            then rmap (cons ((b0 - 224) * 4096 + (b1 - 128) * 64
                             + (b2 - 128)))
                      (utf8_decode r2)
            else Raise UnicodeDecodeError
        | _ => Raise UnicodeDecodeError
        end
      else if (240 <=? b0) && (b0 <=? 244) then
        match r0 with
        | b1 :: b2 :: b3 :: r3 =>
            if cont b1 && cont b2 && cont b3
               && (negb (b0 =? 240) || (144 <=? b1))
               && (negb (b0 =? 244) || (b1 <=? 143))
            then rmap (cons ((b0 - 240) * 262144 + (b1 - 128) * 4096
                             + (b2 - 128) * 64 + (b3 - 128)))
                      (utf8_decode r3)
            else Raise UnicodeDecodeError
        | _ => Raise UnicodeDecodeError
        end
      else Raise UnicodeDecodeError
  end.

End Codec.
Export Codec.

(** ** Upper case

    [str.upper()] replaces every code point of a text by its full
    uppercase mapping in the Unicode character database, which may be
    longer than one code point: the sharp s becomes SS and the ligature
    st becomes ST; the dotless i becomes I and the long s becomes S.  The
    two tables below are the mappings of version 14.0 of the database,
    the one of CPython 3.11.  A code point that is in neither table is
    its own upper case. *)

Module Casing.
Local Open Scope Z_scope.

(** The code points that become one other code point: [(lo, hi, step, d)]
    maps the code points [lo], [lo + step], ... up to [hi] to themselves
    plus [d].  The entries are in increasing order of [lo]. *)
Definition upper_ranges : list (Z * Z * Z * Z) :=
  [(97, 122, 1, -32); (181, 181, 1, 743); (224, 246, 1, -32);
   (248, 254, 1, -32); (255, 255, 1, 121); (257, 303, 2, -1);
   (305, 305, 1, -232); (307, 311, 2, -1); (314, 328, 2, -1);
   (331, 375, 2, -1); (378, 382, 2, -1); (383, 383, 1, -300);
   (384, 384, 1, 195); (387, 389, 2, -1); (392, 392, 1, -1);
   (396, 396, 1, -1); (402, 402, 1, -1); (405, 405, 1, 97);
   (409, 409, 1, -1); (410, 410, 1, 163); (414, 414, 1, 130);
   (417, 421, 2, -1); (424, 424, 1, -1); (429, 429, 1, -1);
   (432, 432, 1, -1); (436, 438, 2, -1); (441, 441, 1, -1);
   (445, 445, 1, -1); (447, 447, 1, 56); (453, 453, 1, -1);
   (454, 454, 1, -2); (456, 456, 1, -1); (457, 457, 1, -2);
   (459, 459, 1, -1); (460, 460, 1, -2); (462, 476, 2, -1);
   (477, 477, 1, -79); (479, 495, 2, -1); (498, 498, 1, -1);
   (499, 499, 1, -2); (501, 501, 1, -1); (505, 543, 2, -1);
   (547, 563, 2, -1); (572, 572, 1, -1); (575, 576, 1, 10815);
   (578, 578, 1, -1); (583, 591, 2, -1); (592, 592, 1, 10783);
   (593, 593, 1, 10780); (594, 594, 1, 10782); (595, 595, 1, -210);
   (596, 596, 1, -206); (598, 599, 1, -205); (601, 601, 1, -202);
   (603, 603, 1, -203); (604, 604, 1, 42319); (608, 608, 1, -205);
   (609, 609, 1, 42315); (611, 611, 1, -207); (613, 613, 1, 42280);
   (614, 614, 1, 42308); (616, 616, 1, -209); (617, 617, 1, -211);
   (618, 618, 1, 42308); (619, 619, 1, 10743); (620, 620, 1, 42305);
   (623, 623, 1, -211); (625, 625, 1, 10749); (626, 626, 1, -213);
   (629, 629, 1, -214); (637, 637, 1, 10727); (640, 640, 1, -218);
   (642, 642, 1, 42307); (643, 643, 1, -218); (647, 647, 1, 42282);
   (648, 648, 1, -218); (649, 649, 1, -69); (650, 651, 1, -217);
   (652, 652, 1, -71); (658, 658, 1, -219); (669, 669, 1, 42261);
   (670, 670, 1, 42258); (837, 837, 1, 84); (881, 883, 2, -1);
   (887, 887, 1, -1); (891, 893, 1, 130); (940, 940, 1, -38);
   (941, 943, 1, -37); (945, 961, 1, -32); (962, 962, 1, -31);
   (963, 971, 1, -32); (972, 972, 1, -64); (973, 974, 1, -63);
   (976, 976, 1, -62); (977, 977, 1, -57); (981, 981, 1, -47);
   (982, 982, 1, -54); (983, 983, 1, -8); (985, 1007, 2, -1);
   (1008, 1008, 1, -86); (1009, 1009, 1, -80); (1010, 1010, 1, 7);
   (1011, 1011, 1, -116); (1013, 1013, 1, -96); (1016, 1016, 1, -1);
   (1019, 1019, 1, -1); (1072, 1103, 1, -32); (1104, 1119, 1, -80);
   (1121, 1153, 2, -1); (1163, 1215, 2, -1); (1218, 1230, 2, -1);
   (1231, 1231, 1, -15); (1233, 1327, 2, -1); (1377, 1414, 1, -48);
   (4304, 4346, 1, 3008); (4349, 4351, 1, 3008); (5112, 5117, 1, -8);
   (7296, 7296, 1, -6254); (7297, 7297, 1, -6253); (7298, 7298, 1, -6244);
   (7299, 7300, 1, -6242); (7301, 7301, 1, -6243); (7302, 7302, 1, -6236);
   (7303, 7303, 1, -6181); (7304, 7304, 1, 35266); (7545, 7545, 1, 35332);
   (7549, 7549, 1, 3814); (7566, 7566, 1, 35384); (7681, 7829, 2, -1);
   (7835, 7835, 1, -59); (7841, 7935, 2, -1); (7936, 7943, 1, 8);
   (7952, 7957, 1, 8); (7968, 7975, 1, 8); (7984, 7991, 1, 8);
   (8000, 8005, 1, 8); (8017, 8023, 2, 8); (8032, 8039, 1, 8);
   (8048, 8049, 1, 74); (8050, 8053, 1, 86); (8054, 8055, 1, 100);
   (8056, 8057, 1, 128); (8058, 8059, 1, 112); (8060, 8061, 1, 126);
   (8112, 8113, 1, 8); (8126, 8126, 1, -7205); (8144, 8145, 1, 8);
   (8160, 8161, 1, 8); (8165, 8165, 1, 7); (8526, 8526, 1, -28);
   (8560, 8575, 1, -16); (8580, 8580, 1, -1); (9424, 9449, 1, -26);
   (11312, 11359, 1, -48); (11361, 11361, 1, -1); (11365, 11365, 1, -10795);
   (11366, 11366, 1, -10792); (11368, 11372, 2, -1); (11379, 11379, 1, -1);
   (11382, 11382, 1, -1); (11393, 11491, 2, -1); (11500, 11502, 2, -1);
   (11507, 11507, 1, -1); (11520, 11557, 1, -7264); (11559, 11559, 1, -7264);
   (11565, 11565, 1, -7264); (42561, 42605, 2, -1); (42625, 42651, 2, -1);
   (42787, 42799, 2, -1); (42803, 42863, 2, -1); (42874, 42876, 2, -1);
   (42879, 42887, 2, -1); (42892, 42892, 1, -1); (42897, 42899, 2, -1);
   (42900, 42900, 1, 48); (42903, 42921, 2, -1); (42933, 42947, 2, -1);
   (42952, 42954, 2, -1); (42961, 42961, 1, -1); (42967, 42969, 2, -1);
   (42998, 42998, 1, -1); (43859, 43859, 1, -928); (43888, 43967, 1, -38864);
   (65345, 65370, 1, -32); (66600, 66639, 1, -40); (66776, 66811, 1, -40);
   (66967, 67003, 2, -39); (66968, 66976, 2, -39); (66980, 66992, 2, -39);
   (66996, 67000, 2, -39); (67004, 67004, 1, -39); (68800, 68850, 1, -64);
   (71872, 71903, 1, -32); (93792, 93823, 1, -32); (125218, 125251, 1, -34)].

(** The code points that become several, in increasing order. *)
Definition upper_special : list (Z * list Z) :=
  [(223, [83; 83]); (329, [700; 78]); (496, [74; 780]);
   (912, [921; 776; 769]); (944, [933; 776; 769]); (1415, [1333; 1362]);
   (7830, [72; 817]); (7831, [84; 776]); (7832, [87; 778]);
   (7833, [89; 778]); (7834, [65; 702]); (8016, [933; 787]);
   (8018, [933; 787; 768]); (8020, [933; 787; 769]); (8022, [933; 787; 834]);
   (8064, [7944; 921]); (8065, [7945; 921]); (8066, [7946; 921]);
   (8067, [7947; 921]); (8068, [7948; 921]); (8069, [7949; 921]);
   (8070, [7950; 921]); (8071, [7951; 921]); (8072, [7944; 921]);
   (8073, [7945; 921]); (8074, [7946; 921]); (8075, [7947; 921]);
   (8076, [7948; 921]); (8077, [7949; 921]); (8078, [7950; 921]);
   (8079, [7951; 921]); (8080, [7976; 921]); (8081, [7977; 921]);
   (8082, [7978; 921]); (8083, [7979; 921]); (8084, [7980; 921]);
   (8085, [7981; 921]); (8086, [7982; 921]); (8087, [7983; 921]);
   (8088, [7976; 921]); (8089, [7977; 921]); (8090, [7978; 921]);
   (8091, [7979; 921]); (8092, [7980; 921]); (8093, [7981; 921]);
   (8094, [7982; 921]); (8095, [7983; 921]); (8096, [8040; 921]);
   (8097, [8041; 921]); (8098, [8042; 921]); (8099, [8043; 921]);
   (8100, [8044; 921]); (8101, [8045; 921]); (8102, [8046; 921]);
   (8103, [8047; 921]); (8104, [8040; 921]); (8105, [8041; 921]);
   (8106, [8042; 921]); (8107, [8043; 921]); (8108, [8044; 921]);
   (8109, [8045; 921]); (8110, [8046; 921]); (8111, [8047; 921]);
   (8114, [8122; 921]); (8115, [913; 921]); (8116, [902; 921]);
   (8118, [913; 834]); (8119, [913; 834; 921]); (8124, [913; 921]);
   (8130, [8138; 921]); (8131, [919; 921]); (8132, [905; 921]);
   (8134, [919; 834]); (8135, [919; 834; 921]); (8140, [919; 921]);
   (8146, [921; 776; 768]); (8147, [921; 776; 769]); (8150, [921; 834]);
   (8151, [921; 776; 834]); (8162, [933; 776; 768]); (8163, [933; 776; 769]);
   (8164, [929; 787]); (8166, [933; 834]); (8167, [933; 776; 834]);
   (8178, [8186; 921]); (8179, [937; 921]); (8180, [911; 921]);
   (8182, [937; 834]); (8183, [937; 834; 921]); (8188, [937; 921]);
   (64256, [70; 70]); (64257, [70; 73]); (64258, [70; 76]);
   (64259, [70; 70; 73]); (64260, [70; 70; 76]); (64261, [83; 84]);
   (64262, [83; 84]); (64275, [1348; 1350]); (64276, [1348; 1333]);
   (64277, [1348; 1339]); (64278, [1358; 1350]); (64279, [1348; 1341])].

Fixpoint special_upper (table : list (Z * list Z)) (c : Z)
  : option (list Z) :=
  match table with
  | [] => None
  | (k, mapping) :: table' =>
      if c <? k then None
      else if c =? k then Some mapping
      else special_upper table' c
  end.

Fixpoint range_upper (table : list (Z * Z * Z * Z)) (c : Z) : option Z :=
  match table with
  | [] => None
  | (lo, hi, step, d) :: table' =>
      if c <? lo then None
      else if (c <=? hi) && ((c - lo) mod step =? 0) then Some (c + d)
      else range_upper table' c
  end.

Definition upper_cp (c : Z) : list Z :=
  match special_upper upper_special c with
  | Some mapping => mapping
  | None =>
      match range_upper upper_ranges c with
      | Some u => [u]
      | None => [c]
      end
  end.

(** [t.upper()] on a text. *)
Definition upper_text (t : text) : text := flat_map upper_cp t.

Definition bytes_of_string (s : string) : list Z :=
  map ord (list_ascii_of_string s).

Definition string_of_bytes (bs : list Z) : string :=
  string_of_list_ascii (map chr bs).

(** [s.upper()] on a string.  A string stands for the text whose UTF-8
    encoding it is; a string that is the encoding of no text is left as
    it is. *)
Definition upper (s : string) : string :=
  match utf8_decode (bytes_of_string s) with
  | Ret t =>
      match utf8_encode (upper_text t) with
      | Ret bs => string_of_bytes bs
      | Raise _ => s
      end
  | Raise _ => s
  end.

End Casing.
Export Casing.

(** ** HTTP requests, responses and the effect monad *)

Module Http.

Inductive method := GET | POST | PATCH.

(** What a call of [requests.get], [requests.post] or [requests.patch]
    sends: [params] is the query string, [body] the [json=] argument. *)
Record request := Request {
  meth : method;
  url : string;
  headers : list (string * string);
  params : list (string * string);
  body : option json
}.

(** The body of a response either parses as JSON or does not. *)
Inductive payload :=
  | NotJson
  | Json (j : json).

(** The call either fails in transport (connection refused, timeout,
    invalid URL: [requests] raises) or yields a response with a status. *)
Inductive response :=
  | ConnectionFailed
  | Response (status : Z) (content : payload).

(** The state threaded through a run: the state of the remote systems and
    the log of the requests issued so far, oldest first. *)
Record state (W : Type) := State {
  remote : W;
  log : list request
}.
Arguments State {W} remote log.
Arguments remote {W} s.
Arguments log {W} s.

Definition M (W A : Type) : Type := state W -> result A * state W.

Definition ret {W A} (a : A) : M W A := fun s => (Ret a, s).

Definition raise {W A} (e : exn) : M W A := fun s => (Raise e, s).

Definition bind {W A B} (m : M W A) (k : A -> M W B) : M W B :=
  fun s =>
    match m s with
    | (Ret a, s') => k a s'
    | (Raise e, s') => (Raise e, s')
    end.

(** A pure step that may raise. *)
Definition lift {W A} (r : result A) : M W A := fun s => (r, s).

(** [try: m except requests.exceptions.RequestException: handler] *)
Definition try_except {W A} (m handler : M W A) : M W A :=
  fun s =>
    match m s with
    | (Raise e, s') =>
        if is_RequestException e then handler s' else (Raise e, s')
    | r => r
    end.

Definition status_ok (status : Z) : bool :=
  negb ((400 <=? status)%Z && (status <? 600)%Z).

(** [response.raise_for_status()] raises on the 4xx and 5xx statuses. *)
Definition raise_for_status {W} (r : Z * payload) : M W unit :=
  if status_ok (fst r) then ret tt else raise HTTPError.

(** [response.json()] *)
Definition response_json {W} (r : Z * payload) : M W json :=
  match snd r with
  | Json j => ret j
  | NotJson => raise JSONDecodeError
  end.

Section Requests.
Context {W : Type}.
Variable serve : W -> request -> W * response.

(** One HTTP call: the request is logged, the remote moves on and
    answers; a transport failure raises. *)
Definition send (req : request) : M W (Z * payload) :=
  fun s =>
    let (w', resp) := serve (remote s) req in
    let s' := State w' (log s ++ [req]) in
    match resp with
    | ConnectionFailed => (Raise ConnectionError, s')
    | Response status content => (Ret (status, content), s')
    end.

Definition requests_get (u : string) (hs ps : list (string * string))
  : M W (Z * payload) :=
  send (Request GET u hs ps None).

Definition requests_post (u : string) (hs : list (string * string))
  (data : json) : M W (Z * payload) :=
  send (Request POST u hs [] (Some data)).

Definition requests_patch (u : string) (hs : list (string * string))
  (data : json) : M W (Z * payload) :=
  send (Request PATCH u hs [] (Some data)).
End Requests.

(** [for x in xs: body x] *)
Fixpoint for_each {W A} (xs : list A) (body : A -> M W unit) : M W unit :=
  match xs with
  | [] => ret tt
  | x :: xs' => bind (body x) (fun _ => for_each xs' body)
  end.

End Http.
Export Http.

Notation "x <- m ;; k" := (bind m (fun x => k))
  (at level 100, m at next level, right associativity).
Notation "m ;;; k" := (bind m (fun _ => k))
  (at level 100, right associativity).

(** The order of Python on strings, character by character, and [sorted]
    on a set of strings: the one sorted list of its members. *)
Definition str_le (s1 s2 : string) : Prop := Is_true (String.leb s1 s2).

#[global] Instance str_le_dec s1 s2 : Decision (str_le s1 s2) :=
  Is_true_dec _.

Definition sorted (paths : gset string) : list string :=
  merge_sort str_le (elements paths).

(** ** user_creation_adding_notebooks.py *)

Module user_creation_adding_notebooks.

(** An entry of [WORKSPACE_CONFIG]: a dictionary with the two keys "url"
    and "token", each holding what [os.getenv] returned, which is [None]
    for a variable that is not set. *)
Record config := Config {
  cfg_url : option string;
  cfg_token : option string
}.

Definition get_headers (token : option string) : list (string * string) :=
  [("Authorization", "Bearer " +:+ fmt token);
   ("Content-Type", "application/json")].

Section Script.
Context {W : Type}.
Variable serve : W -> request -> W * response.
(** The process environment, read once when the module is loaded. *)
Variable getenv : string -> option string.
(** The call depth left to [list_notebooks] before the interpreter
    raises [RecursionError]. *)
Variable recursion_limit : nat.

Definition WORKSPACE_CONFIG : list (string * config) :=
  [("STAGING", Config (getenv "STAGING_WORKSPACE_URL")
                      (getenv "STAGING_ACCESS_TOKEN"));
   ("PREPROD", Config (getenv "PREPROD_WORKSPACE_URL")
                      (getenv "PREPROD_ACCESS_TOKEN"))].

(** The result is [None] or a two-key dictionary, which is true in a
    condition whatever its values are. *)
Definition get_workspace_config (workspace_name : string) : option config :=
  dict_get (upper workspace_name) WORKSPACE_CONFIG.

Definition get_users (workspace_url access_token : option string)
  : M W json :=
  let api_endpoint := fmt workspace_url +:+ "/api/2.0/preview/scim/v2/Users" in
  try_except
    (response <- requests_get serve api_endpoint (get_headers access_token) [] ;;
     raise_for_status response ;;;
     j <- response_json response ;;
     users <- lift (py_get j "Resources" (JArr [])) ;;
     lift (py_len users) ;;;
     ret users)
    (ret (JArr [])).

(** Both log lines print [user['userName']], in the [try] and in the
    handler. *)
Definition create_user (workspace_url access_token : option string)
  (user : json) : M W bool :=
  let api_endpoint := fmt workspace_url +:+ "/api/2.0/preview/scim/v2/Users" in
  try_except
    (response <- requests_post serve api_endpoint (get_headers access_token) user ;;
     raise_for_status response ;;;
     lift (py_getitem user "userName") ;;;
     ret true)
    (lift (py_getitem user "userName") ;;;
     ret false).

(** [obj["path"]]: the workspace API gives paths as strings, and the
    lists and sets of paths below hold strings.  A path of another JSON
    type is not followed here: it is reported as a [TypeError]. *)
Definition obj_path (obj : json) : result string :=
  rbind (py_getitem obj "path") (fun p =>
    match p with
    | JStr s => Ret s
    | _ => Raise TypeError
    end).

(** The loop over the objects of one listing; [descend] lists a
    sub-directory. *)
Fixpoint list_objects
  (descend : string -> M W (list string * gset string))
  (objects : list json) (notebooks : list string)
  (directories : gset string) : M W (list string * gset string) :=
  match objects with
  | [] => ret (notebooks, directories)
  | obj :: rest =>
      ty <- lift (py_getitem obj "object_type") ;;
      if py_eq_str ty "NOTEBOOK" then
        p <- lift (obj_path obj) ;;
        list_objects descend rest (notebooks ++ [p]) directories
      else if py_eq_str ty "DIRECTORY" then
        p <- lift (obj_path obj) ;;
        sub <- descend p ;;
        list_objects descend rest (notebooks ++ fst sub)
          (directories ∪ {[p]} ∪ snd sub)
      else list_objects descend rest notebooks directories
  end.

Fixpoint list_notebooks_at (depth : nat)
  (workspace_url access_token : option string) (path : string)
  : M W (list string * gset string) :=
  match depth with
  | O => raise RecursionError
  | S depth' =>
      let api_endpoint := fmt workspace_url +:+ "/api/2.0/workspace/list" in
      try_except
        (response <- requests_get serve api_endpoint
                       (get_headers access_token) [("path", path)] ;;
         raise_for_status response ;;;
         j <- response_json response ;;
         objects <- lift (py_get j "objects" (JArr [])) ;;
         objs <- lift (py_iter objects) ;;
         list_objects (list_notebooks_at depth' workspace_url access_token)
           objs [] ∅)
        (ret ([], ∅))
  end.

Definition list_notebooks (workspace_url access_token : option string)
  (path : string) : M W (list string * gset string) :=
  list_notebooks_at recursion_limit workspace_url access_token path.

(** [None] is the failure value; a text is the decoded notebook. *)
Definition export_notebook (workspace_url access_token : option string)
  (notebook_path : string) : M W (option text) :=
  let api_endpoint := fmt workspace_url +:+ "/api/2.0/workspace/export" in
  try_except
    (response <- requests_get serve api_endpoint (get_headers access_token)
                   [("path", notebook_path); ("format", "SOURCE")] ;;
     raise_for_status response ;;;
     j <- response_json response ;;
     content <- lift (py_get j "content" (JStr "")) ;;
     raw <- lift (b64decode content) ;;
     decoded <- lift (utf8_decode raw) ;;
     ret (Some decoded))
    (ret None).

Definition create_directory (workspace_url access_token : option string)
  (directory_path : string) : M W unit :=
  let api_endpoint := fmt workspace_url +:+ "/api/2.0/workspace/mkdirs" in
  let data := JObj [("path", JStr directory_path)] in
  try_except
    (response <- requests_post serve api_endpoint (get_headers access_token) data ;;
     raise_for_status response ;;;
     ret tt)
    (ret tt).

Definition import_data (notebook_path content_encoded : string) : json :=
  JObj [("path", JStr notebook_path);
        ("format", JStr "SOURCE");
        ("content", JStr content_encoded);
        ("overwrite", JBool true);
        ("language", JStr "PYTHON")].

(** The content is encoded before the [try]. *)
Definition import_notebook (workspace_url access_token : option string)
  (notebook_path : string) (content : text) : M W bool :=
  let api_endpoint := fmt workspace_url +:+ "/api/2.0/workspace/import" in
  raw <- lift (utf8_encode content) ;;
  let content_encoded := b64encode raw in
  let data := import_data notebook_path content_encoded in
  try_except
    (response <- requests_post serve api_endpoint (get_headers access_token) data ;;
     raise_for_status response ;;;
     ret true)
    (ret false).

(** The body of [for user in users].  [user_name_map] is written and
    never read: of the assignment only what it can raise is kept. *)
Definition transfer_user (target_config : config) (user : json) : M W unit :=
  user' <- lift (py_pop user "id") ;;
  created <- create_user (cfg_url target_config) (cfg_token target_config) user' ;;
  if created then
    lift (py_get user' "userName" (JStr "unknown_user")) ;;;
    name <- lift (py_getitem user' "userName") ;;
    if py_hashable name then ret tt else raise TypeError
  else ret tt.

(** [not notebook_content]: [None] and the empty text. *)
Definition export_failed (notebook_content : option text) : bool :=
  match notebook_content with
  | None => true
  | Some [] => true
  | Some _ => false
  end.

(** The body of [for notebook_path in notebook_paths]. *)
Definition transfer_notebook (source_config target_config : config)
  (notebook_path : string) : M W unit :=
  notebook_content <- export_notebook (cfg_url source_config)
                        (cfg_token source_config) notebook_path ;;
  if export_failed notebook_content then ret tt
  else
    import_notebook (cfg_url target_config) (cfg_token target_config)
      notebook_path (default [] notebook_content) ;;;
    ret tt.

Definition transfer_users_and_notebooks
  (source_workspace target_workspace : string) : M W unit :=
  match get_workspace_config source_workspace,
        get_workspace_config target_workspace with
  | None, _ => ret tt
  | Some _, None => ret tt
  | Some source_config, Some target_config =>
      users <- get_users (cfg_url source_config) (cfg_token source_config) ;;
      us <- lift (py_iter users) ;;
      for_each us (transfer_user target_config) ;;;
      found <- list_notebooks (cfg_url source_config)
                 (cfg_token source_config) "/" ;;
      let notebook_paths := fst found in
      let directory_paths := snd found in
      for_each (sorted directory_paths)
        (create_directory (cfg_url target_config) (cfg_token target_config)) ;;;
      for_each notebook_paths (transfer_notebook source_config target_config)
  end.

End Script.
End user_creation_adding_notebooks.

(** ** multicloud_git.py *)

Module multicloud_git.

Record config := Config {
  cfg_url : option string;
  cfg_token : option string
}.

Definition get_headers (token : option string) : list (string * string) :=
  [("Authorization", "Bearer " +:+ fmt token);
   ("Content-Type", "application/json")].

(** Equality of two dictionary keys.  Only hashable values become keys;
    among those a boolean equals the number 0 or 1 it stands for. *)
Definition key_eqb (a b : json) : bool :=
  match a, b with
  | JNull, JNull => true
  | JStr x, JStr y => (x =? y)%string
  | JNum x, JNum y => (x =? y)%Z
  | JBool x, JBool y => Bool.eqb x y
  | JBool x, JNum y | JNum y, JBool x => ((if x then 1 else 0) =? y)%Z
  | _, _ => false
  end.

(** [d[k] = v] on a dictionary whose keys are JSON values. *)
Fixpoint perm_set (k v : json) (d : list (json * json)) : list (json * json) :=
  match d with
  | [] => [(k, v)]
  | (k', v') :: d' =>
      if key_eqb k k' then (k', v) :: d' else (k', v') :: perm_set k v d'
  end.

(** The loop that turns the access control list into a dictionary. *)
Fixpoint permissions_of (permissions_list : list json)
  (permissions_dict : list (json * json)) : result (list (json * json)) :=
  match permissions_list with
  | [] => Ret permissions_dict
  | permission :: rest =>
      rbind (py_get permission "user_name" JNull) (fun user_name =>
      rbind (py_get permission "permission_level" JNull) (fun permission_level =>
      if truthy user_name && truthy permission_level then
        if py_hashable user_name
        then permissions_of rest (perm_set user_name permission_level permissions_dict)
        else Raise TypeError
      else permissions_of rest permissions_dict))
  end.

(** The permissions used when the source has none. *)
Definition default_permissions : list (json * json) :=
  [(JStr "somin.sangwan@digivatelabs.com", JStr "CAN_MANAGE");
   (JStr "samir.shinde@digivatelabs.com", JStr "CAN_MANAGE")].

(** [if cluster_id]: a cluster id was given and is not the empty string. *)
Definition cluster_given (cluster_id : option string) : bool :=
  match cluster_id with
  | Some c => negb (c =? "")%string
  | None => false
  end.

(** The body of the PATCH request of [grant_permissions]. *)
Definition grant_data (email permission_level : json)
  (cluster_id : option string) : json :=
  let entry := JObj [("user_name", email);
                     ("permission_level", permission_level)] in
  JObj [("access_control_list",
         JArr (if cluster_given cluster_id
               then [entry;
                     JObj [("user_name", email);
                           ("permission_level", JStr "CAN_ATTACH_TO");
                           ("cluster_id", JStr (default "" cluster_id))]]
               else [entry]))].

(** [not path] for the result of [import_notebook]. *)
Definition no_path (path : option string) : bool :=
  match path with
  | Some p => (p =? "")%string
  | None => true
  end.

(** [not notebook_content] for the result of the fetch. *)
Definition no_content (content : option text) : bool :=
  match content with
  | None => true
  | Some [] => true
  | Some _ => false
  end.

(** [not source_permissions] *)
Definition no_permissions (p : option (list (json * json))) : bool :=
  match p with
  | None => true
  | Some [] => true
  | Some _ => false
  end.

Section Script.
Context {W : Type}.
Variable serve : W -> request -> W * response.
Variable getenv : string -> option string.
(** How an f-string prints a value taken from a JSON document. *)
Variable format_value : json -> string.

Definition WORKSPACE_CONFIG : list (string * config) :=
  [("AWS", Config (getenv "AWS_WORKSPACE_URL") (getenv "AWS_ACCESS_TOKEN"));
   ("AZURE", Config (getenv "AZURE_WORKSPACE_URL") (getenv "AZURE_ACCESS_TOKEN"));
   ("GCP", Config (getenv "GCP_WORKSPACE_URL") (getenv "GCP_ACCESS_TOKEN"))].

Definition GITHUB_TOKEN : option string := getenv "GITHUB_TOKEN".
Definition GITHUB_REPO_OWNER : option string := getenv "GITHUB_REPO_OWNER".
Definition GITHUB_REPO_NAME : option string := getenv "GITHUB_REPO_NAME".

Definition get_workspace_config (cloud_provider : string) : option config :=
  dict_get (upper cloud_provider) WORKSPACE_CONFIG.

Definition github_endpoint (repo_owner repo_name : option string)
  (notebook_path : string) : string :=
  "https://api.github.com/repos/" +:+ fmt repo_owner +:+ "/"
    +:+ fmt repo_name +:+ "/contents/" +:+ notebook_path.

Definition github_headers (github_token : option string)
  : list (string * string) :=
  [("Authorization", "token " +:+ fmt github_token);
   ("Accept", "application/vnd.github.v3+json")].

Definition fetch_notebook_from_github (repo_owner repo_name : option string)
  (notebook_path : string) (github_token : option string)
  : M W (option text) :=
  try_except
    (response <- requests_get serve
                   (github_endpoint repo_owner repo_name notebook_path)
                   (github_headers github_token) [] ;;
     raise_for_status response ;;;
     j <- response_json response ;;
     content <- lift (py_get j "content" JNull) ;;
     if truthy content then
       raw <- lift (b64decode content) ;;
       decoded <- lift (utf8_decode raw) ;;
       ret (Some decoded)
     else ret None)
    (ret None).

Definition import_data (notebook_path content_encoded : string) : json :=
  JObj [("path", JStr notebook_path);
        ("format", JStr "SOURCE");
        ("language", JStr "PYTHON");
        ("content", JStr content_encoded);
        ("overwrite", JBool true)].

Definition import_notebook (workspace_url access_token : option string)
  (content : text) (notebook_name workspace_dir : string)
  : M W (option string) :=
  let api_endpoint := fmt workspace_url +:+ "/api/2.0/workspace/import" in
  let notebook_path := workspace_dir +:+ "/" +:+ notebook_name in
  raw <- lift (utf8_encode content) ;;
  let data := import_data notebook_path (b64encode raw) in
  try_except
    (response <- requests_post serve api_endpoint (get_headers access_token) data ;;
     raise_for_status response ;;;
     ret (Some notebook_path))
    (ret None).

(** [None] is [JNull].  The body is parsed for the log line and again
    for the result. *)
Definition get_notebook_id (workspace_url access_token : option string)
  (notebook_path : string) : M W json :=
  let api_endpoint := fmt workspace_url +:+ "/api/2.0/workspace/get-status" in
  try_except
    (response <- requests_get serve api_endpoint (get_headers access_token)
                   [("path", notebook_path)] ;;
     raise_for_status response ;;;
     response_json response ;;;
     j <- response_json response ;;
     lift (py_get j "object_id" JNull))
    (ret JNull).

Definition get_object_status (workspace_url access_token : option string)
  (path : string) : M W json :=
  let api_endpoint := fmt workspace_url +:+ "/api/2.0/workspace/get-status" in
  try_except
    (response <- requests_get serve api_endpoint (get_headers access_token)
                   [("path", path)] ;;
     raise_for_status response ;;;
     response_json response)
    (ret JNull).

(** The permission endpoint of an object, by its type. *)
Definition permissions_endpoint (workspace_url : option string)
  (object_type object_id : json) : option string :=
  if py_eq_str object_type "NOTEBOOK" then
    Some (fmt workspace_url +:+ "/api/2.0/permissions/notebooks/"
            +:+ format_value object_id)
  else if py_eq_str object_type "DIRECTORY" then
    Some (fmt workspace_url +:+ "/api/2.0/permissions/directories/"
            +:+ format_value object_id)
  else None.

Definition get_permissions (workspace_url access_token : option string)
  (path : string) : M W (option (list (json * json))) :=
  object_status <- get_object_status workspace_url access_token path ;;
  if negb (truthy object_status) then ret None
  else
    object_id <- lift (py_get object_status "object_id" JNull) ;;
    object_type <- lift (py_get object_status "object_type" JNull) ;;
    match permissions_endpoint workspace_url object_type object_id with
    | None => ret None
    | Some api_endpoint =>
        try_except
          (response <- requests_get serve api_endpoint
                         (get_headers access_token) [] ;;
           raise_for_status response ;;;
           j <- response_json response ;;
           acl <- lift (py_get j "access_control_list" (JArr [])) ;;
           permissions_list <- lift (py_iter acl) ;;
           permissions_dict <- lift (permissions_of permissions_list []) ;;
           ret (Some permissions_dict))
          (ret (Some []))
    end.

Definition grant_permissions (workspace_url access_token : option string)
  (path : string) (email permission_level : json)
  (cluster_id : option string) : M W bool :=
  object_status <- get_object_status workspace_url access_token path ;;
  if negb (truthy object_status) then ret false
  else
    object_id <- lift (py_get object_status "object_id" JNull) ;;
    object_type <- lift (py_get object_status "object_type" JNull) ;;
    match permissions_endpoint workspace_url object_type object_id with
    | None => ret false
    | Some api_endpoint =>
        let data := grant_data email permission_level cluster_id in
        try_except
          (response <- requests_patch serve api_endpoint
                         (get_headers access_token) data ;;
           raise_for_status response ;;;
           ret true)
          (ret false)
    end.

(** [for user, permission_level in permissions.items(): grant_permissions(...)] *)
Definition apply_permissions (cfg : config) (path : string)
  (permissions : list (json * json)) (cluster_id : option string) : M W unit :=
  for_each permissions (fun up =>
    grant_permissions (cfg_url cfg) (cfg_token cfg) path
      (fst up) (snd up) cluster_id ;;;
    ret tt).

Definition notebook_name : string := "demon_slayer_notebook.py".
Definition workspace_dir : string :=
  "/Workspace/Users/adhyan.mishra@digivatelabs.com".

Definition sync_notebooks_and_permissions (source_cloud target_cloud : string)
  (git_url cluster_id : option string) : M W unit :=
  match get_workspace_config source_cloud,
        get_workspace_config target_cloud with
  | Some source_config, Some target_config =>
      notebook_content <- fetch_notebook_from_github GITHUB_REPO_OWNER
                            GITHUB_REPO_NAME notebook_name GITHUB_TOKEN ;;
      if no_content notebook_content then ret tt else
      let content := default [] notebook_content in
      source_notebook_path <- import_notebook (cfg_url source_config)
          (cfg_token source_config) content notebook_name workspace_dir ;;
      if no_path source_notebook_path then ret tt else
      let source_path := default "" source_notebook_path in
      target_notebook_path <- import_notebook (cfg_url target_config)
          (cfg_token target_config) content notebook_name workspace_dir ;;
      if no_path target_notebook_path then ret tt else
      let target_path := default "" target_notebook_path in
      source_notebook_id <- get_notebook_id (cfg_url source_config)
          (cfg_token source_config) source_path ;;
      if negb (truthy source_notebook_id) then ret tt else
      fetched <- get_permissions (cfg_url source_config)
          (cfg_token source_config) source_path ;;
      let source_permissions :=
        if no_permissions fetched then default_permissions
        else default [] fetched in
      target_notebook_id <- get_notebook_id (cfg_url target_config)
          (cfg_token target_config) target_path ;;
      if negb (truthy target_notebook_id) then ret tt else
      apply_permissions source_config source_path source_permissions cluster_id ;;;
      apply_permissions target_config target_path source_permissions cluster_id
  | _, _ => ret tt
  end.

End Script.
End multicloud_git.

(** * Specification vocabulary

    ** What a [try] block sees of a response *)

Module Outcome.

(** [requests.get(...)] followed by [raise_for_status()] and [json()]. *)
Definition parsed (resp : response) : result json :=
  match resp with
  | ConnectionFailed => Raise ConnectionError
  | Response status content =>
      if status_ok status then
        match content with
        | Json j => Ret j
        | NotJson => Raise JSONDecodeError
        end
      else Raise HTTPError
  end.

(** [requests.post(...)] followed by [raise_for_status()]. *)
Definition accepted (resp : response) : result unit :=
  match resp with
  | ConnectionFailed => Raise ConnectionError
  | Response status _ => if status_ok status then Ret tt else Raise HTTPError
  end.

(** The [except requests.exceptions.RequestException] clause returning
    [sentinel]. *)
Definition handle {A} (r : result A) (sentinel : A) : result A :=
  match r with
  | Raise e => if is_RequestException e then Ret sentinel else Raise e
  | _ => r
  end.

(** A response that makes the [try] block raise a [RequestException]:
    no connection, a 4xx or 5xx status, or a body that is not JSON. *)
Definition failing (resp : response) : Prop :=
  match resp with
  | ConnectionFailed => True
  | Response status content => status_ok status = false \/ content = NotJson
  end.

(** A response that makes [raise_for_status] or the call itself raise:
    no connection, or a 4xx or 5xx status. *)
Definition refused (resp : response) : Prop :=
  match resp with
  | ConnectionFailed => True
  | Response status _ => status_ok status = false
  end.

(** A remote that has no state. *)
Definition stateless (answer : request -> response)
  : unit -> request -> unit * response :=
  fun _ req => (tt, answer req).

Definition offline : unit -> request -> unit * response :=
  stateless (fun _ => ConnectionFailed).

(** A remote that accepts everything and says nothing: status 200 and the
    empty object. *)
Definition blank_serve : unit -> request -> unit * response :=
  stateless (fun _ => Response 200 (Json (JObj []))).

(** A remote whose content field is no base64: one character. *)
Definition malformed_serve : unit -> request -> unit * response :=
  stateless (fun _ => Response 200 (Json (JObj [("content", JStr "a")]))).

(** The request log grows by [L] and every request of [L] satisfies [P]. *)
Definition emits {W A} (P : request -> Prop) (m : M W A) : Prop :=
  forall s, exists L, log (snd (m s)) = log s ++ L /\ Forall P L.

(** No [RequestException] leaves [m]. *)
Definition contained {W A} (m : M W A) : Prop :=
  forall s e, fst (m s) = Raise e -> is_RequestException e = false.

End Outcome.
Export Outcome.

(** ** The bulk migration *)

Module migration.
Import user_creation_adding_notebooks.

Definition users_endpoint (u : option string) : string :=
  fmt u +:+ "/api/2.0/preview/scim/v2/Users".
Definition list_endpoint (u : option string) : string :=
  fmt u +:+ "/api/2.0/workspace/list".
Definition export_endpoint (u : option string) : string :=
  fmt u +:+ "/api/2.0/workspace/export".
Definition mkdirs_endpoint (u : option string) : string :=
  fmt u +:+ "/api/2.0/workspace/mkdirs".
Definition import_endpoint (u : option string) : string :=
  fmt u +:+ "/api/2.0/workspace/import".

Definition users_request (c : config) : request :=
  Request GET (users_endpoint (cfg_url c)) (get_headers (cfg_token c)) [] None.

Definition create_user_request (c : config) (user : json) : request :=
  Request POST (users_endpoint (cfg_url c)) (get_headers (cfg_token c)) []
    (Some user).

Definition list_request (c : config) (path : string) : request :=
  Request GET (list_endpoint (cfg_url c)) (get_headers (cfg_token c))
    [("path", path)] None.

Definition export_request (c : config) (path : string) : request :=
  Request GET (export_endpoint (cfg_url c)) (get_headers (cfg_token c))
    [("path", path); ("format", "SOURCE")] None.

Definition mkdirs_request (c : config) (path : string) : request :=
  Request POST (mkdirs_endpoint (cfg_url c)) (get_headers (cfg_token c)) []
    (Some (JObj [("path", JStr path)])).

Definition import_request (c : config) (path content_encoded : string)
  : request :=
  Request POST (import_endpoint (cfg_url c)) (get_headers (cfg_token c)) []
    (Some (import_data path content_encoded)).

(** What [export_notebook] returns on a response. *)
Definition export_outcome (resp : response) : result (option text) :=
  handle
    (rbind (parsed resp) (fun j =>
     rbind (py_get j "content" (JStr "")) (fun content =>
     rbind (b64decode content) (fun raw =>
     rmap Some (utf8_decode raw)))))
    None.

(** What [get_users] returns on a response. *)
Definition users_outcome (resp : response) : result json :=
  handle
    (rbind (parsed resp) (fun j =>
     rbind (py_get j "Resources" (JArr [])) (fun users =>
     rbind (py_len users) (fun _ => Ret users))))
    (JArr []).

(** What [create_user] returns on a response. *)
Definition create_user_outcome (user : json) (resp : response) : result bool :=
  match accepted resp with
  | Ret _ => rmap (fun _ => true) (py_getitem user "userName")
  | Raise _ => rmap (fun _ => false) (py_getitem user "userName")
  end.

(** What [import_notebook] returns on a response. *)
Definition import_outcome (resp : response) : bool :=
  match accepted resp with
  | Ret _ => true
  | Raise _ => false
  end.

(** A user record as the target receives it. *)
Definition strip_id (user : list (string * json)) : json :=
  JObj (dict_pop "id" user).

(** [p] is a path strictly above [q]: a proper prefix of it. *)
Definition proper_prefix (p q : string) : Prop :=
  String.prefix p q = true /\ p <> q.

(** [p] occurs before [q] in [l]. *)
Definition before {A} (p q : A) (l : list A) : Prop :=
  exists l1 l2 l3, l = l1 ++ p :: l2 ++ q :: l3.

(** A request that writes a directory or a notebook to the workspace of
    [c]. *)
Definition is_write (c : config) (req : request) : Prop :=
  (exists p, req = mkdirs_request c p)
  \/ (exists p content, req = import_request c p content).

(** A request of the steps before the directories are created: the users
    are read from the source and created on the target, and the source is
    listed. *)
Definition is_discovery (sc tc : config) (req : request) : Prop :=
  req = users_request sc
  \/ (exists user, req = create_user_request tc user)
  \/ (exists p, req = list_request sc p).

(** A request of the steps after the users: the listing, the creation of
    a directory, an export or an import. *)
Definition is_replication (sc tc : config) (req : request) : Prop :=
  (exists p, req = list_request sc p)
  \/ is_write tc req
  \/ (exists p, req = export_request sc p).

Section Traces.
Context {W : Type}.
Variable serve : W -> request -> W * response.
Variable recursion_limit : nat.

(** The steps of the migration up to and including the listing of the
    source: what they return is what the run has discovered. *)
Definition discover (source_config target_config : config)
  : M W (list string * gset string) :=
  users <- get_users serve (cfg_url source_config) (cfg_token source_config) ;;
  us <- lift (py_iter users) ;;
  for_each us (transfer_user serve target_config) ;;;
  list_notebooks serve recursion_limit (cfg_url source_config)
    (cfg_token source_config) "/".

(** The requests of the notebook loop on the paths [ps]: one export per
    notebook, followed or not by the import to the same path; the loop
    ends with the list or after an export that raised. *)
Inductive notebooks_log (sc tc : config)
  : list string -> list request -> Prop :=
  | nl_done : notebooks_log sc tc [] []
  | nl_raised p ps : notebooks_log sc tc (p :: ps) [export_request sc p]
  | nl_skip p ps L :
      notebooks_log sc tc ps L ->
      notebooks_log sc tc (p :: ps) (export_request sc p :: L)
  | nl_import p content ps L :
      notebooks_log sc tc ps L ->
      notebooks_log sc tc (p :: ps)
        (export_request sc p :: import_request tc p content :: L).

(** A complete run of the notebook loop from the remote state [w] to the
    remote state [w']: every notebook is exported; it is skipped when the
    export failed, and imported to the same path otherwise, whatever the
    answer to the import. *)
Inductive notebooks_trace (sc tc : config)
  : W -> list string -> list request -> W -> Prop :=
  | nt_done w : notebooks_trace sc tc w [] [] w
  | nt_skip w w1 w' resp r p ps L :
      serve w (export_request sc p) = (w1, resp) ->
      export_outcome resp = Ret r ->
      export_failed r = true ->
      notebooks_trace sc tc w1 ps L w' ->
      notebooks_trace sc tc w (p :: ps) (export_request sc p :: L) w'
  | nt_import w w1 w2 w' resp resp2 content raw p ps L :
      serve w (export_request sc p) = (w1, resp) ->
      export_outcome resp = Ret (Some content) ->
      content <> [] ->
      utf8_encode content = Ret raw ->
      serve w1 (import_request tc p (b64encode raw)) = (w2, resp2) ->
      notebooks_trace sc tc w2 ps L w' ->
      notebooks_trace sc tc w (p :: ps)
        (export_request sc p :: import_request tc p (b64encode raw) :: L) w'.

(** Any run of the notebook loop from the remote state [w], with its
    requests, its outcome and the remote state it leaves.  Every notebook
    is exported in turn.  The loop ends where an export raises; a failed
    export (the result is [None] or empty) is followed by the next
    notebook; any other export is followed by the import of what it
    returned, to the same path on the target, and then by the next
    notebook, whatever the target answers. *)
Inductive notebooks_run (sc tc : config)
  : W -> list string -> list request -> result unit -> W -> Prop :=
  | nr_done w : notebooks_run sc tc w [] [] (Ret tt) w
  | nr_raise w w1 resp e p ps :
      serve w (export_request sc p) = (w1, resp) ->
      export_outcome resp = Raise e ->
      notebooks_run sc tc w (p :: ps) [export_request sc p] (Raise e) w1
  | nr_skip w w1 w' resp r outcome p ps L :
      serve w (export_request sc p) = (w1, resp) ->
      export_outcome resp = Ret r ->
      export_failed r = true ->
      notebooks_run sc tc w1 ps L outcome w' ->
      notebooks_run sc tc w (p :: ps) (export_request sc p :: L) outcome w'
  | nr_import w w1 w2 w' resp resp2 content raw outcome p ps L :
      serve w (export_request sc p) = (w1, resp) ->
      export_outcome resp = Ret (Some content) ->
      content <> [] ->
      utf8_encode content = Ret raw ->
      serve w1 (import_request tc p (b64encode raw)) = (w2, resp2) ->
      notebooks_run sc tc w2 ps L outcome w' ->
      notebooks_run sc tc w (p :: ps)
        (export_request sc p :: import_request tc p (b64encode raw) :: L)
        outcome w'.

End Traces.

(** The mocked remote of the round-trip property: a store that records
    the last content written to each path.  A POST with a path and a
    content stores it; a GET with a path returns what the path holds. *)
Definition store_serve (w : gmap string string) (req : request)
  : gmap string string * response :=
  match meth req with
  | POST =>
      match body req with
      | Some (JObj d) =>
          match dict_get "path" d, dict_get "content" d with
          | Some (JStr p), Some (JStr c) =>
              (<[p := c]> w, Response 200 (Json (JObj [])))
          | _, _ => (w, Response 400 NotJson)
          end
      | _ => (w, Response 400 NotJson)
      end
  | GET =>
      match dict_get "path" (params req) with
      | Some p =>
          match w !! p with
          | Some c => (w, Response 200 (Json (JObj [("content", JStr c)])))
          | None => (w, Response 404 NotJson)
          end
      | None => (w, Response 400 NotJson)
      end
  | PATCH => (w, Response 405 NotJson)
  end.

(** The scenario of the specification.  The source lists the notebooks
    /n1 and /n2 and the directory /d1, which is empty; every notebook
    exports as the text [print(1)]; the source has one user. *)
Definition scenario_env (name : string) : option string :=
  if (name =? "STAGING_WORKSPACE_URL")%string then Some "https://src"
  else if (name =? "STAGING_ACCESS_TOKEN")%string then Some "s"
  else if (name =? "PREPROD_WORKSPACE_URL")%string then Some "https://tgt"
  else if (name =? "PREPROD_ACCESS_TOKEN")%string then Some "t"
  else None.

(** An environment that names the two workspaces and gives no token. *)
Definition tokenless_env (name : string) : option string :=
  if (name =? "STAGING_WORKSPACE_URL")%string then Some "https://src"
  else if (name =? "PREPROD_WORKSPACE_URL")%string then Some "https://tgt"
  else None.

Definition scenario_answer (req : request) : response :=
  if (url req =? "https://src/api/2.0/workspace/list")%string then
    match dict_get "path" (params req) with
    | Some "/" =>
        Response 200 (Json (JObj [("objects", JArr [
          JObj [("object_type", JStr "NOTEBOOK"); ("path", JStr "/n1")];
          JObj [("object_type", JStr "DIRECTORY"); ("path", JStr "/d1")];
          JObj [("object_type", JStr "NOTEBOOK"); ("path", JStr "/n2")]])]))
    | _ => Response 200 (Json (JObj []))
    end
  else if (url req =? "https://src/api/2.0/workspace/export")%string then
    Response 200 (Json (JObj [("content", JStr "cHJpbnQoMSk=")]))
  else if (url req =? "https://src/api/2.0/preview/scim/v2/Users")%string then
    Response 200 (Json (JObj [("Resources", JArr [
      JObj [("id", JStr "42"); ("userName", JStr "ada@example.com");
            ("active", JBool true)]])]))
  else Response 200 (Json (JObj [])).

Definition scenario_serve : unit -> request -> unit * response :=
  stateless scenario_answer.

(** A remote in trouble: the source lists four notebooks; the export of
    /x is refused by the source and the import of /b by the target; every
    other notebook exports as [print(1)]. *)
Definition flaky_answer (req : request) : response :=
  if (url req =? "https://src/api/2.0/workspace/list")%string then
    Response 200 (Json (JObj [("objects", JArr [
      JObj [("object_type", JStr "NOTEBOOK"); ("path", JStr "/a")];
      JObj [("object_type", JStr "NOTEBOOK"); ("path", JStr "/x")];
      JObj [("object_type", JStr "NOTEBOOK"); ("path", JStr "/b")];
      JObj [("object_type", JStr "NOTEBOOK"); ("path", JStr "/c")]])]))
  else if (url req =? "https://src/api/2.0/workspace/export")%string then
    match dict_get "path" (params req) with
    | Some "/x" => Response 500 NotJson
    | _ => Response 200 (Json (JObj [("content", JStr "cHJpbnQoMSk=")]))
    end
  else if (url req =? "https://tgt/api/2.0/workspace/import")%string then
    match body req with
    | Some (JObj (("path", JStr "/b") :: _)) => Response 403 NotJson
    | _ => Response 200 (Json (JObj []))
    end
  else Response 200 (Json (JObj [])).

Definition flaky_serve : unit -> request -> unit * response :=
  stateless flaky_answer.

(** The requests of a log that went to the workspace at [base]. *)
Definition sent_to (base : string) (L : list request) : list request :=
  filter (fun req => String.prefix base (url req) = true) L.

End migration.

(** ** The single-notebook synchronisation *)

Module sync.
Import multicloud_git.

Definition status_endpoint (u : option string) : string :=
  fmt u +:+ "/api/2.0/workspace/get-status".
Definition import_endpoint (u : option string) : string :=
  fmt u +:+ "/api/2.0/workspace/import".

Definition status_request (c : config) (path : string) : request :=
  Request GET (status_endpoint (cfg_url c)) (get_headers (cfg_token c))
    [("path", path)] None.

Definition import_request (c : config) (path content_encoded : string)
  : request :=
  Request POST (import_endpoint (cfg_url c)) (get_headers (cfg_token c)) []
    (Some (import_data path content_encoded)).

Definition permissions_request (c : config) (endpoint : string) : request :=
  Request GET endpoint (get_headers (cfg_token c)) [] None.

Definition grant_request (c : config) (endpoint : string)
  (email permission_level : json) (cluster_id : option string) : request :=
  Request PATCH endpoint (get_headers (cfg_token c)) []
    (Some (grant_data email permission_level cluster_id)).

Definition github_request (getenv : string -> option string) : request :=
  Request GET
    (github_endpoint (GITHUB_REPO_OWNER getenv) (GITHUB_REPO_NAME getenv)
       notebook_name)
    (github_headers (GITHUB_TOKEN getenv)) [] None.

(** The path both workspaces import the notebook to. *)
Definition notebook_path : string := workspace_dir +:+ "/" +:+ notebook_name.

(** What [get_object_status] returns on a response. *)
Definition status_outcome (resp : response) : result json :=
  handle (parsed resp) JNull.

(** What [get_notebook_id] returns on a response. *)
Definition notebook_id_outcome (resp : response) : result json :=
  handle (rbind (parsed resp) (fun j => py_get j "object_id" JNull)) JNull.

(** What [fetch_notebook_from_github] returns on a response. *)
Definition fetch_outcome (resp : response) : result (option text) :=
  handle
    (rbind (parsed resp) (fun j =>
     rbind (py_get j "content" JNull) (fun content =>
     if truthy content then
       rbind (b64decode content) (fun raw => rmap Some (utf8_decode raw))
     else Ret None)))
    None.

(** What [import_notebook] returns on a response. *)
Definition import_outcome (path : string) (resp : response) : option string :=
  match accepted resp with
  | Ret _ => Some path
  | Raise _ => None
  end.

(** What the permission request of [get_permissions] gives. *)
Definition permissions_outcome (resp : response)
  : result (option (list (json * json))) :=
  handle
    (rbind (parsed resp) (fun j =>
     rbind (py_get j "access_control_list" (JArr [])) (fun acl =>
     rbind (py_iter acl) (fun permissions_list =>
     rmap Some (permissions_of permissions_list [])))))
    (Some []).

(** What the PATCH of [grant_permissions] gives. *)
Definition grant_outcome (resp : response) : bool :=
  match accepted resp with
  | Ret _ => true
  | Raise _ => false
  end.

(** A PATCH request grants one of the permissions [perms]. *)
Definition grants_from (perms : list (json * json))
  (cluster_id : option string) (req : request) : Prop :=
  meth req = PATCH ->
  exists email level,
    (email, level) ∈ perms
    /\ body req = Some (grant_data email level cluster_id).

Section Steps.
Context {W : Type}.
Variable serve : W -> request -> W * response.
Variable getenv : string -> option string.
Variable format_value : json -> string.

(** The run up to and including the fetch of the permissions of the
    source: [None] when the run ended before; otherwise the paths of the
    notebook in the two workspaces and the fetched permissions. *)
Definition fetch_source_permissions (source_config target_config : config)
  : M W (option (string * string * option (list (json * json)))) :=
  notebook_content <- fetch_notebook_from_github serve
      (GITHUB_REPO_OWNER getenv) (GITHUB_REPO_NAME getenv) notebook_name
      (GITHUB_TOKEN getenv) ;;
  if no_content notebook_content then ret None else
  let content := default [] notebook_content in
  source_notebook_path <- import_notebook serve (cfg_url source_config)
      (cfg_token source_config) content notebook_name workspace_dir ;;
  if no_path source_notebook_path then ret None else
  let source_path := default "" source_notebook_path in
  target_notebook_path <- import_notebook serve (cfg_url target_config)
      (cfg_token target_config) content notebook_name workspace_dir ;;
  if no_path target_notebook_path then ret None else
  let target_path := default "" target_notebook_path in
  source_notebook_id <- get_notebook_id serve (cfg_url source_config)
      (cfg_token source_config) source_path ;;
  if negb (truthy source_notebook_id) then ret None else
  fetched <- get_permissions serve format_value (cfg_url source_config)
      (cfg_token source_config) source_path ;;
  ret (Some (source_path, target_path, fetched)).

(** The rest of the run, with the permissions [perms] to apply. *)
Definition apply_to_both (source_config target_config : config)
  (source_path target_path : string)
  (perms : list (json * json)) (cluster_id : option string) : M W unit :=
  target_notebook_id <- get_notebook_id serve (cfg_url target_config)
      (cfg_token target_config) target_path ;;
  if negb (truthy target_notebook_id) then ret tt else
  apply_permissions serve format_value source_config source_path perms
    cluster_id ;;;
  apply_permissions serve format_value target_config target_path perms
    cluster_id.

End Steps.

(** A remote for the synchronisation: the source host has the notebook,
    every import is accepted, every object is a notebook with the id 7,
    and no object has an access control list. *)
Definition bootstrap_answer (req : request) : response :=
  if String.prefix "https://api.github.com/" (url req) then
    Response 200 (Json (JObj [("content", JStr "cHJpbnQoMSk=")]))
  else if (url req =? "https://aws/api/2.0/workspace/get-status")%string
          || (url req =? "https://gcp/api/2.0/workspace/get-status")%string then
    Response 200 (Json (JObj [("object_id", JNum 7);
                              ("object_type", JStr "NOTEBOOK")]))
  else Response 200 (Json (JObj [])).

Definition bootstrap_serve : unit -> request -> unit * response :=
  stateless bootstrap_answer.

Definition bootstrap_env (name : string) : option string :=
  if (name =? "AWS_WORKSPACE_URL")%string then Some "https://aws"
  else if (name =? "AWS_ACCESS_TOKEN")%string then Some "a"
  else if (name =? "GCP_WORKSPACE_URL")%string then Some "https://gcp"
  else if (name =? "GCP_ACCESS_TOKEN")%string then Some "g"
  else if (name =? "GITHUB_TOKEN")%string then Some "gh"
  else if (name =? "GITHUB_REPO_OWNER")%string then Some "owner"
  else if (name =? "GITHUB_REPO_NAME")%string then Some "repo"
  else None.

(** A value of a JSON document as an f-string prints it, for numbers,
    strings and [None]; the remote above gives no other. *)
Definition bootstrap_format (v : json) : string :=
  match v with
  | JNum n => pretty n
  | JStr s => s
  | JBool true => "True"
  | JBool false => "False"
  | _ => "None"
  end.

End sync.
(** ** The source workspace as the listing shows it *)

Module workspace_tree.
Import user_creation_adding_notebooks migration.

(** What the listings show of a workspace: notebooks, directories with
    the entries of their own listing, directories whose listing fails,
    and objects of another type (libraries, files, repos). *)
Inductive entry :=
  | Notebook (path : string)
  | Directory (path : string) (content : list entry)
  | Unlisted (path : string)
  | Other (object_type path : string).

Definition kind (e : entry) : string :=
  match e with
  | Notebook _ => "NOTEBOOK"
  | Directory _ _ | Unlisted _ => "DIRECTORY"
  | Other object_type _ => object_type
  end.

Definition path_of (e : entry) : string :=
  match e with
  | Notebook p | Directory p _ | Unlisted p | Other _ p => p
  end.

(** An object of a listing stands for the entry [e]: it has the type and
    the path of [e], and any other field. *)
Definition describes (obj : json) (e : entry) : Prop :=
  exists d, obj = JObj d
    /\ dict_get "object_type" d = Some (JStr (kind e))
    /\ dict_get "path" d = Some (JStr (path_of e)).

(** A response lists the entries [es]: its status is no error and its
    body is an object whose field "objects" holds one object per entry,
    in order; the field is absent when there is no entry, which is how
    the workspace answers for an empty directory. *)
Definition lists (resp : response) (es : list entry) : Prop :=
  exists status top objs,
    resp = Response status (Json (JObj top))
    /\ status_ok status = true
    /\ (dict_get "objects" top = Some (JArr objs)
        \/ dict_get "objects" top = None /\ objs = [])
    /\ Forall2 describes objs es.

(** The workspace answers the listing of each directory of the entry as
    the entry says; [answer p] is the response to the listing of [p]. *)
Inductive shown (answer : string -> response) : entry -> Prop :=
  | shown_notebook p : shown answer (Notebook p)
  | shown_directory p es :
      lists (answer p) es -> Forall (shown answer) es ->
      shown answer (Directory p es)
  | shown_unlisted p : failing (answer p) -> shown answer (Unlisted p)
  | shown_other object_type p :
      object_type <> "NOTEBOOK" -> object_type <> "DIRECTORY" ->
      shown answer (Other object_type p).

(** The notebooks below an entry, in the order of the listings. *)
Fixpoint notebooks_of (e : entry) : list string :=
  match e with
  | Notebook p => [p]
  | Directory _ es => flat_map notebooks_of es
  | _ => []
  end.

(** The directories of an entry, each before what it contains. *)
Fixpoint directories_of (e : entry) : list string :=
  match e with
  | Directory p es => p :: flat_map directories_of es
  | Unlisted p => [p]
  | _ => []
  end.

(** The nesting of the directories of an entry. *)
Fixpoint height (e : entry) : nat :=
  match e with
  | Directory _ es => S (max_list (map height es))
  | Unlisted _ => 1
  | _ => 0
  end.

End workspace_tree.

(** ** The steps of the migration *)

Module migration_steps.
Import user_creation_adding_notebooks.

(** A user record with a userName that can be a dictionary key. *)
Definition named (d : list (string * json)) : Prop :=
  exists name, dict_get "userName" d = Some name /\ py_hashable name = true.

Section Steps.
Context {W : Type}.
Variable serve : W -> request -> W * response.
Variable recursion_limit : nat.

(** The run from the listing of the source on. *)
Definition after_users (sc tc : config) : M W unit :=
  found <- list_notebooks serve recursion_limit (cfg_url sc) (cfg_token sc) "/" ;;
  for_each (sorted found.2)
    (create_directory serve (cfg_url tc) (cfg_token tc)) ;;;
  for_each found.1 (transfer_notebook serve sc tc).

End Steps.
End migration_steps.

(** ** Which workspace a request goes to *)

Module routing.

(** The request goes to the REST API of the workspace at [workspace_url]
    and carries its token [access_token]. *)
Definition bound_for (workspace_url access_token : option string)
  (req : request) : Prop :=
  String.prefix (fmt workspace_url +:+ "/api/2.0/") (url req) = true
  /\ headers req = [("Authorization", "Bearer " +:+ fmt access_token);
                    ("Content-Type", "application/json")].



Definition patches (workspace_url access_token : option string)
  (req : request) : Prop :=
  meth req = PATCH /\ bound_for workspace_url access_token req.

End routing.

(** ** Remotes of the examples *)

Module remotes.

Definition object (object_type path : string) : json :=
  JObj [("object_type", JStr object_type); ("path", JStr path)].

(** A source with a notebook, a team directory holding a notebook and an
    empty directory, a library, a directory that may not be listed, and a
    last notebook. *)
Definition tree_answer (path : string) : response :=
  if (path =? "/")%string then
    Response 200 (Json (JObj [("objects", JArr [
      object "NOTEBOOK" "/intro"; object "DIRECTORY" "/team";
      object "LIBRARY" "/lib.jar"; object "DIRECTORY" "/locked";
      object "NOTEBOOK" "/outro"])]))
  else if (path =? "/team")%string then
    Response 200 (Json (JObj [("objects", JArr [
      object "NOTEBOOK" "/team/etl"; object "DIRECTORY" "/team/empty"])]))
  else if (path =? "/team/empty")%string then Response 200 (Json (JObj []))
  else Response 403 NotJson.

Definition tree : list workspace_tree.entry :=
  [workspace_tree.Notebook "/intro";
   workspace_tree.Directory "/team"
     [workspace_tree.Notebook "/team/etl";
      workspace_tree.Directory "/team/empty" []];
   workspace_tree.Other "LIBRARY" "/lib.jar";
   workspace_tree.Unlisted "/locked";
   workspace_tree.Notebook "/outro"].

(** The source workspace with this tree: it has one user, and every
    notebook exports as the text [print(1)]. *)
Definition tree_reply (req : request) : response :=
  if (url req =? "https://src/api/2.0/workspace/list")%string then
    tree_answer (default "" (dict_get "path" (params req)))
  else if (url req =? "https://src/api/2.0/workspace/export")%string then
    Response 200 (Json (JObj [("content", JStr "cHJpbnQoMSk=")]))
  else if (url req =? "https://src/api/2.0/preview/scim/v2/Users")%string then
    Response 200 (Json (JObj [("Resources", JArr [
      JObj [("id", JStr "42"); ("userName", JStr "ada@example.com")]])]))
  else Response 200 (Json (JObj [])).

Definition tree_serve : unit -> request -> unit * response :=
  stateless tree_reply.

(** A source whose every directory shows the directory /loop. *)
Definition loop_serve : unit -> request -> unit * response :=
  stateless (fun _ =>
    Response 200 (Json (JObj [("objects", JArr [object "DIRECTORY" "/loop"])]))).

(** Two users that the target already has: it answers every creation
    with a conflict.  The source has no object. *)
Definition crowd_answer (req : request) : response :=
  match meth req with
  | GET =>
      if (url req =? "https://src/api/2.0/preview/scim/v2/Users")%string then
        Response 200 (Json (JObj [("Resources", JArr [
          JObj [("id", JStr "1"); ("userName", JStr "ada@example.com")];
          JObj [("userName", JStr "bob@example.com")]])]))
      else Response 200 (Json (JObj []))
  | _ => Response 409 NotJson
  end.

Definition crowd_serve : unit -> request -> unit * response :=
  stateless crowd_answer.

(** The second of three records has no userName; every request is
    accepted. *)
Definition nameless_answer (req : request) : response :=
  if (url req =? "https://src/api/2.0/preview/scim/v2/Users")%string then
    Response 200 (Json (JObj [("Resources", JArr [
      JObj [("id", JStr "1"); ("userName", JStr "ada@example.com")];
      JObj [("id", JStr "2"); ("displayName", JStr "build")];
      JObj [("id", JStr "3"); ("userName", JStr "bob@example.com")]])]))
  else Response 200 (Json (JObj [])).

Definition nameless_serve : unit -> request -> unit * response :=
  stateless nameless_answer.

(** The source host sends the file in lines of four characters. *)
Definition line_break : string := String (ascii_of_nat 10) EmptyString.

Definition wrapped_serve : unit -> request -> unit * response :=
  stateless (fun _ =>
    Response 200 (Json (JObj [("content",
      JStr ("cHJp" +:+ line_break +:+ "bnQo" +:+ line_break +:+ "MSk="
            +:+ line_break))]))).

(** Two workspaces that hold the notebook as the object 7.  The source
    workspace has an access control list for it, with two entries for
    one user and an entry for a group, and refuses every PATCH. *)
Definition shared_answer (req : request) : response :=
  if String.prefix "https://api.github.com/" (url req) then
    Response 200 (Json (JObj [("content", JStr "cHJpbnQoMSk=")]))
  else if (url req =? "https://aws/api/2.0/workspace/get-status")%string
          || (url req =? "https://gcp/api/2.0/workspace/get-status")%string then
    Response 200 (Json (JObj [("object_id", JNum 7);
                              ("object_type", JStr "NOTEBOOK")]))
  else if (url req =? "https://aws/api/2.0/permissions/notebooks/7")%string then
    match meth req with
    | GET =>
        Response 200 (Json (JObj [("access_control_list", JArr [
          JObj [("user_name", JStr "ada@example.com");
                ("permission_level", JStr "CAN_RUN")];
          JObj [("group_name", JStr "admins");
                ("permission_level", JStr "CAN_MANAGE")];
          JObj [("user_name", JStr "bob@example.com");
                ("permission_level", JStr "CAN_EDIT")];
          JObj [("user_name", JStr "ada@example.com");
                ("permission_level", JStr "CAN_MANAGE")]])]))
    | _ => Response 403 NotJson
    end
  else Response 200 (Json (JObj [])).

Definition shared_serve : unit -> request -> unit * response :=
  stateless shared_answer.

(** The target workspace does not show the notebook it has accepted. *)
Definition lost_answer (req : request) : response :=
  if String.prefix "https://api.github.com/" (url req) then
    Response 200 (Json (JObj [("content", JStr "cHJpbnQoMSk=")]))
  else if (url req =? "https://aws/api/2.0/workspace/get-status")%string then
    Response 200 (Json (JObj [("object_id", JNum 7);
                              ("object_type", JStr "NOTEBOOK")]))
  else if (url req =? "https://gcp/api/2.0/workspace/get-status")%string then
    Response 404 NotJson
  else Response 200 (Json (JObj [])).

Definition lost_serve : unit -> request -> unit * response :=
  stateless lost_answer.

(** Every object is a library. *)
Definition library_serve : unit -> request -> unit * response :=
  stateless (fun _ =>
    Response 200 (Json (JObj [("object_id", JNum 9);
                              ("object_type", JStr "LIBRARY")]))).

End remotes.

(** ** Base64 text as it is sent *)

Module wire.

(** The characters the decoder of base64 looks at: the alphabet and the
    padding.  It passes over every other character, such as the line
    breaks of a wrapped encoding. *)
Definition significant (c : ascii) : bool :=
  Ascii.eqb c pad || bool_decide (is_Some (b64_value c)).

Fixpoint unwrapped (s : string) : string :=
  match s with
  | EmptyString => EmptyString
  | String c s' =>
      if significant c then String c (unwrapped s') else unwrapped s'
  end.

End wire.

(** ** The steps of the synchronisation *)

Module sync_steps.
Import multicloud_git.

Section Steps.
Context {W : Type}.
Variable serve : W -> request -> W * response.
Variable format_value : json -> string.

(** The run once the notebook is in both workspaces. *)
Definition after_imports (source_config target_config : config)
  (source_path target_path : string) (cluster_id : option string)
  : M W unit :=
  source_notebook_id <- get_notebook_id serve (cfg_url source_config)
      (cfg_token source_config) source_path ;;
  if negb (truthy source_notebook_id) then ret tt else
  fetched <- get_permissions serve format_value (cfg_url source_config)
      (cfg_token source_config) source_path ;;
  let source_permissions :=
    if no_permissions fetched then default_permissions
    else default [] fetched in
  target_notebook_id <- get_notebook_id serve (cfg_url target_config)
      (cfg_token target_config) target_path ;;
  if negb (truthy target_notebook_id) then ret tt else
  apply_permissions serve format_value source_config source_path
    source_permissions cluster_id ;;;
  apply_permissions serve format_value target_config target_path
    source_permissions cluster_id.

End Steps.
End sync_steps.

(** ** Access control lists *)

Module acl.
Import multicloud_git.

(** What an entry of an access control list says: the user and the
    level it names, or nothing when it names no user (an entry for a
    group or a service principal) or no level. *)
Definition says (entry : json) (r : option (string * string)) : Prop :=
  exists d, entry = JObj d /\
    match r with
    | Some (user, level) =>
        dict_get "user_name" d = Some (JStr user)
        /\ dict_get "permission_level" d = Some (JStr level)
        /\ user <> "" /\ level <> ""
    | None =>
        truthy (default JNull (dict_get "user_name" d))
        && truthy (default JNull (dict_get "permission_level" d)) = false
    end.

(** The level of the last entry that names the user. *)
Definition last_level (user : string) (rs : list (option (string * string)))
  : option string :=
  dict_get user (reverse (omap id rs)).

(** The users the list names, each once, in the order of their first
    entries. *)
Definition users_of (rs : list (option (string * string))) : list string :=
  reverse (remove_dups (reverse (map fst (omap id rs)))).

(** A dictionary from users to levels as the Python dictionary it is. *)
Definition items (d : list (string * string)) : list (json * json) :=
  map (fun item => (JStr item.1, JStr item.2)) d.

(** The dictionary of an access control list: one item per user that the
    list names, in the order of the first entries of the users, each with
    the level of the last entry of the user. *)
Definition collected (rs : list (option (string * string)))
  : list (json * json) :=
  items (map (fun user => (user, default "" (last_level user rs)))
           (users_of rs)).

End acl.

(** * Properties

    ** The codecs: encoding then decoding gives the input back *)

Module CodecFacts.
Local Open Scope Z_scope.

Lemma ord_chr n : 0 <= n < 256 -> ord (chr n) = n.
Proof.
  intros H. unfold ord, chr. rewrite N_ascii_embedding; lia.
Qed.

Lemma sextet_ok_all v : 0 <= v < 64 -> sextet_ok v = true.
Proof.
  intros H.
  assert (Hall : forallb sextet_ok (seqZ 0 64) = true) by (vm_compute; reflexivity).
  rewrite forallb_forall in Hall. apply Hall.
  apply list_elem_of_In, elem_of_seqZ. lia.
Qed.

Lemma b64_value_char v : 0 <= v < 64 -> b64_value (b64_char v) = Some v.
Proof.
  intros H. pose proof (sextet_ok_all v H) as Hok. unfold sextet_ok in Hok.
  destruct (b64_value (b64_char v)) as [v'|]; [|discriminate].
  apply andb_true_iff in Hok as [Hok _]. apply andb_true_iff in Hok as [Hok _].
  apply Z.eqb_eq in Hok. congruence.
Qed.

Lemma b64_char_not_pad v : 0 <= v < 64 -> Ascii.eqb (b64_char v) pad = false.
Proof.
  intros H. pose proof (sextet_ok_all v H) as Hok. unfold sextet_ok in Hok.
  destruct (b64_value (b64_char v)); [|discriminate].
  apply andb_true_iff in Hok as [Hok _]. apply andb_true_iff in Hok as [_ Hok].
  by apply negb_true_iff in Hok.
Qed.

Lemma b64_char_ascii v : 0 <= v < 64 -> (ord (b64_char v) <? 128) = true.
Proof.
  intros H. pose proof (sextet_ok_all v H) as Hok. unfold sextet_ok in Hok.
  destruct (b64_value (b64_char v)); [|discriminate].
  by apply andb_true_iff in Hok as [_ Hok].
Qed.

(** One step of the decoder on an alphabet character. *)
Lemma a2b_char v s q l p :
  0 <= v < 64 ->
  a2b_base64 (String (b64_char v) s) q l p =
    (if q =? 0 then a2b_base64 s 1 v 0
     else if q =? 1 then rmap (cons (l * 4 + v / 16)) (a2b_base64 s 2 (v mod 16) 0)
     else if q =? 2 then rmap (cons (l * 16 + v / 4)) (a2b_base64 s 3 (v mod 4) 0)
     else rmap (cons (l * 64 + v)) (a2b_base64 s 0 0 0)).
Proof.
  intros H. cbn [a2b_base64].
  by rewrite (b64_char_not_pad v H), (b64_value_char v H).
Qed.

Ltac sextet := unfold byte_ok in *; Z.div_mod_to_equations; lia.

Lemma a2b_pad2 l : a2b_base64 (String pad (String pad EmptyString)) 2 l 0 = Ret [].
Proof. reflexivity. Qed.

Lemma a2b_pad1 l : a2b_base64 (String pad EmptyString) 3 l 0 = Ret [].
Proof. reflexivity. Qed.

Ltac a2b_step :=
  rewrite a2b_char by sextet;
  change (0 =? 0) with true; change (1 =? 0) with false;
  change (1 =? 1) with true; change (2 =? 0) with false;
  change (2 =? 1) with false; change (2 =? 2) with true;
  change (3 =? 0) with false; change (3 =? 1) with false;
  change (3 =? 2) with false; cbv iota.

Lemma a2b_b64encode bs :
  Forall byte_ok bs -> a2b_base64 (b64encode bs) 0 0 0 = Ret bs.
Proof.
  revert bs. fix IH 1. intros [|b1 [|b2 [|b3 rest]]] Hbs.
  - reflexivity.
  - apply Forall_cons in Hbs as [H1 _]. cbn [b64encode].
    do 2 a2b_step. rewrite a2b_pad2. cbn [rmap rbind].
    f_equal. f_equal. sextet.
  - apply Forall_cons in Hbs as [H1 Hbs]. apply Forall_cons in Hbs as [H2 _].
    cbn [b64encode].
    do 3 a2b_step. rewrite a2b_pad1. cbn [rmap rbind].
    f_equal. f_equal; [sextet|]. f_equal. sextet.
  - apply Forall_cons in Hbs as [H1 Hbs]. apply Forall_cons in Hbs as [H2 Hbs].
    apply Forall_cons in Hbs as [H3 Hbs].
    cbn [b64encode].
    do 4 a2b_step.
    rewrite (IH rest Hbs). cbn [rmap rbind].
    f_equal. f_equal; [sextet|]. f_equal; [sextet|]. f_equal. sextet.
Qed.

Lemma b64encode_ascii bs : Forall byte_ok bs -> is_ascii (b64encode bs) = true.
Proof.
  revert bs. fix IH 1. intros [|b1 [|b2 [|b3 rest]]] Hbs.
  - reflexivity.
  - apply Forall_cons in Hbs as [H1 _]. cbn [b64encode is_ascii].
    rewrite !b64_char_ascii by sextet. reflexivity.
  - apply Forall_cons in Hbs as [H1 Hbs]. apply Forall_cons in Hbs as [H2 _].
    cbn [b64encode is_ascii].
    rewrite !b64_char_ascii by sextet. reflexivity.
  - apply Forall_cons in Hbs as [H1 Hbs]. apply Forall_cons in Hbs as [H2 Hbs].
    apply Forall_cons in Hbs as [H3 Hbs].
    cbn [b64encode is_ascii].
    rewrite !b64_char_ascii by sextet. rewrite (IH rest Hbs). reflexivity.
Qed.

Lemma b64decode_b64encode bs :
  Forall byte_ok bs -> b64decode (JStr (b64encode bs)) = Ret bs.
Proof.
  intros Hbs. unfold b64decode, b64decode_str.
  by rewrite b64encode_ascii, a2b_b64encode.
Qed.

(** *** UTF-8 *)

Ltac cmp :=
  repeat (match goal with
  | |- context [?a <? ?b] =>
      first [ replace (a <? b) with true by (symmetry; apply Z.ltb_lt; lia)
            | replace (a <? b) with false by (symmetry; apply Z.ltb_ge; lia) ]
  | |- context [?a <=? ?b] =>
      first [ replace (a <=? b) with true by (symmetry; apply Z.leb_le; lia)
            | replace (a <=? b) with false by (symmetry; apply Z.leb_gt; lia) ]
  | |- context [?a =? ?b] =>
      first [ replace (a =? b) with true by (symmetry; apply Z.eqb_eq; lia)
            | replace (a =? b) with false by (symmetry; apply Z.eqb_neq; lia)
            | destruct (Z.eqb_spec a b) ]
  end; cbn [andb orb negb]; cbv iota).

Lemma utf8_encode_cp_scalar c :
  scalar c -> exists bs, utf8_encode_cp c = Ret bs /\ Forall byte_ok bs
    /\ forall rest, utf8_decode (bs ++ rest) = rmap (cons c) (utf8_decode rest).
Proof.
  intros Hc. unfold scalar in Hc. unfold utf8_encode_cp.
  destruct (Z.ltb_spec c 128); [|destruct (Z.ltb_spec c 2048);
    [|destruct (Z.ltb_spec c 65536)]].
  - eexists; split; [reflexivity|]. split.
    + repeat constructor; unfold byte_ok; lia.
    + intros rest. cbn [app utf8_decode].
      by cmp.
  - eexists; split; [reflexivity|]. split.
    + repeat constructor; sextet.
    + intros rest. cbn [app utf8_decode]. unfold cont.
      assert (Hb1 : 194 <= 192 + c / 64 <= 223) by sextet.
      assert (Hb2 : 128 <= 128 + c mod 64 <= 191) by sextet.
      cmp. f_equal. f_equal. sextet.
  - assert (Hs : (55296 <=? c) && (c <=? 57343) = false).
    { apply andb_false_iff. destruct Hc; [left; apply Z.leb_gt|right; apply Z.leb_gt]; lia. }
    rewrite Hs.
    eexists; split; [reflexivity|]. split.
    + repeat constructor; sextet.
    + intros rest. cbn [app utf8_decode]. unfold cont.
      assert (Hb1 : 224 <= 224 + c / 4096 <= 239) by sextet.
      assert (Hb2 : 128 <= 128 + (c / 64) mod 64 <= 191) by sextet.
      assert (Hb3 : 128 <= 128 + c mod 64 <= 191) by sextet.
      assert (Hb4 : 224 + c / 4096 = 224 -> 160 <= 128 + (c / 64) mod 64) by sextet.
      assert (Hb5 : 224 + c / 4096 = 237 -> 128 + (c / 64) mod 64 <= 159) by sextet.
      cmp; f_equal; f_equal; sextet.
  - eexists; split; [reflexivity|]. split.
    + repeat constructor; sextet.
    + intros rest. cbn [app utf8_decode]. unfold cont.
      assert (Hb1 : 240 <= 240 + c / 262144 <= 244) by sextet.
      assert (Hb2 : 128 <= 128 + (c / 4096) mod 64 <= 191) by sextet.
      assert (Hb3 : 128 <= 128 + (c / 64) mod 64 <= 191) by sextet.
      assert (Hb3' : 128 <= 128 + c mod 64 <= 191) by sextet.
      assert (Hb4 : 240 + c / 262144 = 240 -> 144 <= 128 + (c / 4096) mod 64) by sextet.
      assert (Hb5 : 240 + c / 262144 = 244 -> 128 + (c / 4096) mod 64 <= 143) by sextet.
      cmp; f_equal; f_equal; sextet.
Qed.

Lemma utf8_roundtrip t :
  Forall scalar t ->
  exists bs, utf8_encode t = Ret bs /\ Forall byte_ok bs /\ utf8_decode bs = Ret t.
Proof.
  induction 1 as [|c t Hc _ (bs & Henc & Hok & Hdec)].
  - exists []. repeat split; constructor.
  - destruct (utf8_encode_cp_scalar c Hc) as (cs & Hcs & Hcok & Hcdec).
    exists (cs ++ bs). cbn [utf8_encode]. rewrite Hcs, Henc. cbn [rbind rmap].
    repeat split; [by apply Forall_app|].
    by rewrite Hcdec, Hdec.
Qed.

Lemma rmap_Ret {A B} (f : A -> B) r y :
  rmap f r = Ret y -> exists x, r = Ret x /\ y = f x.
Proof. destruct r; cbn; intros [= <-]; eauto. Qed.

(** What the decoder returns holds scalar values only. *)
Lemma utf8_decode_scalar n bs t :
  (length bs <= n)%nat -> Forall (Z.le 0) bs ->
  utf8_decode bs = Ret t -> Forall scalar t.
Proof.
  revert bs t. induction n as [|n IH]; intros bs t Hlen Hpos Hdec.
  - destruct bs; [|cbn in Hlen; lia]. cbn in Hdec. injection Hdec as <-. constructor.
  - destruct bs as [|b0 r0]; [cbn in Hdec; injection Hdec as <-; constructor|].
    cbn [utf8_decode] in Hdec. unfold cont in Hdec.
    apply Forall_cons in Hpos as [Hb0 Hpos].
    destruct (Z.ltb_spec b0 128).
    { apply rmap_Ret in Hdec as (t' & Ht' & ->).
      constructor; [unfold scalar; lia|].
      eapply IH; [|done|done]. cbn in Hlen; lia. }
    destruct ((194 <=? b0) && (b0 <=? 223)) eqn:E2.
    { destruct r0 as [|b1 r1]; [discriminate|].
      destruct ((128 <=? b1) && (b1 <=? 191)) eqn:C1; [|discriminate].
      apply rmap_Ret in Hdec as (t' & Ht' & ->).
      apply Forall_cons in Hpos as [_ Hpos].
      constructor; [unfold scalar; lia|].
      eapply IH; [|done|done]. cbn in Hlen; lia. }
    destruct ((224 <=? b0) && (b0 <=? 239)) eqn:E3.
    { destruct r0 as [|b1 [|b2 r2]]; [discriminate..|].
      destruct ((128 <=? b1) && (b1 <=? 191) && ((128 <=? b2) && (b2 <=? 191))
                && (negb (b0 =? 224) || (160 <=? b1))
                && (negb (b0 =? 237) || (b1 <=? 159))) eqn:C1; [|discriminate].
      apply rmap_Ret in Hdec as (t' & Ht' & ->).
      apply Forall_cons in Hpos as [_ Hpos]. apply Forall_cons in Hpos as [_ Hpos].
      constructor.
      - unfold scalar.
        destruct (Z.eqb_spec b0 224); destruct (Z.eqb_spec b0 237);
          cbn [negb orb] in C1; lia.
      - eapply IH; [|done|done]. cbn in Hlen; lia. }
    destruct ((240 <=? b0) && (b0 <=? 244)) eqn:E4; [|discriminate].
    destruct r0 as [|b1 [|b2 [|b3 r3]]]; [discriminate..|].
    destruct ((128 <=? b1) && (b1 <=? 191) && ((128 <=? b2) && (b2 <=? 191))
              && ((128 <=? b3) && (b3 <=? 191))
              && (negb (b0 =? 240) || (144 <=? b1))
              && (negb (b0 =? 244) || (b1 <=? 143))) eqn:C1; [|discriminate].
    apply rmap_Ret in Hdec as (t' & Ht' & ->).
    do 3 apply Forall_cons in Hpos as [_ Hpos].
    constructor.
    + unfold scalar.
      destruct (Z.eqb_spec b0 240); destruct (Z.eqb_spec b0 244);
        cbn [negb orb] in C1; lia.
    + eapply IH; [|done|done]. cbn in Hlen; lia.
Qed.

(** The decoder of base64 writes bytes. *)
Lemma a2b_base64_bytes s : forall q l p out,
  (q = 1 -> 0 <= l < 64) -> (q = 2 -> 0 <= l < 16) -> (q = 3 -> 0 <= l < 4) ->
  0 <= q <= 3 ->
  a2b_base64 s q l p = Ret out -> Forall byte_ok out.
Proof.
  induction s as [|c s IH]; intros q l p out H1 H2 H3 Hq Hdec.
  - cbn in Hdec. destruct (q =? 0); [injection Hdec as <-; constructor|discriminate].
  - cbn [a2b_base64] in Hdec.
    destruct (Ascii.eqb c pad).
    { destruct (2 <=? q).
      - destruct (4 <=? q + (p + 1)).
        + injection Hdec as <-. constructor.
        + eapply IH; [..|exact Hdec]; auto.
      - eapply IH; [..|exact Hdec]; auto. }
    destruct (b64_value c) as [v|] eqn:Hv; [|eapply IH; [..|exact Hdec]; auto].
    assert (Hv64 : 0 <= v < 64).
    { unfold b64_value in Hv.
      repeat match type of Hv with
      | (if ?b then _ else _) = _ => destruct b eqn:?; [injection Hv as <-; lia|]
      end. discriminate. }
    destruct (Z.eqb_spec q 0).
    { eapply IH; [..|exact Hdec]; intros; lia. }
    destruct (Z.eqb_spec q 1).
    { apply rmap_Ret in Hdec as (t' & Ht' & ->). constructor.
      - sextet.
      - eapply IH; [..|exact Ht']; intros; try lia. sextet. }
    destruct (Z.eqb_spec q 2).
    { apply rmap_Ret in Hdec as (t' & Ht' & ->). constructor.
      - sextet.
      - eapply IH; [..|exact Ht']; intros; try lia. sextet. }
    apply rmap_Ret in Hdec as (t' & Ht' & ->). constructor.
    + assert (q = 3) by lia. sextet.
    + eapply IH; [..|exact Ht']; intros; lia.
Qed.

Lemma b64decode_bytes v out : b64decode v = Ret out -> Forall byte_ok out.
Proof.
  destruct v; try discriminate. cbn. unfold b64decode_str.
  destruct (is_ascii s); [|discriminate].
  apply a2b_base64_bytes; intros; lia.
Qed.
End CodecFacts.
Export CodecFacts.
(** * More of the two codecs *)

Module codec_coverage.

Local Open Scope Z_scope.

(** The strict decoder accepts one byte sequence per text: encoding what
    it returned gives the bytes back. *)
Lemma utf8_decode_encode_upto n bs t :
  (length bs <= n)%nat -> utf8_decode bs = Ret t -> utf8_encode t = Ret bs.
Proof.
  revert bs t. induction n as [|n IH]; intros bs t Hlen Hdec.
  - destruct bs; [|cbn in Hlen; lia]. cbn in Hdec. by injection Hdec as <-.
  - destruct bs as [|b0 r0]; [cbn in Hdec; by injection Hdec as <-|].
    cbn [utf8_decode] in Hdec. unfold cont in Hdec.
    destruct (Z.ltb_spec b0 128).
    { apply rmap_Ret in Hdec as (t' & Ht' & ->).
      cbn [utf8_encode]. unfold utf8_encode_cp. cmp. cbn [rbind].
      rewrite (IH r0 t'); [done| |done]. cbn in Hlen; lia. }
    destruct ((194 <=? b0) && (b0 <=? 223)) eqn:E2.
    { destruct r0 as [|b1 r1]; [discriminate|].
      destruct ((128 <=? b1) && (b1 <=? 191)) eqn:C1; [|discriminate].
      apply rmap_Ret in Hdec as (t' & Ht' & ->).
      cbn [utf8_encode]. unfold utf8_encode_cp. cmp. cbn [rbind rmap].
      rewrite (IH r1 t'); [|cbn in Hlen; lia|done]. cbn [rmap rbind app].
      match goal with |- Ret (?x :: ?y :: _) = _ =>
        replace x with b0 by sextet; replace y with b1 by sextet end.
      reflexivity. }
    destruct ((224 <=? b0) && (b0 <=? 239)) eqn:E3.
    { destruct r0 as [|b1 [|b2 r2]]; [discriminate..|].
      destruct ((128 <=? b1) && (b1 <=? 191) && ((128 <=? b2) && (b2 <=? 191))
                && (negb (b0 =? 224) || (160 <=? b1))
                && (negb (b0 =? 237) || (b1 <=? 159))) eqn:C1; [|discriminate].
      apply rmap_Ret in Hdec as (t' & Ht' & ->).
      assert (Hlow : b0 = 224 -> 160 <= b1) by lia.
      assert (Hhigh : b0 = 237 -> b1 <= 159) by lia.
      assert (Hb : 224 <= b0 <= 239 /\ 128 <= b1 <= 191 /\ 128 <= b2 <= 191)
        by lia.
      assert (Hs : (55296 <=? (b0 - 224) * 4096 + (b1 - 128) * 64 + (b2 - 128))
                   && ((b0 - 224) * 4096 + (b1 - 128) * 64 + (b2 - 128)
                       <=? 57343) = false) by lia.
      clear C1 E3 E2.
      cbn [utf8_encode]. unfold utf8_encode_cp. rewrite Hs. cmp.
      cbn [rbind rmap].
      rewrite (IH r2 t'); [|cbn in Hlen; lia|done]. cbn [rmap rbind app].
      match goal with |- Ret (?x :: ?y :: ?z :: _) = _ =>
        replace x with b0 by sextet; replace y with b1 by sextet;
        replace z with b2 by sextet end.
      reflexivity. }
    destruct ((240 <=? b0) && (b0 <=? 244)) eqn:E4; [|discriminate].
    destruct r0 as [|b1 [|b2 [|b3 r3]]]; [discriminate..|].
    destruct ((128 <=? b1) && (b1 <=? 191) && ((128 <=? b2) && (b2 <=? 191))
              && ((128 <=? b3) && (b3 <=? 191))
              && (negb (b0 =? 240) || (144 <=? b1))
              && (negb (b0 =? 244) || (b1 <=? 143))) eqn:C1; [|discriminate].
    apply rmap_Ret in Hdec as (t' & Ht' & ->).
    assert (Hlow : b0 = 240 -> 144 <= b1) by lia.
    assert (Hb : 240 <= b0 <= 244 /\ 128 <= b1 <= 191 /\ 128 <= b2 <= 191
                 /\ 128 <= b3 <= 191) by lia.
    clear C1 E4 E3 E2.
    cbn [utf8_encode]. unfold utf8_encode_cp. cmp. cbn [rbind rmap].
    rewrite (IH r3 t'); [|cbn in Hlen; lia|done]. cbn [rmap rbind app].
    match goal with |- Ret (?x :: ?y :: ?z :: ?u :: _) = _ =>
      replace x with b0 by sextet; replace y with b1 by sextet;
      replace z with b2 by sextet; replace u with b3 by sextet end.
    reflexivity.
Qed.

Lemma utf8_decode_encode bs t :
  utf8_decode bs = Ret t -> utf8_encode t = Ret bs.
Proof. by apply (utf8_decode_encode_upto (length bs)). Qed.

(** The decoder of base64 passes over the characters that are neither in
    the alphabet nor the padding. *)
Lemma a2b_base64_unwrapped s : forall q l p,
  a2b_base64 s q l p = a2b_base64 (wire.unwrapped s) q l p.
Proof.
  induction s as [|c s IH]; intros q l p; [done|].
  cbn [wire.unwrapped]. unfold wire.significant.
  destruct (Ascii.eqb c pad) eqn:Hpad; cbn [orb].
  { cbn [a2b_base64]. rewrite Hpad.
    destruct (2 <=? q); [destruct (4 <=? q + (p + 1))|]; auto. }
  destruct (b64_value c) as [v|] eqn:Hv.
  - rewrite bool_decide_true by eauto. cbn [a2b_base64]. rewrite Hpad, Hv.
    repeat match goal with |- context [if ?b then _ else _] => destruct b end;
      by rewrite IH.
  - rewrite bool_decide_false by (by intros [? [=]]).
    cbn [a2b_base64]. rewrite Hpad, Hv. apply IH.
Qed.

Lemma b64decode_wrapped encoded raw :
  is_ascii encoded = true ->
  wire.unwrapped encoded = b64encode raw ->
  Forall byte_ok raw ->
  b64decode_str encoded = Ret raw.
Proof.
  intros Hascii Hwrap Hbytes. unfold b64decode_str. rewrite Hascii.
  rewrite a2b_base64_unwrapped, Hwrap. by apply a2b_b64encode.
Qed.

End codec_coverage.
(** ** [str.upper] on the names of the workspaces *)

Module casing_facts.
Import CodecFacts.
Local Open Scope Z_scope.

(** The upper case of an ASCII character. *)
Lemma upper_cp_ascii c :
  0 <= c < 128 ->
  upper_cp c = [if (97 <=? c) && (c <=? 122) then c - 32 else c].
Proof.
  intros Hc. unfold upper_cp, upper_special, upper_ranges.
  cbn [special_upper].
  replace (c <? 223) with true by lia.
  cbn [range_upper]. rewrite Z.mod_1_r.
  destruct (Z.ltb_spec c 97).
  { replace ((97 <=? c) && (c <=? 122)) with false by lia. reflexivity. }
  destruct (Z.leb_spec c 122).
  { replace ((97 <=? c) && true) with true by lia. reflexivity. }
  replace (97 <=? c) with true by lia. cbn [andb].
  replace (c <? 181) with true by lia. reflexivity.
Qed.

Lemma utf8_decode_ascii bs :
  Forall (fun b => 0 <= b < 128) bs -> utf8_decode bs = Ret bs.
Proof.
  induction 1 as [|b bs Hb _ IH]; [done|].
  cbn [utf8_decode]. replace (b <? 128) with true by lia. by rewrite IH.
Qed.

Lemma utf8_encode_ascii t :
  Forall (fun c => 0 <= c < 128) t -> utf8_encode t = Ret t.
Proof.
  induction 1 as [|c t Hc _ IH]; [done|].
  cbn [utf8_encode]. unfold utf8_encode_cp.
  replace (c <? 128) with true by lia. cbn [rbind]. by rewrite IH.
Qed.

Lemma upper_text_ascii t :
  Forall (fun c => 0 <= c < 128) t ->
  upper_text t =
    map (fun c => if (97 <=? c) && (c <=? 122) then c - 32 else c) t.
Proof.
  induction 1 as [|c t Hc _ IH]; [done|].
  unfold upper_text in *. cbn [flat_map map].
  by rewrite (upper_cp_ascii c Hc), IH.
Qed.

Lemma bytes_of_string_of_bytes bs :
  Forall byte_ok bs -> bytes_of_string (string_of_bytes bs) = bs.
Proof.
  intros Hbs. unfold bytes_of_string, string_of_bytes.
  rewrite list_ascii_of_string_of_list_ascii.
  induction Hbs as [|b bs Hb _ IH]; [done|].
  cbn [map]. by rewrite ord_chr, IH.
Qed.

(** On a name written in ASCII, [upper] changes the letters a to z into
    A to Z and nothing else. *)
Lemma upper_of_ascii s :
  Forall (fun b => b < 128) (bytes_of_string s) ->
  bytes_of_string (upper s) =
    map (fun b => if (97 <=? b) && (b <=? 122) then b - 32 else b)
      (bytes_of_string s).
Proof.
  intros Hs.
  assert (Hascii : Forall (fun b => 0 <= b < 128) (bytes_of_string s)).
  { unfold bytes_of_string in *. apply Forall_map. apply Forall_map in Hs.
    eapply Forall_impl; [exact Hs|]. intros c Hc. cbn in *. unfold ord in *.
    lia. }
  unfold upper. rewrite (utf8_decode_ascii _ Hascii).
  rewrite (upper_text_ascii _ Hascii).
  assert (Hout : Forall (fun c => 0 <= c < 128)
    (map (fun b => if (97 <=? b) && (b <=? 122) then b - 32 else b)
       (bytes_of_string s))).
  { apply Forall_map. eapply Forall_impl; [exact Hascii|].
    intros b Hb. cbn beta. cbn beta in Hb.
    destruct (Z.leb_spec 97 b); destruct (Z.leb_spec b 122); cbn [andb]; lia. }
  rewrite (utf8_encode_ascii _ Hout). apply bytes_of_string_of_bytes.
  eapply Forall_impl; [exact Hout|]. intros b Hb. cbn beta in Hb.
  unfold byte_ok. lia.
Qed.

(** Names in lower and in mixed case. *)
Example upper_of_the_names :
  upper "staging" = "STAGING" /\ upper "PreProd" = "PREPROD"
  /\ upper "aws" = "AWS" /\ upper "Azure" = "AZURE" /\ upper "gcp" = "GCP"
  /\ upper "pre-prod_1" = "PRE-PROD_1".
Proof. by vm_compute. Qed.

(** Letters outside ASCII whose upper case is in ASCII: the dotless i
    (U+0131), the long s (U+017F) and the ligature of s and t (U+FB06);
    the sharp s (U+00DF) becomes two letters. *)
Example upper_beyond_ascii :
  upper "stagıng" = "STAGING" /\ upper "awſ" = "AWS"
  /\ upper "ﬆaging" = "STAGING" /\ upper "straße" = "STRASSE".
Proof. by vm_compute. Qed.

(** A name written with such a letter is a name of the table. *)
Example names_beyond_ascii_resolve :
  user_creation_adding_notebooks.get_workspace_config
      migration.scenario_env "stagıng" =
    user_creation_adding_notebooks.get_workspace_config
      migration.scenario_env "STAGING"
  /\ user_creation_adding_notebooks.get_workspace_config
       migration.scenario_env "stagıng" <> None
  /\ multicloud_git.get_workspace_config sync.bootstrap_env "awſ" =
       multicloud_git.get_workspace_config sync.bootstrap_env "AWS"
  /\ multicloud_git.get_workspace_config sync.bootstrap_env "awſ" <> None.
Proof. by vm_compute. Qed.

End casing_facts.

(** ** The order of strings and [sorted] *)

Module OrderFacts.
Import migration.

Lemma ascii_compare_refl a : Ascii.compare a a = Eq.
Proof. unfold Ascii.compare. apply N.compare_refl. Qed.

Lemma ascii_compare_lt_trans a b c :
  Ascii.compare a b = Lt -> Ascii.compare b c = Lt -> Ascii.compare a c = Lt.
Proof.
  unfold Ascii.compare. rewrite !N.compare_lt_iff. apply N.lt_trans.
Qed.

Lemma compare_not_Gt_trans s1 : forall s2 s3,
  String.compare s1 s2 <> Gt -> String.compare s2 s3 <> Gt ->
  String.compare s1 s3 <> Gt.
Proof.
  induction s1 as [|a s1 IH]; intros [|b s2] [|c s3]; cbn; try congruence.
  destruct (Ascii.compare a b) eqn:Hab; [|clear IH|congruence].
  - apply Ascii.compare_eq_iff in Hab as ->.
    destruct (Ascii.compare b c); [apply IH|congruence..].
  - destruct (Ascii.compare b c) eqn:Hbc; [| |congruence].
    + apply Ascii.compare_eq_iff in Hbc as <-. rewrite Hab. congruence.
    + rewrite (ascii_compare_lt_trans a b c Hab Hbc). congruence.
Qed.

Lemma str_le_compare s1 s2 : str_le s1 s2 <-> String.compare s1 s2 <> Gt.
Proof.
  unfold str_le, String.leb. destruct (String.compare s1 s2); cbn; split; congruence || tauto.
Qed.

#[global] Instance str_le_trans : Transitive str_le.
Proof.
  intros s1 s2 s3. rewrite !str_le_compare. apply compare_not_Gt_trans.
Qed.

#[global] Instance str_le_total : Total str_le.
Proof.
  intros s1 s2. unfold str_le.
  destruct (String.leb_total s1 s2) as [H|H]; rewrite H; cbn; auto.
Qed.

#[global] Instance str_le_antisym : AntiSymm eq str_le.
Proof.
  intros s1 s2 H1 H2. apply String.leb_antisym; by apply Is_true_eq_true.
Qed.

(** A path sorts after each of its ancestors. *)
Lemma prefix_str_le p : forall q, String.prefix p q = true -> str_le p q.
Proof.
  intros q Hpq. apply str_le_compare. revert q Hpq.
  induction p as [|a p IH]; intros [|b q]; cbn; try congruence.
  destruct (ascii_dec a b) as [->|]; [|congruence].
  rewrite ascii_compare_refl. apply IH.
Qed.

Lemma sorted_StronglySorted paths : StronglySorted str_le (sorted paths).
Proof.
  apply Sorted_StronglySorted; [apply _|]. apply Sorted_merge_sort, _.
Qed.

Lemma sorted_Permutation paths : sorted paths ≡ₚ elements paths.
Proof. apply merge_sort_Permutation. Qed.

Lemma elem_of_sorted paths p : p ∈ sorted paths <-> p ∈ paths.
Proof. by rewrite sorted_Permutation, elem_of_elements. Qed.

Lemma sorted_NoDup paths : NoDup (sorted paths).
Proof. rewrite sorted_Permutation. apply NoDup_elements. Qed.

(** In a sorted list without the same element twice, the smaller of two
    members comes first. *)
Lemma sorted_before (l : list string) p q :
  StronglySorted str_le l -> p ∈ l -> q ∈ l -> str_le p q -> p <> q ->
  before p q l.
Proof.
  intros Hl Hp Hq Hpq Hne.
  apply list_elem_of_split in Hp as (l1 & l2 & ->).
  apply elem_of_app in Hq as [Hq|Hq].
  - exfalso. apply Hne. apply (anti_symm str_le); [done|].
    eapply StronglySorted_app_1_elem_of; [exact Hl|exact Hq|]. apply list_elem_of_here.
  - apply elem_of_cons in Hq as [->|Hq]; [done|].
    apply list_elem_of_split in Hq as (l3 & l4 & ->).
    by exists l1, l3, l4.
Qed.

(** Parent before child in the order of creation. *)
Lemma sorted_parent_first paths p q :
  p ∈ paths -> q ∈ paths -> proper_prefix p q -> before p q (sorted paths).
Proof.
  intros Hp Hq [Hpre Hne].
  apply sorted_before; auto using sorted_StronglySorted, prefix_str_le.
  all: by apply elem_of_sorted.
Qed.

End OrderFacts.
Export OrderFacts.

(** ** Running the effect monad *)

Module MonadFacts.

Create HintDb emits.

Lemma bind_assoc {W A B C} (m : M W A) (f : A -> M W B) (g : B -> M W C) s :
  bind (bind m f) g s = bind m (fun a => bind (f a) g) s.
Proof. unfold bind. by destruct (m s) as [[a|e] s1]. Qed.

Lemma bind_run {W A B} (m : M W A) (k : A -> M W B) s :
  bind m k s =
    match m s with
    | (Ret a, s') => k a s'
    | (Raise e, s') => (Raise e, s')
    end.
Proof. reflexivity. Qed.

Lemma bind_ext {W A B} (m : M W A) (f g : A -> M W B) s :
  (forall a s', f a s' = g a s') -> bind m f s = bind m g s.
Proof. intros H. unfold bind. destruct (m s) as [[a|e] s1]; auto. Qed.

Lemma for_each_app {W A} (xs ys : list A) (body : A -> M W unit) s :
  for_each (xs ++ ys) body s =
    bind (for_each xs body) (fun _ => for_each ys body) s.
Proof.
  revert s. induction xs as [|x xs IH]; intros s; cbn [for_each app]; [done|].
  rewrite bind_assoc. apply bind_ext. intros _ s'. apply IH.
Qed.

Lemma append_inj_l (a b c : string) : a +:+ b = a +:+ c -> b = c.
Proof. induction a as [|x a IH]; cbn; [done|]. intros [= H]. auto. Qed.

Lemma emits_ret {W A} (P : request -> Prop) (a : A) : emits (W:=W) P (ret a).
Proof. intros s. exists []. by rewrite app_nil_r. Qed.

Lemma emits_raise {W A} (P : request -> Prop) e : emits (W:=W) (A:=A) P (raise e).
Proof. intros s. exists []. by rewrite app_nil_r. Qed.

Lemma emits_lift {W A} (P : request -> Prop) (r : result A) :
  emits (W:=W) P (lift r).
Proof. intros s. exists []. by rewrite app_nil_r. Qed.

Lemma emits_bind {W A B} (P : request -> Prop) (m : M W A) (k : A -> M W B) :
  emits P m -> (forall a, emits P (k a)) -> emits P (bind m k).
Proof.
  intros Hm Hk s. unfold bind. destruct (Hm s) as (L1 & HL1 & HP1).
  destruct (m s) as [[a|e] s1]; cbn in *.
  - destruct (Hk a s1) as (L2 & HL2 & HP2).
    exists (L1 ++ L2). split; [|by apply Forall_app].
    by rewrite HL2, HL1, app_assoc.
  - eauto.
Qed.

Lemma emits_try {W A} (P : request -> Prop) (m h : M W A) :
  emits P m -> emits P h -> emits P (try_except m h).
Proof.
  intros Hm Hh s. unfold try_except. destruct (Hm s) as (L1 & HL1 & HP1).
  destruct (m s) as [[a|e] s1]; cbn in *; [eauto|].
  destruct (is_RequestException e); cbn; [|eauto].
  destruct (Hh s1) as (L2 & HL2 & HP2).
  exists (L1 ++ L2). split; [|by apply Forall_app].
  by rewrite HL2, HL1, app_assoc.
Qed.

Lemma emits_send {W} (serve : W -> request -> W * response)
  (P : request -> Prop) req :
  P req -> emits P (send serve req).
Proof.
  intros HP s. exists [req]. unfold send.
  destruct (serve (remote s) req) as [w' [|st ct]]; cbn; auto.
Qed.

Lemma emits_for_each {W A} (P : request -> Prop) (xs : list A)
  (body : A -> M W unit) :
  (forall x, emits P (body x)) -> emits P (for_each xs body).
Proof.
  intros Hb. induction xs as [|x xs IH]; cbn [for_each].
  - apply emits_ret.
  - apply emits_bind; auto.
Qed.

Lemma emits_if {W A} (P : request -> Prop) (b : bool) (m1 m2 : M W A) :
  emits P m1 -> emits P m2 -> emits P (if b then m1 else m2).
Proof. by destruct b. Qed.

Lemma emits_weaken {W A} (P Q : request -> Prop) (m : M W A) :
  (forall r, P r -> Q r) -> emits P m -> emits Q m.
Proof.
  intros HPQ Hm s. destruct (Hm s) as (L & HL & HP). exists L.
  split; [done|]. eapply Forall_impl; eauto.
Qed.

Lemma emits_raise_for_status {W} (P : request -> Prop) r :
  emits (W:=W) P (raise_for_status r).
Proof. unfold raise_for_status. apply emits_if; [apply emits_ret|apply emits_raise]. Qed.

Lemma emits_response_json {W} (P : request -> Prop) r :
  emits (W:=W) P (response_json r).
Proof. unfold response_json. destruct (snd r); [apply emits_raise|apply emits_ret]. Qed.

#[global] Hint Resolve emits_ret emits_raise emits_lift emits_raise_for_status
  emits_response_json : emits.

Lemma contained_ret {W A} (a : A) : contained (W:=W) (ret a).
Proof. intros s e [=]. Qed.

Lemma contained_lift {W A} (r : result A) :
  (forall e, r = Raise e -> is_RequestException e = false) ->
  contained (W:=W) (lift r).
Proof. intros H s e. cbn. apply H. Qed.

Lemma contained_bind {W A B} (m : M W A) (k : A -> M W B) :
  contained m -> (forall a, contained (k a)) -> contained (bind m k).
Proof.
  intros Hm Hk s e. unfold bind. specialize (Hm s).
  destruct (m s) as [[a|e'] s1]; cbn in *.
  - apply Hk.
  - intros [= ->]. by apply Hm.
Qed.

Lemma contained_try {W A} (m h : M W A) :
  contained h -> contained (try_except m h).
Proof.
  intros Hh s e. unfold try_except.
  destruct (m s) as [[a|e'] s1]; cbn; [intros [=]|].
  destruct (is_RequestException e') eqn:He'; cbn.
  - apply Hh.
  - by intros [= <-].
Qed.

Lemma contained_for_each {W A} (xs : list A) (body : A -> M W unit) :
  (forall x, contained (body x)) -> contained (for_each xs body).
Proof.
  intros Hb. induction xs as [|x xs IH]; cbn [for_each].
  - apply contained_ret.
  - apply contained_bind; auto.
Qed.

Lemma contained_if {W A} (b : bool) (m1 m2 : M W A) :
  contained m1 -> contained m2 -> contained (if b then m1 else m2).
Proof. by destruct b. Qed.

(** The pure steps raise builtin exceptions only. *)
Lemma py_get_builtin v k d e : py_get v k d = Raise e -> is_RequestException e = false.
Proof. destruct v; cbn; by intros [= <-]. Qed.

Lemma py_getitem_builtin v k e :
  py_getitem v k = Raise e -> is_RequestException e = false.
Proof. destruct v; cbn; try (by intros [= <-]). destruct (dict_get k kvs); by intros [= <-]. Qed.

Lemma py_pop_builtin v k e : py_pop v k = Raise e -> is_RequestException e = false.
Proof. destruct v; cbn; by intros [= <-]. Qed.

Lemma py_iter_builtin v e : py_iter v = Raise e -> is_RequestException e = false.
Proof. destruct v; cbn; by intros [= <-]. Qed.

Lemma utf8_encode_cp_builtin c e :
  utf8_encode_cp c = Raise e -> e = UnicodeEncodeError.
Proof.
  unfold utf8_encode_cp.
  repeat match goal with |- context [if ?b then _ else _] => destruct b end;
    by intros [= <-].
Qed.

Lemma utf8_encode_builtin t e :
  utf8_encode t = Raise e -> is_RequestException e = false.
Proof.
  induction t as [|c t IH]; cbn [utf8_encode]; [intros [=]|].
  destruct (utf8_encode_cp c) eqn:Hc; cbn [rbind rmap].
  - destruct (utf8_encode t); cbn; [intros [=]|]. intros [= <-]. by apply IH.
  - intros [= <-]. by rewrite (utf8_encode_cp_builtin _ _ Hc).
Qed.

(** Unfold a leaf operation down to the answer of the remote and follow
    every branch. *)
Ltac leaf_cases :=
  repeat match goal with
  | |- context [if status_ok ?st then _ else _] => destruct (status_ok st); cbn
  | |- context [match ?r with Json _ => _ | NotJson => _ end] =>
      is_var r; destruct r; cbn
  | |- context [py_get ?v ?k ?d] => destruct (py_get v k d) as [?|[]]; cbn
  | |- context [py_getitem ?v ?k] => destruct (py_getitem v k) as [?|[]]; cbn
  | |- context [py_len ?v] => destruct (py_len v) as [?|[]]; cbn
  | |- context [py_iter ?v] => destruct (py_iter v) as [?|[]]; cbn
  | |- context [b64decode ?v] => destruct (b64decode v) as [?|[]]; cbn
  | |- context [utf8_decode ?v] => destruct (utf8_decode v) as [?|[]]; cbn
  end.

Ltac leaf_run :=
  unfold try_except, bind, requests_get, requests_post, requests_patch, send,
    raise_for_status, response_json, lift, ret, raise, parsed, accepted, handle,
    rbind, rmap;
  match goal with
  | |- context [?f ?w ?r] =>
      match type of (f w r) with (_ * response)%type =>
        destruct (f w r) as [? [|? ?]] end
  end; cbn; leaf_cases; try reflexivity.

(** Every computation built from the primitives only adds to the log. *)
Ltac emits_any :=
  repeat first
    [ apply emits_ret | apply emits_raise | apply emits_lift
    | apply emits_raise_for_status | apply emits_response_json
    | apply emits_try
    | apply emits_bind; [|intros ?]
    | apply emits_for_each; intros ?
    | apply emits_send; exact I
    | match goal with
      | |- emits _ (if ?b then _ else _) => destruct b
      | |- emits _ (match ?x with _ => _ end) => destruct x
      end ].

End MonadFacts.
Export MonadFacts.

(** ** The leaf operations of the migration, one request each *)

Module migration_facts.
Import user_creation_adding_notebooks migration.

Lemma classic_dict (v : json) : (exists d, v = JObj d) \/ (forall d, v <> JObj d).
Proof. destruct v; eauto; right; congruence. Qed.

(** What [export_notebook] returns on the responses that matter. *)
Lemma export_outcome_failing resp : failing resp -> export_outcome resp = Ret None.
Proof.
  unfold export_outcome. destruct resp as [|status [|j]]; cbn; [done|..].
  - intros [->|_]; [done|]. by destruct (status_ok status).
  - intros [->|[=]]. done.
Qed.

Lemma export_outcome_decoded status d encoded raw content :
  status_ok status = true ->
  dict_get "content" d = Some (JStr encoded) ->
  b64decode_str encoded = Ret raw -> utf8_decode raw = Ret content ->
  export_outcome (Response status (Json (JObj d))) = Ret (Some content).
Proof.
  intros Hok Hd Hraw Hcontent.
  unfold export_outcome. cbn. rewrite Hok. cbn. rewrite Hd. cbn.
  rewrite Hraw. cbn. by rewrite Hcontent.
Qed.

Lemma export_outcome_no_content status d :
  status_ok status = true ->
  dict_get "content" d = None \/ dict_get "content" d = Some (JStr "") ->
  export_outcome (Response status (Json (JObj d))) = Ret (Some []).
Proof.
  intros Hok Hd. unfold export_outcome. cbn. rewrite Hok. cbn.
  by destruct Hd as [->| ->].
Qed.

(** The store answers an import by storing and an export by looking up. *)
Lemma store_import c p encoded (w : gmap string string) :
  store_serve w (import_request c p encoded) =
    (<[p := encoded]> w, Response 200 (Json (JObj []))).
Proof. reflexivity. Qed.

Lemma store_export c p (w : gmap string string) :
  store_serve w (export_request c p) =
    (w, match w !! p with
        | Some encoded => Response 200 (Json (JObj [("content", JStr encoded)]))
        | None => Response 404 NotJson
        end).
Proof. unfold store_serve. cbn. by destruct (w !! p). Qed.

Section Leaves.
Context {W : Type}.
Variable serve : W -> request -> W * response.

Lemma export_notebook_run c p s :
  export_notebook serve (cfg_url c) (cfg_token c) p s =
    (export_outcome (serve (remote s) (export_request c p)).2,
     State (serve (remote s) (export_request c p)).1
           (log s ++ [export_request c p])).
Proof.
  unfold export_notebook, export_outcome, export_request, export_endpoint.
  leaf_run.
Qed.

Lemma get_users_run c s :
  get_users serve (cfg_url c) (cfg_token c) s =
    (users_outcome (serve (remote s) (users_request c)).2,
     State (serve (remote s) (users_request c)).1
           (log s ++ [users_request c])).
Proof.
  unfold get_users, users_outcome, users_request, users_endpoint.
  leaf_run.
Qed.

Lemma create_user_run c user s :
  create_user serve (cfg_url c) (cfg_token c) user s =
    (create_user_outcome user (serve (remote s) (create_user_request c user)).2,
     State (serve (remote s) (create_user_request c user)).1
           (log s ++ [create_user_request c user])).
Proof.
  unfold create_user, create_user_outcome, create_user_request, users_endpoint.
  leaf_run.
Qed.

Lemma create_directory_run c p s :
  create_directory serve (cfg_url c) (cfg_token c) p s =
    (Ret tt,
     State (serve (remote s) (mkdirs_request c p)).1
           (log s ++ [mkdirs_request c p])).
Proof.
  unfold create_directory, mkdirs_request, mkdirs_endpoint.
  leaf_run.
Qed.

Lemma import_notebook_run c p content raw s :
  utf8_encode content = Ret raw ->
  import_notebook serve (cfg_url c) (cfg_token c) p content s =
    (Ret (import_outcome
            (serve (remote s) (import_request c p (b64encode raw))).2),
     State (serve (remote s) (import_request c p (b64encode raw))).1
           (log s ++ [import_request c p (b64encode raw)])).
Proof.
  intros Henc.
  unfold import_notebook, import_outcome, import_request, import_endpoint.
  unfold bind at 1. unfold lift at 1. rewrite Henc.
  leaf_run.
Qed.

(** Text that cannot be encoded stops [import_notebook] before any
    request. *)
Lemma import_notebook_unencodable c p content e s :
  utf8_encode content = Raise e ->
  import_notebook serve (cfg_url c) (cfg_token c) p content s = (Raise e, s).
Proof.
  intros Henc. unfold import_notebook, bind, lift. by rewrite Henc.
Qed.

(** *** The directory loop *)

Lemma create_directories_run c ps : forall s,
  exists w', for_each ps (create_directory serve (cfg_url c) (cfg_token c)) s =
    (Ret tt, State w' (log s ++ map (mkdirs_request c) ps)).
Proof.
  induction ps as [|p ps IH]; intros s; cbn [for_each map].
  - exists (remote s). destruct s; unfold ret; cbn. by rewrite app_nil_r.
  - unfold bind. rewrite create_directory_run.
    edestruct IH as [w' ->]. exists w'. cbn [log]. by rewrite <- app_assoc.
Qed.

(** *** The notebook loop *)

(** What an export returns can be encoded again. *)
Lemma export_outcome_scalar resp content :
  export_outcome resp = Ret (Some content) -> Forall scalar content.
Proof.
  unfold export_outcome, handle, rbind, rmap.
  destruct (parsed resp) as [j|e]; cbn;
    [|destruct (is_RequestException e); intros [=]].
  destruct (py_get j "content" (JStr "")) as [c|e]; cbn;
    [|destruct (is_RequestException e); intros [=]].
  destruct (b64decode c) as [raw|e] eqn:Hraw; cbn;
    [|destruct (is_RequestException e); intros [=]].
  destruct (utf8_decode raw) as [t|e] eqn:Ht; cbn;
    [|destruct (is_RequestException e); intros [=]].
  intros [= <-]. eapply utf8_decode_scalar; [reflexivity| |exact Ht].
  apply b64decode_bytes in Hraw. eapply Forall_impl; [exact Hraw|].
  unfold byte_ok. intros; lia.
Qed.

Lemma export_outcome_encodable resp content :
  export_outcome resp = Ret (Some content) ->
  exists raw, utf8_encode content = Ret raw.
Proof.
  intros H. apply export_outcome_scalar in H.
  destruct (utf8_roundtrip content H) as (raw & Hraw & _). eauto.
Qed.

Lemma transfer_notebook_raise sc tc p s e :
  export_outcome (serve (remote s) (export_request sc p)).2 = Raise e ->
  transfer_notebook serve sc tc p s =
    (Raise e, State (serve (remote s) (export_request sc p)).1
                    (log s ++ [export_request sc p])).
Proof.
  intros H. unfold transfer_notebook, bind.
  by rewrite export_notebook_run, H.
Qed.

Lemma transfer_notebook_skip sc tc p s r :
  export_outcome (serve (remote s) (export_request sc p)).2 = Ret r ->
  export_failed r = true ->
  transfer_notebook serve sc tc p s =
    (Ret tt, State (serve (remote s) (export_request sc p)).1
                   (log s ++ [export_request sc p])).
Proof.
  intros H Hr. unfold transfer_notebook, bind.
  by rewrite export_notebook_run, H, Hr.
Qed.

Lemma transfer_notebook_import sc tc p s content raw :
  export_outcome (serve (remote s) (export_request sc p)).2 = Ret (Some content) ->
  content <> [] ->
  utf8_encode content = Ret raw ->
  transfer_notebook serve sc tc p s =
    (Ret tt,
     State (serve (serve (remote s) (export_request sc p)).1
                  (import_request tc p (b64encode raw))).1
           (log s ++ [export_request sc p; import_request tc p (b64encode raw)])).
Proof.
  intros H Hne Henc. unfold transfer_notebook. unfold bind at 1.
  rewrite export_notebook_run, H.
  destruct content as [|c cs]; [done|]. cbn [export_failed default].
  unfold bind. rewrite (import_notebook_run _ _ _ _ _ Henc). cbn [log remote].
  unfold ret. by rewrite <- app_assoc.
Qed.

(** The three cases are all the cases. *)
Lemma transfer_notebook_cases sc p s :
  (exists e, export_outcome (serve (remote s) (export_request sc p)).2 = Raise e)
  \/ (exists r, export_outcome (serve (remote s) (export_request sc p)).2 = Ret r
        /\ export_failed r = true)
  \/ (exists content raw,
        export_outcome (serve (remote s) (export_request sc p)).2
          = Ret (Some content)
        /\ content <> [] /\ utf8_encode content = Ret raw).
Proof.
  destruct (export_outcome (serve (remote s) (export_request sc p)).2)
    as [[[|c cs]|]|e] eqn:H.
  - right; left. by exists (Some []).
  - right; right. destruct (export_outcome_encodable _ _ H) as [raw Hraw].
    by exists (c :: cs), raw.
  - right; left. by exists None.
  - left. by exists e.
Qed.

Lemma notebooks_loop_log sc tc ps : forall s,
  exists L, log (for_each ps (transfer_notebook serve sc tc) s).2 = log s ++ L
    /\ notebooks_log sc tc ps L.
Proof.
  induction ps as [|p ps IH]; intros s; cbn [for_each].
  - exists []. split; [by rewrite app_nil_r|constructor].
  - unfold bind.
    destruct (transfer_notebook_cases sc p s)
      as [[e He]|[(r & Hr & Hf)|(content & raw & Hc & Hne & Henc)]].
    + rewrite (transfer_notebook_raise _ _ _ _ _ He). cbn.
      exists [export_request sc p]. split; [done|]. apply nl_raised.
    + rewrite (transfer_notebook_skip _ _ _ _ _ Hr Hf).
      edestruct IH as (L & -> & HL). cbn [log].
      exists (export_request sc p :: L). split; [by rewrite <- app_assoc|].
      by apply nl_skip.
    + rewrite (transfer_notebook_import _ _ _ _ _ _ Hc Hne Henc).
      edestruct IH as (L & -> & HL). cbn [log].
      exists (export_request sc p :: import_request tc p (b64encode raw) :: L).
      split; [by rewrite <- app_assoc|]. by apply nl_import.
Qed.

(** The loop runs to its end when no export raises. *)
Lemma notebooks_loop_trace sc tc nbs (s : state W) :
  (forall w p, p ∈ nbs ->
     exists r, export_outcome (serve w (export_request sc p)).2 = Ret r) ->
  exists L w',
    for_each nbs (transfer_notebook serve sc tc) s =
      (Ret tt, State w' (log s ++ L))
    /\ notebooks_trace serve sc tc (remote s) nbs L w'
    /\ Forall (fun p => export_request sc p ∈ L) nbs.
Proof.
  revert s. induction nbs as [|p ps IH]; intros s Hclean; cbn [for_each].
  - exists [], (remote s). destruct s; unfold ret; cbn. rewrite app_nil_r.
    repeat split; constructor.
  - unfold bind.
    destruct (serve (remote s) (export_request sc p)) as [w1 resp] eqn:Hserve.
    assert (Hps : forall w q, q ∈ ps ->
      exists r, export_outcome (serve w (export_request sc q)).2 = Ret r).
    { intros w q Hq. apply Hclean. by apply list_elem_of_further. }
    destruct (transfer_notebook_cases sc p s)
      as [[e He]|[(r & Hr & Hf)|(content & raw & Hc & Hne & Henc)]].
    + destruct (Hclean (remote s) p) as [r Hr]; [apply list_elem_of_here|].
      congruence.
    + rewrite (transfer_notebook_skip _ _ _ _ _ Hr Hf).
      rewrite Hserve in *. cbn [fst snd] in *.
      destruct (IH (State w1 (log s ++ [export_request sc p])) Hps)
        as (L & w' & -> & Htr & Hall).
      exists (export_request sc p :: L), w'. cbn [log remote] in *.
      rewrite <- app_assoc. split; [done|]. split.
      * eapply nt_skip; eauto.
      * constructor; [apply list_elem_of_here|].
        eapply Forall_impl; [exact Hall|]. intros q Hq. by apply list_elem_of_further.
    + rewrite (transfer_notebook_import _ _ _ _ _ _ Hc Hne Henc).
      rewrite Hserve in *. cbn [fst snd] in *.
      destruct (serve w1 (import_request tc p (b64encode raw)))
        as [w2 resp2] eqn:Hserve2. cbn [fst].
      destruct (IH (State w2 (log s ++ [export_request sc p;
                      import_request tc p (b64encode raw)])) Hps)
        as (L & w' & -> & Htr & Hall).
      exists (export_request sc p :: import_request tc p (b64encode raw) :: L), w'.
      cbn [log remote] in *. rewrite <- app_assoc. split; [done|]. split.
      * eapply nt_import; eauto.
      * constructor; [apply list_elem_of_here|].
        eapply Forall_impl; [exact Hall|]. intros q Hq.
        by do 2 apply list_elem_of_further.
Qed.

(** The loop runs as [notebooks_run] says, whatever the remote does. *)
Lemma notebooks_loop_run sc tc nbs : forall s : state W,
  exists L outcome w',
    for_each nbs (transfer_notebook serve sc tc) s =
      (outcome, State w' (log s ++ L))
    /\ notebooks_run serve sc tc (remote s) nbs L outcome w'.
Proof.
  induction nbs as [|p ps IH]; intros s; cbn [for_each].
  - exists [], (Ret tt), (remote s). unfold ret. rewrite app_nil_r.
    split; [by destruct s|constructor].
  - rewrite bind_run.
    destruct (serve (remote s) (export_request sc p)) as [w1 resp] eqn:Hserve.
    destruct (transfer_notebook_cases sc p s)
      as [[e He]|[(r & Hr & Hf)|(content & raw & Hc & Hne & Henc)]].
    + rewrite (transfer_notebook_raise _ _ _ _ _ He).
      rewrite Hserve in *. cbn [fst snd] in *.
      exists [export_request sc p], (Raise e), w1.
      split; [done|]. by eapply nr_raise.
    + rewrite (transfer_notebook_skip _ _ _ _ _ Hr Hf).
      rewrite Hserve in *. cbn [fst snd] in *.
      destruct (IH (State w1 (log s ++ [export_request sc p])))
        as (L & outcome & w' & -> & Hrun).
      exists (export_request sc p :: L), outcome, w'. cbn [log remote] in *.
      rewrite <- app_assoc. split; [done|]. by eapply nr_skip.
    + rewrite (transfer_notebook_import _ _ _ _ _ _ Hc Hne Henc).
      rewrite Hserve in *. cbn [fst snd] in *.
      destruct (serve w1 (import_request tc p (b64encode raw)))
        as [w2 resp2] eqn:Hserve2. cbn [fst].
      destruct (IH (State w2 (log s ++ [export_request sc p;
                      import_request tc p (b64encode raw)])))
        as (L & outcome & w' & -> & Hrun).
      exists (export_request sc p :: import_request tc p (b64encode raw) :: L),
        outcome, w'.
      cbn [log remote] in *. rewrite <- app_assoc. split; [done|].
      by eapply nr_import.
Qed.

(** The loop when every export gives bytes that are a text: each notebook
    is exported and imported with these bytes. *)
Lemma exported_notebooks_run sc tc (exported : string -> list Z) ps :
  forall s : state W,
  (forall w p, p ∈ ps ->
     exists status d encoded content,
       (serve w (export_request sc p)).2 = Response status (Json (JObj d))
       /\ status_ok status = true
       /\ dict_get "content" d = Some (JStr encoded)
       /\ b64decode_str encoded = Ret (exported p)
       /\ utf8_decode (exported p) = Ret content
       /\ exported p <> []) ->
  exists w',
    for_each ps (transfer_notebook serve sc tc) s =
      (Ret tt,
       State w'
         (log s ++
          flat_map (fun p => [export_request sc p;
                              import_request tc p (b64encode (exported p))])
            ps)).
Proof.
  induction ps as [|p ps IH]; intros s Hexp; cbn [for_each flat_map].
  - exists (remote s). unfold ret. rewrite app_nil_r. by destruct s.
  - destruct (Hexp (remote s) p) as
      (status & d & encoded & content & Hresp & Hok & Hd & Hraw & Hcontent & Hne);
      [apply list_elem_of_here|].
    assert (Hout : export_outcome (serve (remote s) (export_request sc p)).2
                   = Ret (Some content)).
    { rewrite Hresp. by eapply export_outcome_decoded. }
    assert (Henc : utf8_encode content = Ret (exported p)).
    { by apply codec_coverage.utf8_decode_encode. }
    assert (Hcne : content <> []).
    { intros ->. cbn in Henc. congruence. }
    rewrite bind_run,
      (transfer_notebook_import sc tc p s content _ Hout Hcne Henc).
    edestruct IH as [w' ->].
    { intros w q Hq. apply Hexp. by apply list_elem_of_further. }
    exists w'. cbn [log app]. by rewrite <- app_assoc.
Qed.

(** *** The user loop *)

Lemma transfer_user_dict tc d s :
  exists r w',
    transfer_user serve tc (JObj d) s =
      (r, State w' (log s ++ [create_user_request tc (strip_id d)])).
Proof.
  unfold transfer_user. unfold bind at 1. unfold lift at 1. cbn [py_pop].
  unfold bind at 1. rewrite create_user_run. fold (strip_id d).
  destruct (create_user_outcome _ _) as [[|]|e]; [|by eexists _, _..].
  unfold bind, lift, ret, raise.
  destruct (py_get _ _ _); [|by eexists _, _].
  destruct (py_getitem _ _) as [name|]; [|by eexists _, _].
  destruct (py_hashable name); by eexists _, _.
Qed.

Lemma transfer_user_other tc user s :
  (forall d, user <> JObj d) ->
  exists e, transfer_user serve tc user s = (Raise e, s).
Proof.
  intros Hu. unfold transfer_user, bind, lift.
  destruct user; cbn; try by eexists. by destruct (Hu kvs).
Qed.

(** The records sent are the fetched ones without their id, in order, up
    to the point where the loop ends. *)
Lemma transfer_users_log tc us : forall s,
  exists ds rest,
    us = map JObj ds ++ rest
    /\ log (for_each us (transfer_user serve tc) s).2 =
         log s ++ map (fun d => create_user_request tc (strip_id d)) ds
    /\ ((for_each us (transfer_user serve tc) s).1 = Ret tt -> rest = []).
Proof.
  induction us as [|user us IH]; intros s; cbn [for_each].
  - exists [], []. cbn. by rewrite app_nil_r.
  - unfold bind.
    destruct (classic_dict user) as [[d ->]|Hu].
    + destruct (transfer_user_dict tc d s) as (r & w' & ->).
      destruct r as [[]|e].
      * edestruct IH as (ds & rest & -> & -> & Hrest).
        exists (d :: ds), rest. cbn [log map app]. rewrite <- app_assoc.
        split; [done|]. split; [done|]. exact Hrest.
      * exists [d], us. cbn. split; [done|]. split; [done|]. intros [=].
    + destruct (transfer_user_other tc user s Hu) as [e ->].
      exists [], (user :: us). cbn. rewrite app_nil_r.
      split; [done|]. split; [done|]. intros [=].
Qed.

(** *** The listing *)

Lemma list_objects_emits (P : request -> Prop) descend objs :
  (forall p, emits P (descend p)) ->
  forall nbs dirs, emits P (list_objects (W:=W) descend objs nbs dirs).
Proof.
  intros Hd. induction objs as [|obj objs IH]; intros nbs dirs; cbn [list_objects].
  - apply emits_ret.
  - apply emits_bind; [apply emits_lift|]. intros ty.
    apply emits_if; [apply emits_bind; [apply emits_lift|auto]|].
    apply emits_if; [|auto].
    apply emits_bind; [apply emits_lift|]. intros p.
    apply emits_bind; auto.
Qed.

Lemma list_notebooks_at_emits c depth : forall path,
  emits (fun req => exists p, req = list_request c p)
    (list_notebooks_at serve depth (cfg_url c) (cfg_token c) path).
Proof.
  induction depth as [|depth IH]; intros path; cbn [list_notebooks_at].
  - apply emits_raise.
  - apply emits_try; [|apply emits_ret].
    apply emits_bind; [apply emits_send; by exists path|]. intros response.
    apply emits_bind; [auto with emits|]. intros _.
    apply emits_bind; [auto with emits|]. intros j.
    apply emits_bind; [auto with emits|]. intros objects.
    apply emits_bind; [auto with emits|]. intros objs.
    by apply list_objects_emits.
Qed.

End Leaves.

(** *** The orchestrator *)

Lemma discovery_not_write sc tc req : is_discovery sc tc req -> ~ is_write tc req.
Proof.
  intros [->|[[user ->]|[p ->]]] [[q Hq]|(q & content & Hq)]; try discriminate.
  - injection Hq as Hq _. by apply append_inj_l in Hq.
  - injection Hq as Hq _. by apply append_inj_l in Hq.
Qed.

Lemma replication_not_user_creation sc tc req user :
  is_replication sc tc req -> req <> create_user_request tc user.
Proof.
  intros [[p ->]|[[[p ->]|(p & content & ->)]|[p ->]]]; try discriminate.
  - intros [= Hq _]. by apply append_inj_l in Hq.
  - intros [= Hq _]. by apply append_inj_l in Hq.
Qed.

Lemma notebooks_log_requests sc tc ps L :
  notebooks_log sc tc ps L -> Forall (is_replication sc tc) L.
Proof.
  assert (Hexp : forall p, is_replication sc tc (export_request sc p)).
  { intros p. right; right. by eexists. }
  assert (Himp : forall p content,
            is_replication sc tc (import_request tc p content)).
  { intros p content. right; left; right. by eexists _, _. }
  induction 1; auto using Forall_nil_2, Forall_cons_2.
Qed.

Section Orchestrator.
Context {W : Type}.
Variable serve : W -> request -> W * response.
Variable getenv : string -> option string.
Variable recursion_limit : nat.

Lemma discover_emits sc tc :
  emits (is_discovery sc tc) (discover serve recursion_limit sc tc).
Proof.
  unfold discover.
  apply emits_bind.
  { intros s. rewrite get_users_run. exists [users_request sc].
    split; [done|]. repeat constructor. }
  intros users. apply emits_bind; [apply emits_lift|]. intros us.
  apply emits_bind.
  { intros s. destruct (transfer_users_log serve tc us s) as (ds & rest & _ & -> & _).
    eexists; split; [done|]. apply Forall_forall. intros req Hreq.
    apply list_elem_of_fmap in Hreq as (d & -> & _). right; left. by eexists. }
  intros _. eapply emits_weaken; [|apply list_notebooks_at_emits].
  intros req [p ->]. right; right. by eexists.
Qed.

(** The steps after the users. *)
Lemma replication_emits sc tc :
  emits (is_replication sc tc)
    (bind (list_notebooks serve recursion_limit (cfg_url sc) (cfg_token sc) "/")
       (fun found =>
          for_each (sorted found.2)
            (create_directory serve (cfg_url tc) (cfg_token tc)) ;;;
          for_each found.1 (transfer_notebook serve sc tc))).
Proof.
  apply emits_bind.
  { eapply emits_weaken; [|apply list_notebooks_at_emits].
    intros req [p ->]. left. by eexists. }
  intros found. apply emits_bind.
  - intros s. destruct (create_directories_run serve tc (sorted found.2) s) as [w' ->].
    eexists; split; [done|]. apply Forall_forall. intros req Hreq.
    apply list_elem_of_fmap in Hreq as (p & -> & _). right; left; left. by eexists.
  - intros _ s.
    destruct (notebooks_loop_log serve sc tc found.1 s) as (L & HL & Hlog).
    exists L. split; [done|]. by eapply notebooks_log_requests.
Qed.

(** The migration is the discovery followed by the two loops. *)
Lemma transfer_after_discover source_workspace target_workspace sc tc s :
  get_workspace_config getenv source_workspace = Some sc ->
  get_workspace_config getenv target_workspace = Some tc ->
  transfer_users_and_notebooks serve getenv recursion_limit
      source_workspace target_workspace s =
    bind (discover serve recursion_limit sc tc) (fun found =>
      for_each (sorted found.2)
        (create_directory serve (cfg_url tc) (cfg_token tc)) ;;;
      for_each found.1 (transfer_notebook serve sc tc)) s.
Proof.
  intros Hs Ht. unfold transfer_users_and_notebooks, discover. rewrite Hs, Ht.
  rewrite !bind_assoc. apply bind_ext. intros users s1.
  rewrite !bind_assoc. apply bind_ext. intros us s2.
  by rewrite !bind_assoc.
Qed.

End Orchestrator.
End migration_facts.

(** ** The operations of the synchronisation *)

Module sync_facts.
Import multicloud_git sync.

Section Leaves.
Context {W : Type}.
Variable serve : W -> request -> W * response.
Variable getenv : string -> option string.
Variable format_value : json -> string.

Lemma fetch_notebook_from_github_run s :
  fetch_notebook_from_github serve (GITHUB_REPO_OWNER getenv)
      (GITHUB_REPO_NAME getenv) notebook_name (GITHUB_TOKEN getenv) s =
    (fetch_outcome (serve (remote s) (github_request getenv)).2,
     State (serve (remote s) (github_request getenv)).1
           (log s ++ [github_request getenv])).
Proof.
  unfold fetch_notebook_from_github, fetch_outcome, github_request.
  leaf_run.
  all: repeat match goal with
       | |- context [if truthy ?v then _ else _] => destruct (truthy v); cbn
       end; leaf_cases; reflexivity.
Qed.

Lemma sync_import_notebook_run c content raw s :
  utf8_encode content = Ret raw ->
  import_notebook serve (cfg_url c) (cfg_token c) content notebook_name
      workspace_dir s =
    (Ret (import_outcome notebook_path
            (serve (remote s) (import_request c notebook_path (b64encode raw))).2),
     State (serve (remote s) (import_request c notebook_path (b64encode raw))).1
           (log s ++ [import_request c notebook_path (b64encode raw)])).
Proof.
  intros Henc.
  unfold import_notebook, import_outcome, import_request, import_endpoint,
    notebook_path.
  unfold bind at 1. unfold lift at 1. rewrite Henc.
  leaf_run.
Qed.

Lemma get_notebook_id_run c path s :
  get_notebook_id serve (cfg_url c) (cfg_token c) path s =
    (notebook_id_outcome (serve (remote s) (status_request c path)).2,
     State (serve (remote s) (status_request c path)).1
           (log s ++ [status_request c path])).
Proof.
  unfold get_notebook_id, notebook_id_outcome, status_request, status_endpoint.
  leaf_run.
Qed.

Lemma get_object_status_run c path s :
  get_object_status serve (cfg_url c) (cfg_token c) path s =
    (status_outcome (serve (remote s) (status_request c path)).2,
     State (serve (remote s) (status_request c path)).1
           (log s ++ [status_request c path])).
Proof.
  unfold get_object_status, status_outcome, status_request, status_endpoint.
  leaf_run.
Qed.

(** The PATCH step of [grant_permissions]. *)
Lemma grant_patch_run c endpoint email level cluster_id s :
  try_except
    (response <- requests_patch serve endpoint (get_headers (cfg_token c))
                   (grant_data email level cluster_id) ;;
     raise_for_status response ;;;
     ret true)
    (ret false) s =
  (Ret (grant_outcome
          (serve (remote s) (grant_request c endpoint email level cluster_id)).2),
   State (serve (remote s) (grant_request c endpoint email level cluster_id)).1
         (log s ++ [grant_request c endpoint email level cluster_id])).
Proof. unfold grant_outcome, grant_request. leaf_run. Qed.

(** [grant_permissions] looks the object up and then sends at most one
    PATCH, whose body is [grant_data]. *)
Lemma grant_permissions_log c path email level cluster_id s :
  exists r w' L,
    grant_permissions serve format_value (cfg_url c) (cfg_token c) path
        email level cluster_id s =
      (r, State w' (log s ++ status_request c path :: L))
    /\ (L = [] \/ exists endpoint,
          L = [grant_request c endpoint email level cluster_id]).
Proof.
  unfold grant_permissions. rewrite bind_run, get_object_status_run.
  destruct (status_outcome _) as [object_status|e]; [|by eexists _, _, []; eauto].
  destruct (negb (truthy object_status)); [by eexists _, _, []; eauto|].
  rewrite bind_run. unfold lift at 1.
  destruct (py_get object_status "object_id" JNull) as [object_id|e];
    [|by eexists _, _, []; eauto].
  rewrite bind_run. unfold lift at 1.
  destruct (py_get object_status "object_type" JNull) as [object_type|e];
    [|by eexists _, _, []; eauto].
  destruct (permissions_endpoint _ _ _ _) as [endpoint|];
    [|by eexists _, _, []; eauto].
  rewrite grant_patch_run. cbn [log remote].
  eexists _, _, [_]. rewrite <- app_assoc. split; [done|]. right. by eexists.
Qed.

(** With the object found and of a type that has permissions, the PATCH
    is sent. *)
Lemma grant_permissions_sent c path email level cluster_id s w1 status d
    endpoint :
  serve (remote s) (status_request c path) = (w1, Response status (Json (JObj d))) ->
  status_ok status = true ->
  d <> [] ->
  permissions_endpoint format_value (cfg_url c)
    (default JNull (dict_get "object_type" d))
    (default JNull (dict_get "object_id" d)) = Some endpoint ->
  grant_permissions serve format_value (cfg_url c) (cfg_token c) path
      email level cluster_id s =
    (Ret (grant_outcome
            (serve w1 (grant_request c endpoint email level cluster_id)).2),
     State (serve w1 (grant_request c endpoint email level cluster_id)).1
           (log s ++ [status_request c path;
                      grant_request c endpoint email level cluster_id])).
Proof.
  intros Hserve Hok Hd Hend.
  unfold grant_permissions. rewrite bind_run, get_object_status_run, Hserve.
  cbn [fst snd]. unfold status_outcome. cbn. rewrite Hok. cbn.
  destruct d as [|kv d]; [done|]. cbn [negb].
  rewrite bind_run. unfold lift at 1. cbn [py_get].
  rewrite bind_run. unfold lift at 1.
  replace (match dict_get "object_type" (kv :: d) with
           | Some x => x | None => JNull end)
    with (default JNull (dict_get "object_type" (kv :: d)))
    by (by destruct (dict_get _ _)).
  replace (match dict_get "object_id" (kv :: d) with
           | Some x => x | None => JNull end)
    with (default JNull (dict_get "object_id" (kv :: d)))
    by (by destruct (dict_get _ _)).
  rewrite Hend, grant_patch_run. cbn [log remote]. by rewrite <- app_assoc.
Qed.

(** The permission request of [get_permissions]. *)
Lemma permissions_fetch_run c endpoint s :
  try_except
    (response <- requests_get serve endpoint (get_headers (cfg_token c)) [] ;;
     raise_for_status response ;;;
     j <- response_json response ;;
     acl <- lift (py_get j "access_control_list" (JArr [])) ;;
     permissions_list <- lift (py_iter acl) ;;
     permissions_dict <- lift (permissions_of permissions_list []) ;;
     ret (Some permissions_dict))
    (ret (Some [])) s =
  (permissions_outcome (serve (remote s) (permissions_request c endpoint)).2,
   State (serve (remote s) (permissions_request c endpoint)).1
         (log s ++ [permissions_request c endpoint])).
Proof.
  unfold permissions_outcome, permissions_request. leaf_run.
  all: destruct (permissions_of _ _) as [?|[]]; reflexivity.
Qed.

(** With the object found and of a type that has permissions, the
    permissions are requested. *)
Lemma get_permissions_found c path s w1 status d endpoint :
  serve (remote s) (status_request c path) = (w1, Response status (Json (JObj d))) ->
  status_ok status = true ->
  d <> [] ->
  permissions_endpoint format_value (cfg_url c)
    (default JNull (dict_get "object_type" d))
    (default JNull (dict_get "object_id" d)) = Some endpoint ->
  get_permissions serve format_value (cfg_url c) (cfg_token c) path s =
    (permissions_outcome (serve w1 (permissions_request c endpoint)).2,
     State (serve w1 (permissions_request c endpoint)).1
           (log s ++ [status_request c path; permissions_request c endpoint])).
Proof.
  intros Hserve Hok Hd Hend.
  unfold get_permissions. rewrite bind_run, get_object_status_run, Hserve.
  cbn [fst snd]. unfold status_outcome. cbn. rewrite Hok. cbn.
  destruct d as [|kv d]; [done|]. cbn [negb].
  rewrite bind_run. unfold lift at 1. cbn [py_get].
  rewrite bind_run. unfold lift at 1.
  replace (match dict_get "object_type" (kv :: d) with
           | Some x => x | None => JNull end)
    with (default JNull (dict_get "object_type" (kv :: d)))
    by (by destruct (dict_get _ _)).
  replace (match dict_get "object_id" (kv :: d) with
           | Some x => x | None => JNull end)
    with (default JNull (dict_get "object_id" (kv :: d)))
    by (by destruct (dict_get _ _)).
  rewrite Hend, permissions_fetch_run. cbn [log remote]. by rewrite <- app_assoc.
Qed.

Lemma apply_permissions_emits c path perms cluster_id :
  emits (grants_from perms cluster_id)
    (apply_permissions serve format_value c path perms cluster_id).
Proof.
  unfold apply_permissions.
  assert (Hstep : forall up, up ∈ perms ->
    emits (grants_from perms cluster_id)
      (grant_permissions serve format_value (cfg_url c) (cfg_token c) path
         up.1 up.2 cluster_id ;;; ret tt)).
  { intros [email level] Hup. apply emits_bind; [|intros; apply emits_ret].
    intros s. cbn [fst snd].
    destruct (grant_permissions_log c path email level cluster_id s)
      as (r & w' & L & -> & HL).
    exists (status_request c path :: L). split; [done|].
    apply Forall_cons_2; [intros [=]|].
    destruct HL as [->|[endpoint ->]]; [constructor|].
    apply Forall_cons_2; [|constructor]. intros _. by exists email, level. }
  assert (Hloop : forall todo, (forall up, up ∈ todo -> up ∈ perms) ->
    emits (grants_from perms cluster_id)
      (for_each todo (fun up =>
         grant_permissions serve format_value (cfg_url c) (cfg_token c) path
           up.1 up.2 cluster_id ;;; ret tt))).
  { induction todo as [|up todo IH]; intros Hsub; cbn [for_each].
    - apply emits_ret.
    - apply emits_bind.
      + apply Hstep, Hsub, list_elem_of_here.
      + intros _. apply IH. intros up' Hup'. by apply Hsub, list_elem_of_further. }
  by apply Hloop.
Qed.

(** With the object found at every lookup, the loop sends a lookup and a
    PATCH per principal, whatever the answers to the PATCH requests. *)
Lemma apply_permissions_run c path perms cluster_id
    (s : state W) d endpoint :
  (forall w, exists status,
     (serve w (status_request c path)).2 = Response status (Json (JObj d))
     /\ status_ok status = true) ->
  d <> [] ->
  permissions_endpoint format_value (cfg_url c)
    (default JNull (dict_get "object_type" d))
    (default JNull (dict_get "object_id" d)) = Some endpoint ->
  exists w',
    apply_permissions serve format_value c path perms cluster_id s =
      (Ret tt,
       State w'
         (log s ++
          flat_map (fun up =>
                      [status_request c path;
                       grant_request c endpoint up.1 up.2 cluster_id])
            perms)).
Proof.
  intros Hfound Hd Hend. unfold apply_permissions. revert s.
  induction perms as [|[email level] perms IH]; intros s; cbn [for_each flat_map].
  - exists (remote s). unfold ret. rewrite app_nil_r. by destruct s.
  - destruct (Hfound (remote s)) as (status & Hresp & Hok).
    rewrite !bind_run. cbn [fst snd].
    erewrite (grant_permissions_sent c path email level
                cluster_id s _ status d endpoint); [|by rewrite <- Hresp;
                apply surjective_pairing|done..].
    unfold ret at 1.
    edestruct IH as [w' ->]. exists w'. cbn [log fst snd app].
    by rewrite <- app_assoc.
Qed.

(** The synchronisation is the fetch of the permissions followed by
    their application. *)
Lemma sync_after_fetch source_cloud target_cloud git_url cluster_id sc tc s :
  get_workspace_config getenv source_cloud = Some sc ->
  get_workspace_config getenv target_cloud = Some tc ->
  sync_notebooks_and_permissions serve getenv format_value
      source_cloud target_cloud git_url cluster_id s =
    bind (fetch_source_permissions serve getenv format_value sc tc)
      (fun reached =>
         match reached with
         | None => ret tt
         | Some (source_path, target_path, fetched) =>
             apply_to_both serve format_value sc tc source_path target_path
               (if no_permissions fetched then default_permissions
                else default [] fetched)
               cluster_id
         end) s.
Proof.
  intros Hs Ht.
  unfold sync_notebooks_and_permissions, fetch_source_permissions, apply_to_both.
  rewrite Hs, Ht.
  rewrite bind_assoc. apply bind_ext. intros content s1.
  destruct (no_content content); [done|].
  rewrite bind_assoc. apply bind_ext. intros sp s2.
  destruct (no_path sp); [done|].
  rewrite bind_assoc. apply bind_ext. intros tp s3.
  destruct (no_path tp); [done|].
  rewrite bind_assoc. apply bind_ext. intros sid s4.
  destruct (negb (truthy sid)); [done|].
  by rewrite bind_assoc.
Qed.

Lemma apply_to_both_emits sc tc source_path target_path perms cluster_id :
  emits (grants_from perms cluster_id)
    (apply_to_both serve format_value sc tc source_path target_path perms
       cluster_id).
Proof.
  unfold apply_to_both. apply emits_bind.
  - intros s. rewrite get_notebook_id_run. eexists; split; [done|].
    apply Forall_cons_2; [intros [=]|constructor].
  - intros tid. apply emits_if; [apply emits_ret|].
    apply emits_bind; [apply apply_permissions_emits|].
    intros _. apply apply_permissions_emits.
Qed.

Lemma notebook_id_outcome_found status d :
  status_ok status = true ->
  notebook_id_outcome (Response status (Json (JObj d))) =
    Ret (default JNull (dict_get "object_id" d)).
Proof.
  intros Hok. unfold notebook_id_outcome. cbn. rewrite Hok. cbn.
  by destruct (dict_get "object_id" d).
Qed.

(** With the notebook found at every lookup, in both workspaces, the rest
    of the run looks it up in the target and then grants every
    permission, first on the source and then on the target. *)
Lemma apply_to_both_run sc tc source_path target_path perms cluster_id
    (s : state W) ds dt source_endpoint target_endpoint :
  (forall w, exists status,
     (serve w (status_request sc source_path)).2 =
       Response status (Json (JObj ds))
     /\ status_ok status = true) ->
  (forall w, exists status,
     (serve w (status_request tc target_path)).2 =
       Response status (Json (JObj dt))
     /\ status_ok status = true) ->
  ds <> [] ->
  truthy (default JNull (dict_get "object_id" dt)) = true ->
  permissions_endpoint format_value (cfg_url sc)
    (default JNull (dict_get "object_type" ds))
    (default JNull (dict_get "object_id" ds)) = Some source_endpoint ->
  permissions_endpoint format_value (cfg_url tc)
    (default JNull (dict_get "object_type" dt))
    (default JNull (dict_get "object_id" dt)) = Some target_endpoint ->
  exists w',
    apply_to_both serve format_value sc tc source_path target_path perms
        cluster_id s =
      (Ret tt,
       State w'
         (log s ++ status_request tc target_path
            :: flat_map (fun up =>
                           [status_request sc source_path;
                            grant_request sc source_endpoint up.1 up.2
                              cluster_id]) perms
            ++ flat_map (fun up =>
                           [status_request tc target_path;
                            grant_request tc target_endpoint up.1 up.2
                              cluster_id]) perms)).
Proof.
  intros Hstatus_s Hstatus_t Hds Hid_t Hend_s Hend_t.
  assert (Hdt : dt <> []) by (by intros ->).
  unfold apply_to_both. rewrite bind_run, get_notebook_id_run.
  destruct (Hstatus_t (remote s)) as (st & Hst & Hok).
  rewrite Hst, (notebook_id_outcome_found _ _ Hok), Hid_t. cbn [negb].
  rewrite bind_run.
  edestruct (apply_permissions_run sc source_path) as [w1 ->];
    [exact Hstatus_s|exact Hds|exact Hend_s|].
  edestruct (apply_permissions_run tc target_path) as [w2 ->];
    [exact Hstatus_t|exact Hdt|exact Hend_t|].
  exists w2. cbn [log]. rewrite <- !app_assoc. by cbn [app].
Qed.

End Leaves.
End sync_facts.

(** * The properties of the bulk migration *)

Module migration_properties.
Import user_creation_adding_notebooks migration migration_facts.

Lemma dict_pop_absent {V} k (d : list (string * V)) :
  dict_get k (dict_pop k d) = None.
Proof.
  induction d as [|[k' v] d IH]; cbn; [done|].
  destruct (String.eqb_spec k k') as [->|Hk]; cbn; [done|].
  by apply String.eqb_neq in Hk as ->.
Qed.

Lemma dict_pop_other {V} k k' (d : list (string * V)) :
  k' <> k -> dict_get k' (dict_pop k d) = dict_get k' d.
Proof.
  intros Hk. unfold dict_pop. induction d as [|[k0 v] d IH]; cbn; [done|].
  destruct (String.eqb_spec k k0) as [->|Hk0]; cbn.
  - by apply String.eqb_neq in Hk as ->.
  - by rewrite IH.
Qed.

Section Properties.
Context {W : Type}.
Variable serve : W -> request -> W * response.
Variable getenv : string -> option string.
Variable recursion_limit : nat.

(** C1.  Once the source has been listed, with notebooks [nbs] and
    directories [dirs], nothing has been written to the target yet.  The
    run continues with exactly one directory creation on the target per
    discovered directory, in the order of [sorted dirs], and only then
    with the notebook loop, which runs over [nbs] in order as
    [notebooks_run] says: each notebook is exported, and imported to the
    same path with what its export returned unless the export failed.  In
    particular, when every notebook exports as bytes that are a text and
    not empty, the rest of the log is the directory creations followed,
    for each notebook in the order of [nbs], by its export and its import
    with these bytes, and the run ends normally.  [sorted dirs] holds the
    discovered directories, each once, in increasing order, so a directory
    whose path is a proper prefix of another one is created first. *)
Theorem directories_before_notebooks
  source_workspace target_workspace sc tc (s s1 : state W) nbs dirs :
  get_workspace_config getenv source_workspace = Some sc ->
  get_workspace_config getenv target_workspace = Some tc ->
  discover serve recursion_limit sc tc s = (Ret (nbs, dirs), s1) ->
  (exists L0,
     log s1 = log s ++ L0 /\ Forall (fun req => ~ is_write tc req) L0)
  /\ (exists outcome w1 w2 L,
        for_each (sorted dirs)
          (create_directory serve (cfg_url tc) (cfg_token tc)) s1 =
          (Ret tt,
           State w1 (log s1 ++ map (mkdirs_request tc) (sorted dirs)))
        /\ notebooks_run serve sc tc w1 nbs L outcome w2
        /\ transfer_users_and_notebooks serve getenv recursion_limit
             source_workspace target_workspace s =
           (outcome,
            State w2
              (log s1 ++ map (mkdirs_request tc) (sorted dirs) ++ L)))
  /\ (forall exported : string -> list Z,
        (forall w p, p ∈ nbs ->
           exists status d encoded content,
             (serve w (export_request sc p)).2 =
               Response status (Json (JObj d))
             /\ status_ok status = true
             /\ dict_get "content" d = Some (JStr encoded)
             /\ b64decode_str encoded = Ret (exported p)
             /\ utf8_decode (exported p) = Ret content
             /\ exported p <> []) ->
        exists w2,
          transfer_users_and_notebooks serve getenv recursion_limit
              source_workspace target_workspace s =
            (Ret tt,
             State w2
               (log s1 ++ map (mkdirs_request tc) (sorted dirs)
                  ++ flat_map
                       (fun p => [export_request sc p;
                                  import_request tc p
                                    (b64encode (exported p))])
                       nbs)))
  /\ (forall p, p ∈ sorted dirs <-> p ∈ dirs)
  /\ NoDup (sorted dirs)
  /\ StronglySorted str_le (sorted dirs)
  /\ (forall p q, p ∈ dirs -> q ∈ dirs -> proper_prefix p q ->
        before p q (sorted dirs)).
Proof.
  intros Hs Ht Hd.
  assert (Hrun :
    transfer_users_and_notebooks serve getenv recursion_limit
        source_workspace target_workspace s =
      bind (for_each (sorted dirs)
              (create_directory serve (cfg_url tc) (cfg_token tc)))
        (fun _ => for_each nbs (transfer_notebook serve sc tc)) s1).
  { rewrite (transfer_after_discover serve getenv recursion_limit _ _ sc tc s
               Hs Ht).
    by rewrite bind_run, Hd. }
  destruct (create_directories_run serve tc (sorted dirs) s1) as [w1 Hdirs].
  rewrite bind_run, Hdirs in Hrun.
  split.
  { destruct (discover_emits serve recursion_limit sc tc s) as (L0 & HL0 & Hdisc).
    rewrite Hd in HL0. exists L0. split; [exact HL0|].
    eapply Forall_impl; [exact Hdisc|]. apply discovery_not_write. }
  split.
  { destruct (notebooks_loop_run serve sc tc nbs
                (State w1 (log s1 ++ map (mkdirs_request tc) (sorted dirs))))
      as (L & outcome & w2 & Hloop & Htrace).
    exists outcome, w1, w2, L. split; [exact Hdirs|]. split; [exact Htrace|].
    rewrite Hrun, Hloop. cbn [log]. by rewrite <- app_assoc. }
  split.
  { intros exported Hexp.
    destruct (exported_notebooks_run serve sc tc exported nbs
                (State w1 (log s1 ++ map (mkdirs_request tc) (sorted dirs)))
                Hexp) as [w2 Hloop].
    exists w2. rewrite Hrun, Hloop. cbn [log]. by rewrite <- app_assoc. }
  split; [intros p; apply elem_of_sorted|].
  split; [apply sorted_NoDup|].
  split; [apply sorted_StronglySorted|].
  intros p q. apply sorted_parent_first.
Qed.

(** C5.  In the notebook loop a failed export (the result is [None] or
    empty) skips that notebook and nothing else: the loop goes on with the
    remaining notebooks from the state the export left.  After a
    successful export the notebook is imported to the same path, and the
    loop goes on with the remaining notebooks whatever the target answers
    to the import.  Hence, when the listing of the source has returned the
    notebooks [nbs] and every export returns, the run ends normally with
    every discovered notebook exported, in order, and each one skipped or
    imported as its own export decides. *)
Theorem skip_on_export_failure sc tc :
  (forall earlier p later (s s1 : state W),
     for_each earlier (transfer_notebook serve sc tc) s = (Ret tt, s1) ->
     (forall r,
        export_outcome (serve (remote s1) (export_request sc p)).2 = Ret r ->
        export_failed r = true ->
        for_each (earlier ++ p :: later) (transfer_notebook serve sc tc) s =
          for_each later (transfer_notebook serve sc tc)
            (State (serve (remote s1) (export_request sc p)).1
                   (log s1 ++ [export_request sc p])))
     /\ (forall content,
          export_outcome (serve (remote s1) (export_request sc p)).2
            = Ret (Some content) ->
          content <> [] ->
          exists raw,
            utf8_encode content = Ret raw
            /\ for_each (earlier ++ p :: later)
                 (transfer_notebook serve sc tc) s =
               for_each later (transfer_notebook serve sc tc)
                 (State (serve (serve (remote s1) (export_request sc p)).1
                               (import_request tc p (b64encode raw))).1
                        (log s1 ++ [export_request sc p;
                                    import_request tc p (b64encode raw)]))))
  /\ (forall source_workspace target_workspace (s s1 : state W) nbs dirs,
       get_workspace_config getenv source_workspace = Some sc ->
       get_workspace_config getenv target_workspace = Some tc ->
       discover serve recursion_limit sc tc s = (Ret (nbs, dirs), s1) ->
       (forall w p, p ∈ nbs ->
          exists r, export_outcome (serve w (export_request sc p)).2 = Ret r) ->
       exists w1 L w',
         transfer_users_and_notebooks serve getenv recursion_limit
             source_workspace target_workspace s =
           (Ret tt,
            State w' (log s1 ++ map (mkdirs_request tc) (sorted dirs) ++ L))
         /\ notebooks_trace serve sc tc w1 nbs L w'
         /\ Forall (fun p => export_request sc p ∈ L) nbs).
Proof.
  split.
  - intros earlier p later s s1 Hearlier. split.
    + intros r Hr Hf.
      rewrite for_each_app, bind_run, Hearlier. cbn [for_each].
      by rewrite bind_run, (transfer_notebook_skip _ _ _ _ _ _ Hr Hf).
    + intros content Hc Hne.
      destruct (export_outcome_encodable _ _ Hc) as [raw Henc].
      exists raw. split; [done|].
      rewrite for_each_app, bind_run, Hearlier. cbn [for_each].
      by rewrite bind_run, (transfer_notebook_import _ _ _ _ _ _ _ Hc Hne Henc).
  - intros source_workspace target_workspace s s1 nbs dirs Hs Ht Hd Hclean.
    rewrite (transfer_after_discover serve getenv recursion_limit _ _ sc tc s Hs Ht).
    rewrite bind_run, Hd. cbn [fst snd]. rewrite bind_run.
    destruct (create_directories_run serve tc (sorted dirs) s1) as [w1 ->].
    destruct (notebooks_loop_trace serve sc tc nbs
                (State w1 (log s1 ++ map (mkdirs_request tc) (sorted dirs)))
                Hclean) as (L & w' & -> & Htrace & Hall).
    exists w1, L, w'. cbn [log remote] in *. by rewrite <- app_assoc.
Qed.

(** C6.  The user records fetched from the source are sent to the user
    endpoint of the target one by one, in order, each without its "id"
    field and otherwise unchanged: the other keys keep their values.  No
    other request of the run creates a user.  A record that is no JSON
    object, or a record that cannot be logged, ends the run. *)
Theorem user_records_lose_their_id
  source_workspace target_workspace sc tc (s : state W) users us :
  get_workspace_config getenv source_workspace = Some sc ->
  get_workspace_config getenv target_workspace = Some tc ->
  users_outcome (serve (remote s) (users_request sc)).2 = Ret users ->
  py_iter users = Ret us ->
  exists ds rest L,
    us = map JObj ds ++ rest
    /\ log (transfer_users_and_notebooks serve getenv recursion_limit
              source_workspace target_workspace s).2 =
         log s ++ users_request sc
           :: map (fun d => create_user_request tc (strip_id d)) ds ++ L
    /\ Forall (fun req => forall user, req <> create_user_request tc user) L
    /\ ((transfer_users_and_notebooks serve getenv recursion_limit
           source_workspace target_workspace s).1 = Ret tt -> rest = [])
    /\ (forall d : list (string * json),
          strip_id d = JObj (dict_pop "id" d)
          /\ dict_get "id" (dict_pop "id" d) = None
          /\ forall k, k <> "id" -> dict_get k (dict_pop "id" d) = dict_get k d).
Proof.
  intros Hs Ht Hu Hiter.
  set (s1 := State (serve (remote s) (users_request sc)).1
                   (log s ++ [users_request sc])).
  assert (Hrun :
    transfer_users_and_notebooks serve getenv recursion_limit
        source_workspace target_workspace s =
      bind (for_each us (transfer_user serve tc)) (fun _ =>
        bind (list_notebooks serve recursion_limit (cfg_url sc) (cfg_token sc) "/")
          (fun found =>
             for_each (sorted found.2)
               (create_directory serve (cfg_url tc) (cfg_token tc)) ;;;
             for_each found.1 (transfer_notebook serve sc tc))) s1).
  { unfold transfer_users_and_notebooks. rewrite Hs, Ht.
    unfold bind at 1. rewrite get_users_run, Hu.
    unfold bind at 1. unfold lift at 1. by rewrite Hiter. }
  rewrite Hrun. clear Hrun. rewrite bind_run.
  destruct (transfer_users_log serve tc us s1) as (ds & rest & Hus & Hlog & Hrest).
  subst s1.
  destruct (for_each us _ _) as [[[]|e] s2]; cbn [fst snd log] in *.
  - destruct (replication_emits serve recursion_limit sc tc s2) as (L & HL & HP).
    exists ds, rest, L. split; [done|]. split.
    { rewrite HL, Hlog. by rewrite <- !app_assoc. }
    split.
    { eapply Forall_impl; [exact HP|]. intros req Hreq user.
      by eapply replication_not_user_creation. }
    split; [auto|].
    intros d. split; [done|]. split; [apply dict_pop_absent|].
    intros k Hk. by apply dict_pop_other.
  - exists ds, rest, []. split; [done|]. split.
    { rewrite Hlog, app_nil_r. by rewrite <- !app_assoc. }
    split; [constructor|]. split; [intros [=]|].
    intros d. split; [done|]. split; [apply dict_pop_absent|].
    intros k Hk. by apply dict_pop_other.
Qed.

(** C10.  A response to the export whose content field is absent or empty
    makes [export_notebook] return the empty text, which the loop takes
    for a failed export: the notebook is skipped, and nothing is sent to
    the target for it. *)
Theorem empty_content_is_skipped sc tc p (s : state W) w1 status d :
  serve (remote s) (export_request sc p) = (w1, Response status (Json (JObj d))) ->
  status_ok status = true ->
  dict_get "content" d = None \/ dict_get "content" d = Some (JStr "") ->
  export_notebook serve (cfg_url sc) (cfg_token sc) p s =
    (Ret (Some []), State w1 (log s ++ [export_request sc p]))
  /\ export_failed (Some []) = true
  /\ transfer_notebook serve sc tc p s =
       (Ret tt, State w1 (log s ++ [export_request sc p])).
Proof.
  intros Hserve Hok Hd.
  pose proof (export_outcome_no_content status d Hok Hd) as Hout.
  split; [|split; [done|]].
  - rewrite export_notebook_run, Hserve. cbn [fst snd]. by rewrite Hout.
  - rewrite (transfer_notebook_skip serve sc tc p s (Some [])).
    + by rewrite Hserve.
    + rewrite Hserve. exact Hout.
    + done.
Qed.

(** C7, as the code has it.  [export_notebook] sends one request and
    returns [None] when the call fails in transport, with an error status
    or with a body that is not JSON; it returns the decoded text when the
    content field holds the base64 form of UTF-8 bytes; and for a
    response without a content field it returns the empty text, not
    [None]. *)
Theorem export_notebook_result c p (s : state W) w1 resp :
  serve (remote s) (export_request c p) = (w1, resp) ->
  export_notebook serve (cfg_url c) (cfg_token c) p s =
    (export_outcome resp, State w1 (log s ++ [export_request c p]))
  /\ (failing resp -> export_outcome resp = Ret None)
  /\ (forall status d encoded raw content,
        resp = Response status (Json (JObj d)) -> status_ok status = true ->
        dict_get "content" d = Some (JStr encoded) ->
        b64decode_str encoded = Ret raw -> utf8_decode raw = Ret content ->
        export_outcome resp = Ret (Some content))
  /\ (forall status d,
        resp = Response status (Json (JObj d)) -> status_ok status = true ->
        dict_get "content" d = None ->
        export_outcome resp = Ret (Some [])).
Proof.
  intros Hserve. split; [by rewrite export_notebook_run, Hserve|].
  split; [apply export_outcome_failing|]. split.
  - intros status d encoded raw content ->. apply export_outcome_decoded.
  - intros status d -> Hok Hd. apply export_outcome_no_content; auto.
Qed.

End Properties.

(** C8.  Over the store that keeps the last write: a text of scalar values
    imported to a path is exported from that path unchanged; and what an
    export returns, imported again to the same path, is what the next
    export returns. *)
Theorem import_export_roundtrip c path :
  (forall (w : gmap string string) lg content,
     Forall scalar content ->
     (bind (import_notebook store_serve (cfg_url c) (cfg_token c) path content)
        (fun _ => export_notebook store_serve (cfg_url c) (cfg_token c) path)
        (State w lg)).1 = Ret (Some content))
  /\ (forall (w : gmap string string) lg content,
        (export_notebook store_serve (cfg_url c) (cfg_token c) path
           (State w lg)).1 = Ret (Some content) ->
        (bind (export_notebook store_serve (cfg_url c) (cfg_token c) path)
           (fun exported =>
              import_notebook store_serve (cfg_url c) (cfg_token c) path
                (default [] exported) ;;;
              export_notebook store_serve (cfg_url c) (cfg_token c) path)
           (State w lg)).1 = Ret (Some content)).
Proof.
  assert (Hround : forall (w : gmap string string) lg content,
    Forall scalar content ->
    (bind (import_notebook store_serve (cfg_url c) (cfg_token c) path content)
       (fun _ => export_notebook store_serve (cfg_url c) (cfg_token c) path)
       (State w lg)).1 = Ret (Some content)).
  { intros w lg content Hcontent.
    destruct (utf8_roundtrip content Hcontent) as (raw & Henc & Hraw & Hdec).
    rewrite bind_run, (import_notebook_run _ _ _ _ _ _ Henc).
    rewrite export_notebook_run. cbn [fst snd remote log].
    rewrite store_import. cbn [fst]. rewrite store_export, lookup_insert_eq.
    cbn [snd]. eapply export_outcome_decoded; [done|done| |exact Hdec].
    unfold b64decode_str. by rewrite b64encode_ascii, a2b_b64encode. }
  split; [exact Hround|].
  intros w lg content Hexp.
  rewrite bind_run. rewrite export_notebook_run in *. cbn [fst snd] in *.
  rewrite Hexp. cbn [default].
  rewrite store_export in *. cbn [fst snd] in *.
  apply Hround. by eapply export_outcome_scalar.
Qed.

(** The scenario of the specification: what the workspace API of the
    target receives. *)
Example scenario_target_receives :
  let run := transfer_users_and_notebooks scenario_serve scenario_env 50
               "STAGING" "PREPROD" (State tt []) in
  let tc := Config (Some "https://tgt") (Some "t") in
  run.1 = Ret tt
  /\ sent_to "https://tgt/api/2.0/workspace/" (log run.2) =
       [mkdirs_request tc "/d1";
        import_request tc "/n1" "cHJpbnQoMSk=";
        import_request tc "/n2" "cHJpbnQoMSk="].
Proof. vm_compute. split; reflexivity. Qed.

(** The directories /a/b/c, /a and /a/b are created in the order /a, /a/b,
    /a/b/c. *)
Example sorted_nested_directories :
  sorted ({["/a/b/c"]} ∪ {["/a"]} ∪ {["/a/b"]}) = ["/a"; "/a/b"; "/a/b/c"].
Proof. vm_compute. reflexivity. Qed.

(** C1 on the scenario of the specification: the source lists the
    notebooks /n1 and /n2 and the directory /d1.  After the discovery the
    target receives the creation of /d1, then the import of /n1 and the
    import of /n2, each after its export from the source. *)
Lemma directories_before_notebooks_witness :
  let sc := Config (Some "https://src") (Some "s") in
  let tc := Config (Some "https://tgt") (Some "t") in
  let discovery :=
    [users_request sc;
     create_user_request tc
       (JObj [("userName", JStr "ada@example.com"); ("active", JBool true)]);
     list_request sc "/"; list_request sc "/d1"] in
  exists w2,
    transfer_users_and_notebooks scenario_serve scenario_env 50
        "STAGING" "PREPROD" (State tt []) =
      (Ret tt,
       State w2
         (discovery
            ++ [mkdirs_request tc "/d1";
                export_request sc "/n1";
                import_request tc "/n1" "cHJpbnQoMSk=";
                export_request sc "/n2";
                import_request tc "/n2" "cHJpbnQoMSk="])).
Proof.
  intros sc tc discovery.
  change [mkdirs_request tc "/d1";
          export_request sc "/n1"; import_request tc "/n1" "cHJpbnQoMSk=";
          export_request sc "/n2"; import_request tc "/n2" "cHJpbnQoMSk="]
    with (map (mkdirs_request tc) ["/d1"]
            ++ flat_map (fun p => [export_request sc p;
                                   import_request tc p "cHJpbnQoMSk="])
                 ["/n1"; "/n2"]).
  replace ["/d1"] with (sorted {["/d1"]}) by (by vm_compute).
  destruct (directories_before_notebooks scenario_serve scenario_env 50
              "STAGING" "PREPROD" sc tc (State tt []) (State tt discovery)
              ["/n1"; "/n2"] {["/d1"]})
    as (_ & _ & Hexact & _).
  - reflexivity.
  - reflexivity.
  - vm_compute. reflexivity.
  - apply (Hexact (fun _ => [112; 114; 105; 110; 116; 40; 49; 41]%Z)).
    intros w p _.
    exists 200%Z, [("content", JStr "cHJpbnQoMSk=")], "cHJpbnQoMSk=",
      [112; 114; 105; 110; 116; 40; 49; 41]%Z.
    repeat split; try reflexivity. discriminate.
Defined.

End migration_properties.

(** * The properties of the synchronisation *)

Module sync_properties.
Import multicloud_git sync sync_facts.

Section Properties.
Context {W : Type}.
Variable serve : W -> request -> W * response.
Variable getenv : string -> option string.
Variable format_value : json -> string.


(** C9.  A call of [grant_permissions] looks the object up and then sends
    at most one PATCH.  Its access control list has the requested entry
    and, when a cluster id is given and not empty, a second entry with the
    level CAN_ATTACH_TO and that cluster id; without a cluster id it has
    the requested entry only.  The PATCH is sent whenever the lookup finds
    a notebook or a directory. *)
Theorem grant_request_entries c path email level cluster_id (s : state W) :
  let entry := JObj [("user_name", email); ("permission_level", level)] in
  let attach id := JObj [("user_name", email);
                         ("permission_level", JStr "CAN_ATTACH_TO");
                         ("cluster_id", JStr id)] in
  let acl := match cluster_id with
             | Some id => if (id =? "")%string then [entry] else [entry; attach id]
             | None => [entry]
             end in
  let patch endpoint :=
    Request PATCH endpoint (get_headers (cfg_token c)) []
      (Some (JObj [("access_control_list", JArr acl)])) in
  (exists r w' L,
     grant_permissions serve format_value (cfg_url c) (cfg_token c) path
         email level cluster_id s =
       (r, State w' (log s ++ status_request c path :: L))
     /\ (L = [] \/ exists endpoint, L = [patch endpoint]))
  /\ (forall w1 status d endpoint,
        serve (remote s) (status_request c path) =
          (w1, Response status (Json (JObj d))) ->
        status_ok status = true ->
        d <> [] ->
        permissions_endpoint format_value (cfg_url c)
          (default JNull (dict_get "object_type" d))
          (default JNull (dict_get "object_id" d)) = Some endpoint ->
        log (grant_permissions serve format_value (cfg_url c) (cfg_token c)
               path email level cluster_id s).2 =
          log s ++ [status_request c path; patch endpoint]).
Proof.
  intros entry attach acl patch.
  assert (Hpatch : forall endpoint,
            grant_request c endpoint email level cluster_id = patch endpoint).
  { intros endpoint. unfold grant_request, patch, grant_data, acl, cluster_given.
    destruct cluster_id as [id|]; [|done]. by destruct (id =? "")%string. }
  split.
  - destruct (grant_permissions_log serve format_value c path email level
                cluster_id s) as (r & w' & L & Hrun & HL).
    exists r, w', L. split; [done|].
    destruct HL as [->|[endpoint ->]]; [by left|right].
    exists endpoint. by rewrite Hpatch.
  - intros w1 status d endpoint Hserve Hok Hd Hend.
    rewrite (grant_permissions_sent serve format_value c path email level
               cluster_id s w1 status d endpoint Hserve Hok Hd Hend).
    cbn [snd log]. by rewrite Hpatch.
Qed.

End Properties.

(** A first synchronisation between two workspaces where the notebook has
    no access control list yet: the two default grants go to the source
    and then to the target. *)
Example bootstrap_grants :
  let run := sync_notebooks_and_permissions bootstrap_serve bootstrap_env
               bootstrap_format "aws" "gcp" None None (State tt []) in
  let aws := Config (Some "https://aws") (Some "a") in
  let gcp := Config (Some "https://gcp") (Some "g") in
  let somin := JStr "somin.sangwan@digivatelabs.com" in
  let samir := JStr "samir.shinde@digivatelabs.com" in
  run.1 = Ret tt
  /\ List.filter (fun req => match meth req with PATCH => true | _ => false end)
       (log run.2) =
     [grant_request aws "https://aws/api/2.0/permissions/notebooks/7"
        somin (JStr "CAN_MANAGE") None;
      grant_request aws "https://aws/api/2.0/permissions/notebooks/7"
        samir (JStr "CAN_MANAGE") None;
      grant_request gcp "https://gcp/api/2.0/permissions/notebooks/7"
        somin (JStr "CAN_MANAGE") None;
      grant_request gcp "https://gcp/api/2.0/permissions/notebooks/7"
        samir (JStr "CAN_MANAGE") None].
Proof. vm_compute. split; reflexivity. Qed.

End sync_properties.

(** * Failure policy and configuration, for both scripts *)

Module policy.
Module B := user_creation_adding_notebooks.
Module G := multicloud_git.
Import migration sync migration_facts sync_facts.

Lemma handle_failing {A} resp (f : json -> result A) (sentinel : A) :
  failing resp -> handle (rbind (parsed resp) f) sentinel = Ret sentinel.
Proof.
  destruct resp as [|status content]; cbn; [done|].
  intros [-> | ->]; [done|]. by destruct (status_ok status).
Qed.

Lemma accepted_refused resp : refused resp -> exists e, accepted resp = Raise e.
Proof.
  destruct resp as [|status content]; cbn; [by eexists|].
  intros ->. by eexists.
Qed.

Section Policy.
Context {W : Type}.
Variable serve : W -> request -> W * response.
Variable getenv : string -> option string.
Variable format_value : json -> string.
Variable recursion_limit : nat.

Lemma get_object_status_contained u t p :
  contained (G.get_object_status serve u t p).
Proof. apply contained_try, contained_ret. Qed.

Lemma get_permissions_contained u t p :
  contained (G.get_permissions serve format_value u t p).
Proof.
  unfold G.get_permissions.
  apply contained_bind; [apply get_object_status_contained|]. intros st.
  apply contained_if; [apply contained_ret|].
  apply contained_bind; [apply contained_lift, py_get_builtin|]. intros oid.
  apply contained_bind; [apply contained_lift, py_get_builtin|]. intros oty.
  destruct (G.permissions_endpoint _ _ _ _); [|apply contained_ret].
  apply contained_try, contained_ret.
Qed.

Lemma grant_permissions_contained u t p email level cluster_id :
  contained (G.grant_permissions serve format_value u t p email level cluster_id).
Proof.
  unfold G.grant_permissions.
  apply contained_bind; [apply get_object_status_contained|]. intros st.
  apply contained_if; [apply contained_ret|].
  apply contained_bind; [apply contained_lift, py_get_builtin|]. intros oid.
  apply contained_bind; [apply contained_lift, py_get_builtin|]. intros oty.
  destruct (G.permissions_endpoint _ _ _ _); [|apply contained_ret].
  apply contained_try, contained_ret.
Qed.

Lemma list_notebooks_at_contained depth u t p :
  contained (B.list_notebooks_at serve depth u t p).
Proof.
  destruct depth; cbn [B.list_notebooks_at].
  - intros s e [= <-]. done.
  - apply contained_try, contained_ret.
Qed.

(** C3, as the code has it.  No leaf operation lets a
    [RequestException] out.  When the call of an operation fails (no
    connection, an error status or, for the operations that read the
    body, a body that is not JSON), the operation returns its sentinel:
    [None], [False] or an empty collection; [create_user] does so for a
    record that has a userName.  Exceptions of other classes are not
    caught. *)
Theorem request_failures_become_sentinels :
  ((forall u t, contained (B.get_users serve u t))
   /\ (forall u t user, contained (B.create_user serve u t user))
   /\ (forall depth u t p, contained (B.list_notebooks_at serve depth u t p))
   /\ (forall u t p, contained (B.export_notebook serve u t p))
   /\ (forall u t p, contained (B.create_directory serve u t p))
   /\ (forall u t p content, contained (B.import_notebook serve u t p content))
   /\ (forall o n p t, contained (G.fetch_notebook_from_github serve o n p t))
   /\ (forall u t content n d, contained (G.import_notebook serve u t content n d))
   /\ (forall u t p, contained (G.get_notebook_id serve u t p))
   /\ (forall u t p, contained (G.get_object_status serve u t p))
   /\ (forall u t p, contained (G.get_permissions serve format_value u t p))
   /\ (forall u t p email level cluster_id,
         contained (G.grant_permissions serve format_value u t p email level
                      cluster_id)))
  /\ (forall (s : state W) (c : B.config) path,
        (failing (serve (remote s) (users_request c)).2 ->
         (B.get_users serve (B.cfg_url c) (B.cfg_token c) s).1 = Ret (JArr []))
        /\ (forall depth,
             failing (serve (remote s) (list_request c path)).2 ->
             (B.list_notebooks_at serve (S depth) (B.cfg_url c) (B.cfg_token c)
                path s).1 = Ret ([], ∅))
        /\ (failing (serve (remote s) (export_request c path)).2 ->
            (B.export_notebook serve (B.cfg_url c) (B.cfg_token c) path s).1
              = Ret None)
        /\ (forall user name,
             dict_get "userName" user = Some name ->
             refused (serve (remote s) (create_user_request c (JObj user))).2 ->
             (B.create_user serve (B.cfg_url c) (B.cfg_token c) (JObj user) s).1
               = Ret false)
        /\ (B.create_directory serve (B.cfg_url c) (B.cfg_token c) path s).1
             = Ret tt
        /\ (forall content raw,
             utf8_encode content = Ret raw ->
             refused (serve (remote s)
                        (migration.import_request c path (b64encode raw))).2 ->
             (B.import_notebook serve (B.cfg_url c) (B.cfg_token c) path
                content s).1 = Ret false))
  /\ (forall (s : state W) (g : G.config) path,
        (failing (serve (remote s) (github_request getenv)).2 ->
         (G.fetch_notebook_from_github serve (G.GITHUB_REPO_OWNER getenv)
            (G.GITHUB_REPO_NAME getenv) G.notebook_name
            (G.GITHUB_TOKEN getenv) s).1 = Ret None)
        /\ (forall content raw,
             utf8_encode content = Ret raw ->
             refused (serve (remote s)
                        (sync.import_request g notebook_path (b64encode raw))).2 ->
             (G.import_notebook serve (G.cfg_url g) (G.cfg_token g) content
                G.notebook_name G.workspace_dir s).1 = Ret None)
        /\ (forall email level cluster_id,
             failing (serve (remote s) (status_request g path)).2 ->
             (G.get_notebook_id serve (G.cfg_url g) (G.cfg_token g) path s).1
               = Ret JNull
             /\ (G.get_object_status serve (G.cfg_url g) (G.cfg_token g)
                   path s).1 = Ret JNull
             /\ (G.get_permissions serve format_value (G.cfg_url g)
                   (G.cfg_token g) path s).1 = Ret None
             /\ (G.grant_permissions serve format_value (G.cfg_url g)
                   (G.cfg_token g) path email level cluster_id s).1 = Ret false)
        /\ (forall w1 status d endpoint email level cluster_id,
             serve (remote s) (status_request g path) =
               (w1, Response status (Json (JObj d))) ->
             status_ok status = true ->
             d <> [] ->
             G.permissions_endpoint format_value (G.cfg_url g)
               (default JNull (dict_get "object_type" d))
               (default JNull (dict_get "object_id" d)) = Some endpoint ->
             (failing (serve w1 (permissions_request g endpoint)).2 ->
              (G.get_permissions serve format_value (G.cfg_url g)
                 (G.cfg_token g) path s).1 = Ret (Some []))
             /\ (refused (serve w1 (grant_request g endpoint email level
                                      cluster_id)).2 ->
                 (G.grant_permissions serve format_value (G.cfg_url g)
                    (G.cfg_token g) path email level cluster_id s).1
                   = Ret false))).
Proof.
  split; [|split].
  - repeat split; intros.
    + apply contained_try, contained_ret.
    + apply contained_try.
      apply contained_bind; [apply contained_lift, py_getitem_builtin|].
      intros _. apply contained_ret.
    + apply list_notebooks_at_contained.
    + apply contained_try, contained_ret.
    + apply contained_try, contained_ret.
    + apply contained_bind; [apply contained_lift, utf8_encode_builtin|].
      intros raw. apply contained_try, contained_ret.
    + apply contained_try, contained_ret.
    + apply contained_bind; [apply contained_lift, utf8_encode_builtin|].
      intros raw. apply contained_try, contained_ret.
    + apply contained_try, contained_ret.
    + apply get_object_status_contained.
    + apply get_permissions_contained.
    + apply grant_permissions_contained.
  - intros s c path. repeat split.
    + intros Hf. rewrite get_users_run. cbn [fst]. by apply handle_failing.
    + intros depth Hf. cbn [B.list_notebooks_at]. unfold try_except.
      rewrite bind_run. unfold requests_get, send.
      unfold list_request, list_endpoint in Hf.
      destruct (serve _ _) as [w1 [|status content]]; cbn in *; [done|].
      unfold raise_for_status, response_json, bind, ret, raise. cbn.
      destruct Hf as [-> | ->]; [done|]. by destruct (status_ok status).
    + intros Hf. rewrite export_notebook_run. cbn [fst].
      by apply export_outcome_failing.
    + intros user name Hname Hr. rewrite create_user_run. cbn [fst].
      unfold create_user_outcome.
      destruct (accepted_refused _ Hr) as [e ->]. cbn. by rewrite Hname.
    + by rewrite create_directory_run.
    + intros content raw Henc Hr.
      rewrite (migration_facts.import_notebook_run _ _ _ _ _ _ Henc). cbn [fst].
      unfold migration.import_outcome.
      by destruct (accepted_refused _ Hr) as [e ->].
  - intros s g path. split; [|split; [|split]].
    + intros Hf. rewrite fetch_notebook_from_github_run. cbn [fst].
      by apply handle_failing.
    + intros content raw Henc Hr.
      rewrite (sync_import_notebook_run _ _ _ _ _ Henc). cbn [fst].
      unfold sync.import_outcome.
      by destruct (accepted_refused _ Hr) as [e ->].
    + intros email level cluster_id Hf.
      assert (Hstatus :
        G.get_object_status serve (G.cfg_url g) (G.cfg_token g) path s =
          (Ret JNull, State (serve (remote s) (status_request g path)).1
                            (log s ++ [status_request g path]))).
      { rewrite get_object_status_run. unfold status_outcome.
        rewrite <- (handle_failing _ Ret JNull Hf). by destruct (parsed _). }
      repeat split.
      * rewrite get_notebook_id_run. cbn [fst]. by apply handle_failing.
      * by rewrite Hstatus.
      * unfold G.get_permissions. by rewrite bind_run, Hstatus.
      * unfold G.grant_permissions. by rewrite bind_run, Hstatus.
    + intros w1 status d endpoint email level cluster_id Hserve Hok Hd Hend.
      split.
      * intros Hf.
        rewrite (get_permissions_found serve format_value g path s w1 status d
                   endpoint Hserve Hok Hd Hend).
        cbn [fst]. by apply handle_failing.
      * intros Hr.
        rewrite (grant_permissions_sent serve format_value g path email level
                   cluster_id s w1 status d endpoint Hserve Hok Hd Hend).
        cbn [fst]. unfold grant_outcome.
        by destruct (accepted_refused _ Hr) as [e ->].
Qed.

Lemma list_notebooks_at_any depth : forall u t p,
  emits (fun _ => True) (B.list_notebooks_at serve depth u t p).
Proof.
  induction depth as [|depth IH]; intros u t p; cbn [B.list_notebooks_at].
  - apply emits_raise.
  - unfold requests_get. emits_any. by apply list_objects_emits.
Qed.

Lemma transfer_rest_any sc tc users :
  emits (fun _ => True)
    (us <- lift (py_iter users) ;;
     for_each us (B.transfer_user serve tc) ;;;
     found <- B.list_notebooks serve recursion_limit (B.cfg_url sc)
                (B.cfg_token sc) "/" ;;
     for_each (sorted found.2)
       (B.create_directory serve (B.cfg_url tc) (B.cfg_token tc)) ;;;
     for_each found.1 (B.transfer_notebook serve sc tc)).
Proof.
  apply emits_bind; [apply emits_lift|]. intros us.
  apply emits_bind.
  { apply emits_for_each. intros user.
    unfold B.transfer_user, B.create_user, requests_post. emits_any. }
  intros _. apply emits_bind; [apply list_notebooks_at_any|]. intros found.
  apply emits_bind.
  - apply emits_for_each. intros p.
    unfold B.create_directory, requests_post. emits_any.
  - intros _. apply emits_for_each. intros p.
    unfold B.transfer_notebook, B.export_notebook, B.import_notebook,
      requests_get, requests_post. emits_any.
Qed.

Lemma sync_rest_any sc tc cluster_id content :
  emits (fun _ => True)
    (if G.no_content content then ret tt else
     source_notebook_path <- G.import_notebook serve (G.cfg_url sc)
         (G.cfg_token sc) (default [] content) G.notebook_name G.workspace_dir ;;
     if G.no_path source_notebook_path then ret tt else
     target_notebook_path <- G.import_notebook serve (G.cfg_url tc)
         (G.cfg_token tc) (default [] content) G.notebook_name G.workspace_dir ;;
     if G.no_path target_notebook_path then ret tt else
     source_notebook_id <- G.get_notebook_id serve (G.cfg_url sc)
         (G.cfg_token sc) (default "" source_notebook_path) ;;
     if negb (truthy source_notebook_id) then ret tt else
     fetched <- G.get_permissions serve format_value (G.cfg_url sc)
         (G.cfg_token sc) (default "" source_notebook_path) ;;
     target_notebook_id <- G.get_notebook_id serve (G.cfg_url tc)
         (G.cfg_token tc) (default "" target_notebook_path) ;;
     if negb (truthy target_notebook_id) then ret tt else
     G.apply_permissions serve format_value sc (default "" source_notebook_path)
       (if G.no_permissions fetched then G.default_permissions
        else default [] fetched) cluster_id ;;;
     G.apply_permissions serve format_value tc (default "" target_notebook_path)
       (if G.no_permissions fetched then G.default_permissions
        else default [] fetched) cluster_id).
Proof.
  unfold G.import_notebook, G.get_notebook_id, G.get_permissions,
    G.apply_permissions, G.grant_permissions, G.get_object_status,
    requests_get, requests_post, requests_patch.
  emits_any.
Qed.

(** C4, as the code has it.  Both orchestrators stop before any request
    when one of the two names is not in the table of workspaces, and go on
    to their first request when both are: the bulk migration to the
    listing of the users of the source, the synchronisation to the source
    host.  Whether a name is in the table depends on the name alone, read
    without regard to case: the url and the token of its entry are what
    the environment holds, set or not, and are not looked at. *)
Theorem configuration_resolution :
  (forall source_workspace target_workspace (s : state W),
     (B.get_workspace_config getenv source_workspace = None
      \/ B.get_workspace_config getenv target_workspace = None ->
      B.transfer_users_and_notebooks serve getenv recursion_limit
        source_workspace target_workspace s = (Ret tt, s))
     /\ (forall sc tc,
          B.get_workspace_config getenv source_workspace = Some sc ->
          B.get_workspace_config getenv target_workspace = Some tc ->
          exists L,
            log (B.transfer_users_and_notebooks serve getenv recursion_limit
                   source_workspace target_workspace s).2 =
              log s ++ users_request sc :: L))
  /\ (forall source_cloud target_cloud git_url cluster_id (s : state W),
       (G.get_workspace_config getenv source_cloud = None
        \/ G.get_workspace_config getenv target_cloud = None ->
        G.sync_notebooks_and_permissions serve getenv format_value
          source_cloud target_cloud git_url cluster_id s = (Ret tt, s))
       /\ (forall sc tc,
            G.get_workspace_config getenv source_cloud = Some sc ->
            G.get_workspace_config getenv target_cloud = Some tc ->
            exists L,
              log (G.sync_notebooks_and_permissions serve getenv format_value
                     source_cloud target_cloud git_url cluster_id s).2 =
                log s ++ github_request getenv :: L))
  /\ (forall name,
       B.get_workspace_config getenv name =
         if (upper name =? "STAGING")%string
         then Some (B.Config (getenv "STAGING_WORKSPACE_URL")
                             (getenv "STAGING_ACCESS_TOKEN"))
         else if (upper name =? "PREPROD")%string
         then Some (B.Config (getenv "PREPROD_WORKSPACE_URL")
                             (getenv "PREPROD_ACCESS_TOKEN"))
         else None)
  /\ (forall name,
       G.get_workspace_config getenv name =
         if (upper name =? "AWS")%string
         then Some (G.Config (getenv "AWS_WORKSPACE_URL")
                             (getenv "AWS_ACCESS_TOKEN"))
         else if (upper name =? "AZURE")%string
         then Some (G.Config (getenv "AZURE_WORKSPACE_URL")
                             (getenv "AZURE_ACCESS_TOKEN"))
         else if (upper name =? "GCP")%string
         then Some (G.Config (getenv "GCP_WORKSPACE_URL")
                             (getenv "GCP_ACCESS_TOKEN"))
         else None).
Proof.
  split; [|split; [|split]].
  - intros src tgt s. split.
    + unfold B.transfer_users_and_notebooks.
      intros [-> | ->]; [done|]. by destruct (B.get_workspace_config getenv src).
    + intros sc tc Hs Ht. unfold B.transfer_users_and_notebooks.
      rewrite Hs, Ht, bind_run, get_users_run.
      destruct (users_outcome _) as [users|e]; [|by exists []].
      edestruct (transfer_rest_any sc tc users) as (L & -> & _).
      exists L. cbn [log]. by rewrite <- app_assoc.
  - intros src tgt git_url cluster_id s. split.
    + unfold G.sync_notebooks_and_permissions.
      intros [-> | ->]; [done|]. by destruct (G.get_workspace_config getenv src).
    + intros sc tc Hs Ht. unfold G.sync_notebooks_and_permissions.
      rewrite Hs, Ht, bind_run, fetch_notebook_from_github_run.
      destruct (fetch_outcome _) as [content|e]; [|by exists []].
      edestruct (sync_rest_any sc tc cluster_id content) as (L & -> & _).
      exists L. cbn [log]. by rewrite <- app_assoc.
  - intros name. unfold B.get_workspace_config, B.WORKSPACE_CONFIG. cbn [dict_get].
    by repeat destruct (_ =? _)%string.
  - intros name. unfold G.get_workspace_config, G.WORKSPACE_CONFIG. cbn [dict_get].
    by repeat destruct (_ =? _)%string.
Qed.

End Policy.
End policy.

(** * The properties at concrete inputs *)

Module instances.
Module B := user_creation_adding_notebooks.
Module G := multicloud_git.
Import migration sync migration_properties sync_properties policy.

(** The flaky remote: /x is not exported, /b is exported and refused by
    the target, and the run still reaches /c and ends normally. *)
Example flaky_run :
  let sc := B.Config (Some "https://src") (Some "s") in
  let tc := B.Config (Some "https://tgt") (Some "t") in
  B.transfer_users_and_notebooks flaky_serve scenario_env 50
    "STAGING" "PREPROD" (State tt []) =
  (Ret tt,
   State tt [users_request sc; list_request sc "/";
             export_request sc "/a";
             migration.import_request tc "/a" "cHJpbnQoMSk=";
             export_request sc "/x";
             export_request sc "/b";
             migration.import_request tc "/b" "cHJpbnQoMSk=";
             export_request sc "/c";
             migration.import_request tc "/c" "cHJpbnQoMSk="]).
Proof. vm_compute. reflexivity. Qed.

(** C5 on the flaky remote: /x is skipped and the loop goes on with /b
    and /c; the whole run ends normally. *)
Lemma skip_on_export_failure_witness :
  let sc := B.Config (Some "https://src") (Some "s") in
  let tc := B.Config (Some "https://tgt") (Some "t") in
  let s1 := (discover flaky_serve 50 sc tc (State tt [])).2 in
  (for_each (["/a"] ++ "/x" :: ["/b"; "/c"])
     (B.transfer_notebook flaky_serve sc tc) (State tt []) =
   for_each ["/b"; "/c"] (B.transfer_notebook flaky_serve sc tc)
     (State tt ([export_request sc "/a";
                 migration.import_request tc "/a" "cHJpbnQoMSk="]
                ++ [export_request sc "/x"])))
  /\ exists w1 L w',
       B.transfer_users_and_notebooks flaky_serve scenario_env 50
           "STAGING" "PREPROD" (State tt []) =
         (Ret tt, State w' (log s1 ++ map (mkdirs_request tc) (sorted ∅) ++ L))
       /\ notebooks_trace flaky_serve sc tc w1 ["/a"; "/x"; "/b"; "/c"] L w'
       /\ Forall (fun p => export_request sc p ∈ L) ["/a"; "/x"; "/b"; "/c"].
Proof.
  intros sc tc s1.
  destruct (skip_on_export_failure flaky_serve scenario_env 50 sc tc)
    as [Hlocal Hrun].
  split.
  - apply (proj1 (Hlocal ["/a"] "/x" ["/b"; "/c"] (State tt [])
                    (State tt [export_request sc "/a";
                               migration.import_request tc "/a" "cHJpbnQoMSk="])
                    eq_refl) None); reflexivity.
  - apply (Hrun "STAGING" "PREPROD" (State tt []) s1
             ["/a"; "/x"; "/b"; "/c"] ∅).
    + reflexivity.
    + reflexivity.
    + vm_compute. reflexivity.
    + intros w p Hp.
      repeat (apply elem_of_cons in Hp as [->|Hp];
              [eexists; vm_compute; reflexivity|]).
      by apply elem_of_nil in Hp.
Defined.

(** C6 on the scenario: the one user of the source is created on the
    target without its id. *)
Lemma user_records_lose_their_id_witness :
  let sc := B.Config (Some "https://src") (Some "s") in
  let tc := B.Config (Some "https://tgt") (Some "t") in
  let ada := JObj [("id", JStr "42"); ("userName", JStr "ada@example.com");
                   ("active", JBool true)] in
  exists ds rest L,
    [ada] = map JObj ds ++ rest
    /\ log (B.transfer_users_and_notebooks scenario_serve scenario_env 50
              "STAGING" "PREPROD" (State tt [])).2 =
         [] ++ users_request sc
           :: map (fun d => create_user_request tc (strip_id d)) ds ++ L
    /\ Forall (fun req => forall user, req <> create_user_request tc user) L
    /\ ((B.transfer_users_and_notebooks scenario_serve scenario_env 50
           "STAGING" "PREPROD" (State tt [])).1 = Ret tt -> rest = [])
    /\ (forall d : list (string * json),
          strip_id d = JObj (dict_pop "id" d)
          /\ dict_get "id" (dict_pop "id" d) = None
          /\ forall k, k <> "id" -> dict_get k (dict_pop "id" d) = dict_get k d).
Proof.
  intros sc tc ada.
  apply (user_records_lose_their_id scenario_serve scenario_env 50
           "STAGING" "PREPROD" sc tc (State tt []) (JArr [ada]) [ada]);
    reflexivity.
Defined.

(** C10 on the remote that answers with the empty object. *)
Lemma empty_content_is_skipped_witness :
  let sc := B.Config (Some "https://src") (Some "s") in
  let tc := B.Config (Some "https://tgt") (Some "t") in
  B.export_notebook blank_serve (Some "https://src") (Some "s") "/empty"
      (State tt []) =
    (Ret (Some []), State tt ([] ++ [export_request sc "/empty"]))
  /\ B.export_failed (Some []) = true
  /\ B.transfer_notebook blank_serve sc tc "/empty" (State tt []) =
       (Ret tt, State tt ([] ++ [export_request sc "/empty"])).
Proof.
  intros sc tc.
  apply (empty_content_is_skipped blank_serve sc tc "/empty" (State tt [])
           tt 200%Z []).
  - reflexivity.
  - reflexivity.
  - left. reflexivity.
Defined.

(** C7 on the scenario: the content field decodes to [print(1)]. *)
Lemma export_notebook_result_witness :
  let c := B.Config (Some "https://src") (Some "s") in
  let resp := scenario_answer (export_request c "/n1") in
  B.export_notebook scenario_serve (B.cfg_url c) (B.cfg_token c) "/n1"
      (State tt []) =
    (export_outcome resp, State tt ([] ++ [export_request c "/n1"]))
  /\ export_outcome resp = Ret (Some [112; 114; 105; 110; 116; 40; 49; 41]%Z).
Proof.
  intros c resp.
  destruct (export_notebook_result scenario_serve c "/n1" (State tt []) tt
              resp eq_refl)
    as (Hrun & _ & Hdecoded & _).
  split; [exact Hrun|].
  apply (Hdecoded 200%Z [("content", JStr "cHJpbnQoMSk=")] "cHJpbnQoMSk="
           [112; 114; 105; 110; 116; 40; 49; 41]%Z); reflexivity.
Defined.

(** C8 on a text with one, two, three and four byte characters. *)
Lemma import_export_roundtrip_witness :
  let c := B.Config (Some "https://ws") (Some "t") in
  (bind (B.import_notebook store_serve (Some "https://ws") (Some "t") "/n"
           [104; 233; 8364; 128512]%Z)
     (fun _ => B.export_notebook store_serve (Some "https://ws") (Some "t") "/n")
     (State ∅ [])).1 = Ret (Some [104; 233; 8364; 128512]%Z).
Proof.
  intros c.
  apply (proj1 (import_export_roundtrip c "/n") ∅ []
           [104; 233; 8364; 128512]%Z).
  repeat constructor; unfold scalar; lia.
Defined.


(** C9 with a cluster id: the body of the PATCH has the two entries. *)
Lemma grant_request_entries_witness :
  let aws := G.Config (Some "https://aws") (Some "a") in
  let somin := JStr "somin.sangwan@digivatelabs.com" in
  log (G.grant_permissions bootstrap_serve bootstrap_format
         (Some "https://aws") (Some "a") "/n" somin (JStr "CAN_RUN")
         (Some "c-1") (State tt [])).2 =
    [] ++ [status_request aws "/n";
           Request PATCH "https://aws/api/2.0/permissions/notebooks/7"
             (G.get_headers (Some "a")) []
             (Some (JObj [("access_control_list", JArr [
                JObj [("user_name", somin); ("permission_level", JStr "CAN_RUN")];
                JObj [("user_name", somin);
                      ("permission_level", JStr "CAN_ATTACH_TO");
                      ("cluster_id", JStr "c-1")]])]))].
Proof.
  intros aws somin.
  apply (proj2 (grant_request_entries bootstrap_serve bootstrap_format aws "/n"
                  somin (JStr "CAN_RUN") (Some "c-1") (State tt []))
           tt 200%Z
           [("object_id", JNum 7); ("object_type", JStr "NOTEBOOK")]
           "https://aws/api/2.0/permissions/notebooks/7").
  - reflexivity.
  - reflexivity.
  - discriminate.
  - reflexivity.
Defined.

(** C3 without a connection: the sentinels. *)
Lemma request_failures_become_sentinels_witness :
  let s := State tt [] in
  (B.get_users offline (Some "https://src") (Some "s") s).1 = Ret (JArr [])
  /\ (B.export_notebook offline (Some "https://src") (Some "s") "/n" s).1
       = Ret None
  /\ (B.create_user offline (Some "https://src") (Some "s")
        (JObj [("userName", JStr "ada@example.com")]) s).1 = Ret false
  /\ (G.import_notebook offline (Some "https://aws") (Some "a") [104]%Z
        G.notebook_name G.workspace_dir s).1 = Ret None.
Proof.
  intros s.
  destruct (request_failures_become_sentinels offline bootstrap_env
              bootstrap_format) as (_ & Hbulk & Hsync).
  destruct (Hbulk s (B.Config (Some "https://src") (Some "s")) "/n")
    as (Husers & _ & Hexport & Hcreate & _).
  destruct (Hsync s (G.Config (Some "https://aws") (Some "a")) "/n")
    as (_ & Himport & _).
  split; [exact (Husers I)|]. split; [exact (Hexport I)|].
  split; [exact (Hcreate [("userName", JStr "ada@example.com")]
                   (JStr "ada@example.com") eq_refl I)|].
  exact (Himport [104]%Z [104]%Z eq_refl I).
Defined.

(** C4: an unknown target stops the run before any request; two known
    names, in any case, let it reach the users of the source. *)
Lemma configuration_resolution_witness :
  B.transfer_users_and_notebooks offline scenario_env 50 "STAGING" "PROD"
    (State tt []) = (Ret tt, State tt [])
  /\ exists L,
       log (B.transfer_users_and_notebooks offline scenario_env 50
              "staging" "preprod" (State tt [])).2 =
         [] ++ users_request (B.Config (Some "https://src") (Some "s")) :: L.
Proof.
  destruct (configuration_resolution offline scenario_env bootstrap_format 50)
    as (Htransfer & _).
  split.
  - apply (proj1 (Htransfer "STAGING" "PROD" (State tt []))).
    right. reflexivity.
  - apply (proj2 (Htransfer "staging" "preprod" (State tt []))
             (B.Config (Some "https://src") (Some "s"))
             (B.Config (Some "https://tgt") (Some "t"))); reflexivity.
Defined.

(** *** Where the specification and the code part *)

(** Against C3: a content field that is no base64 makes [export_notebook]
    raise [binascii.Error], and a user record without a userName makes
    [create_user] raise [KeyError], also when the request itself failed. *)
Lemma malformed_response_raises :
  (B.export_notebook malformed_serve (Some "https://src") (Some "s") "/n"
     (State tt [])).1 = Raise BinasciiError
  /\ (B.create_user blank_serve (Some "https://tgt") (Some "t")
        (JObj [("active", JBool true)]) (State tt [])).1 = Raise KeyError
  /\ (B.create_user offline (Some "https://tgt") (Some "t")
        (JObj [("active", JBool true)]) (State tt [])).1 = Raise KeyError.
Proof. repeat split; reflexivity. Qed.

(** Against C4: with both names in the table and no token in the
    environment the run does not stop: it sends its requests, with the
    token printed as None. *)
Lemma known_name_without_token_proceeds :
  B.get_workspace_config tokenless_env "STAGING" =
    Some (B.Config (Some "https://src") None)
  /\ B.get_workspace_config tokenless_env "PREPROD" =
       Some (B.Config (Some "https://tgt") None)
  /\ log (B.transfer_users_and_notebooks offline tokenless_env 50
            "STAGING" "PREPROD" (State tt [])).2 =
       [Request GET "https://src/api/2.0/preview/scim/v2/Users"
          [("Authorization", "Bearer None");
           ("Content-Type", "application/json")] [] None;
        Request GET "https://src/api/2.0/workspace/list"
          [("Authorization", "Bearer None");
           ("Content-Type", "application/json")] [("path", "/")] None].
Proof. repeat split; reflexivity. Qed.

(** Against C7: for a response without a content field [export_notebook]
    returns the empty text, which is not [None]. *)
Lemma missing_content_is_not_null :
  dict_get "content" ([] : list (string * json)) = None
  /\ (B.export_notebook blank_serve (Some "https://src") (Some "s") "/n"
        (State tt [])).1 = Ret (Some [])
  /\ (B.export_notebook blank_serve (Some "https://src") (Some "s") "/n"
        (State tt [])).1 <> Ret None.
Proof. repeat split; try reflexivity. discriminate. Qed.

End instances.
(** * More of the bulk migration *)

Module migration_coverage.
Import user_creation_adding_notebooks migration migration_facts workspace_tree
  migration_steps.

(** An outcome that is no [RequestException] leaves the [try] as it is. *)
Lemma try_except_pass {W A} (m h : M W A) s r s' :
  m s = (r, s') ->
  (forall e, r = Raise e -> is_RequestException e = false) ->
  try_except m h s = (r, s').
Proof.
  intros H Hr. unfold try_except. rewrite H. destruct r as [a|e]; [done|].
  by rewrite (Hr e eq_refl).
Qed.

Section Coverage.
Context {W : Type}.
Variable serve : W -> request -> W * response.
Variable getenv : string -> option string.
Variable recursion_limit : nat.

(** *** The walk of the source *)

Lemma list_notebooks_at_listed c depth path es (s : state W) :
  lists (serve (remote s) (list_request c path)).2 es ->
  exists objs,
    Forall2 describes objs es
    /\ forall r s',
        list_objects (list_notebooks_at serve depth (cfg_url c) (cfg_token c))
          objs [] ∅
          (State (serve (remote s) (list_request c path)).1
                 (log s ++ [list_request c path])) = (r, s') ->
        (forall e, r = Raise e -> is_RequestException e = false) ->
        list_notebooks_at serve (S depth) (cfg_url c) (cfg_token c) path s
          = (r, s').
Proof.
  intros (status & top & objs & Hresp & Hok & Hobjs & Hdesc).
  exists objs. split; [done|]. intros r s' Hrun Hr.
  cbn [list_notebooks_at]. apply try_except_pass; [|exact Hr].
  unfold requests_get. fold (list_endpoint (cfg_url c)).
  fold (list_request c path).
  rewrite bind_run. unfold send at 1.
  destruct (serve (remote s) (list_request c path)) as [w1 resp].
  cbn [fst snd] in *. subst resp.
  rewrite bind_run. unfold raise_for_status at 1. cbn [fst]. rewrite Hok.
  unfold ret at 1.
  rewrite bind_run. unfold response_json at 1. cbn [snd]. unfold ret at 1.
  rewrite bind_run. unfold lift at 1. cbn [py_get].
  rewrite bind_run. unfold lift at 1.
  destruct Hobjs as [-> | [-> ->]]; cbn [py_iter]; exact Hrun.
Qed.

Lemma list_notebooks_at_failing c depth path (s : state W) :
  failing (serve (remote s) (list_request c path)).2 ->
  list_notebooks_at serve (S depth) (cfg_url c) (cfg_token c) path s =
    (Ret ([], ∅),
     State (serve (remote s) (list_request c path)).1
           (log s ++ [list_request c path])).
Proof.
  intros Hfail. cbn [list_notebooks_at].
  unfold requests_get. fold (list_endpoint (cfg_url c)).
  fold (list_request c path).
  unfold try_except. rewrite bind_run. unfold send at 1.
  destruct (serve (remote s) (list_request c path)) as [w1 [|status content]];
    cbn [fst snd] in *; [reflexivity|].
  rewrite bind_run. unfold raise_for_status at 1. cbn [fst].
  destruct (status_ok status) eqn:Hok; [|reflexivity].
  destruct Hfail as [Hfail| ->]; [congruence|]. unfold ret at 1.
  rewrite bind_run. unfold response_json at 1. reflexivity.
Qed.

Section Walk.
Variable c : config.
Variable answer : string -> response.
Hypothesis answers : forall w p, (serve w (list_request c p)).2 = answer p.

Lemma walk_at depth : forall path es (s : state W),
  lists (answer path) es ->
  Forall (shown answer) es ->
  max_list (map height es) < depth ->
  exists w',
    list_notebooks_at serve depth (cfg_url c) (cfg_token c) path s =
      (Ret (flat_map notebooks_of es,
            list_to_set (flat_map directories_of es)),
       State w' (log s ++ map (list_request c)
                            (path :: flat_map directories_of es))).
Proof.
  induction depth as [|depth IH]; intros path es s Hlists Hshown Hdepth;
    [lia|].
  rewrite <- (answers (remote s)) in Hlists.
  destruct (list_notebooks_at_listed c depth path es s Hlists)
    as (objs & Hdesc & Hrun).
  assert (Hloop : forall nbs (dirs : gset string) (s0 : state W),
    exists w',
      list_objects (list_notebooks_at serve depth (cfg_url c) (cfg_token c))
        objs nbs dirs s0 =
        (Ret (nbs ++ flat_map notebooks_of es,
              dirs ∪ list_to_set (flat_map directories_of es)),
         State w' (log s0 ++ map (list_request c)
                               (flat_map directories_of es)))).
  { clear Hrun Hlists.
    induction Hdesc as [|obj e objs es (d & -> & Hty & Hpath) Hdesc IHes];
      intros nbs dirs s0.
    - exists (remote s0). cbn [list_objects flat_map map]. unfold ret.
      rewrite !app_nil_r, list_to_set_nil, (right_id_L ∅ (∪)).
      by destruct s0.
    - apply Forall_cons in Hshown as [He Hes].
      change (max_list (map height (e :: es)))
        with (height e `max` max_list (map height es)) in Hdepth.
      assert (Hrest : max_list (map height es) < S depth) by lia.
      assert (Hhe : height e <= depth) by lia.
      specialize (IHes Hes Hrest).
      cbn [list_objects flat_map].
      rewrite bind_run. unfold lift at 1. cbn [py_getitem]. rewrite Hty.
      unfold obj_path. cbn [py_getitem]. rewrite Hpath. cbn [rbind].
      destruct He as [p|p es' Hlists' Hes'|p Hfail|ty p Hn Hd];
        cbn [kind path_of notebooks_of directories_of height] in *.
      + cbn [py_eq_str]. rewrite String.eqb_refl.
        rewrite bind_run. unfold lift at 1.
        destruct (IHes (nbs ++ [p]) dirs s0) as [w' ->].
        exists w'. cbn [app]. rewrite <- app_assoc. cbn [app].
        do 2 f_equal.
      + cbn [py_eq_str].
        change ("DIRECTORY" =? "NOTEBOOK")%string with false.
        rewrite String.eqb_refl. cbn iota.
        rewrite bind_run. unfold lift at 1.
        rewrite bind_run.
        destruct depth as [|depth']; [lia|].
        destruct (IH p es' s0 Hlists' Hes') as [w1 ->]; [lia|].
        cbn [fst snd].
        edestruct IHes as [w' ->]. exists w'. cbn [log map app].
        rewrite <- !app_assoc, map_app. cbn [app].
        by rewrite list_to_set_cons, list_to_set_app_L, !(assoc_L (∪)).
      + cbn [py_eq_str].
        change ("DIRECTORY" =? "NOTEBOOK")%string with false.
        rewrite String.eqb_refl. cbn iota.
        rewrite bind_run. unfold lift at 1.
        rewrite bind_run.
        destruct depth as [|depth']; [lia|].
        rewrite <- (answers (remote s0)) in Hfail.
        rewrite (list_notebooks_at_failing c depth' p s0 Hfail).
        cbn [fst snd].
        edestruct IHes as [w' ->]. exists w'. cbn [log map app].
        rewrite app_nil_r, <- !app_assoc. cbn [app].
        by rewrite list_to_set_cons, (right_id_L ∅ (∪)), !(assoc_L (∪)).
      + cbn [py_eq_str].
        destruct (String.eqb_spec ty "NOTEBOOK") as [|_]; [done|].
        destruct (String.eqb_spec ty "DIRECTORY") as [|_]; [done|].
        cbn [app]. apply IHes. }
  destruct (Hloop [] ∅ (State (serve (remote s) (list_request c path)).1
                              (log s ++ [list_request c path]))) as [w' Hw'].
  exists w'. erewrite Hrun; [reflexivity| |intros e [=]]. rewrite Hw'.
  cbn [log map app].
  rewrite <- app_assoc. cbn [app]. by rewrite (left_id_L ∅ (∪)).
Qed.

(** X1.  [list_notebooks] on a source that answers the listing of each
    path as the tree [es] says: when the tree is less deep than the
    recursion limit, the call returns the notebooks of the tree in the
    order of the listings, depth first, and the set of its directories,
    those that could not be listed included; objects of other types are
    left out.  It sends one listing request for the root and one per
    directory, each directory before what it contains. *)
Theorem list_notebooks_walks_the_tree path es (s : state W) :
  lists (answer path) es ->
  Forall (shown answer) es ->
  max_list (map height es) < recursion_limit ->
  exists w',
    list_notebooks serve recursion_limit (cfg_url c) (cfg_token c) path s =
      (Ret (flat_map notebooks_of es,
            list_to_set (flat_map directories_of es)),
       State w' (log s ++ map (list_request c)
                            (path :: flat_map directories_of es))).
Proof. apply walk_at. Qed.

End Walk.

(** X2.  On a source whose every listing begins with a directory the
    recursion never ends by itself: [list_notebooks] raises
    [RecursionError], which no handler of the script catches, after one
    listing request per level of the recursion limit. *)
Theorem endless_nesting_raises c path (s : state W) :
  (forall w p, exists e es,
     lists (serve w (list_request c p)).2 (e :: es) /\ kind e = "DIRECTORY") ->
  exists w' ps,
    length ps = recursion_limit
    /\ list_notebooks serve recursion_limit (cfg_url c) (cfg_token c) path s =
         (Raise RecursionError, State w' (log s ++ map (list_request c) ps)).
Proof.
  intros Hnest. unfold list_notebooks. revert path s.
  induction recursion_limit as [|depth IH]; intros path s.
  - exists (remote s), []. split; [done|]. cbn. unfold raise.
    rewrite app_nil_r. by destruct s.
  - destruct (Hnest (remote s) path) as (e & es & Hlists & Hkind).
    destruct (list_notebooks_at_listed c depth path (e :: es) s Hlists)
      as (objs & Hdesc & Hrun).
    apply Forall2_cons_inv_r in Hdesc
      as (obj & objs' & (d & -> & Hty & Hpath) & _ & ->).
    rewrite Hkind in Hty.
    destruct (IH (path_of e)
                (State (serve (remote s) (list_request c path)).1
                       (log s ++ [list_request c path])))
      as (w' & ps & Hlen & Hdeep).
    exists w', (path :: ps). split; [cbn; lia|].
    apply Hrun; [|by intros e' [= <-]].
    cbn [list_objects]. rewrite bind_run. unfold lift at 1.
    cbn [py_getitem]. rewrite Hty. cbn [py_eq_str].
    change ("DIRECTORY" =? "NOTEBOOK")%string with false.
    rewrite String.eqb_refl. cbn iota.
    unfold obj_path. cbn [py_getitem]. rewrite Hpath. cbn [rbind].
    rewrite bind_run. unfold lift at 1. rewrite bind_run, Hdeep.
    cbn [log map]. by rewrite <- app_assoc.
Qed.

(** *** Which workspace the migration talks to *)

Lemma prefix_append a b c :
  String.prefix b c = true -> String.prefix (a +:+ b) (a +:+ c) = true.
Proof.
  intros H. induction a as [|x a IH]; [exact H|].
  change (String.prefix (String x (a +:+ b)) (String x (a +:+ c)) = true).
  cbn [String.prefix]. by destruct (Ascii.ascii_dec x x).
Qed.





(** *** The user loop *)

Lemma dict_get_pop_other {V} k k' (d : list (string * V)) :
  k' <> k -> dict_get k' (dict_pop k d) = dict_get k' d.
Proof.
  intros Hk. unfold dict_pop. induction d as [|[k0 v] d IH]; cbn; [done|].
  destruct (String.eqb_spec k k0) as [<-|Hk0]; cbn.
  - destruct (String.eqb_spec k' k); [done|]. exact IH.
  - destruct (String.eqb_spec k' k0); [done|]. exact IH.
Qed.

Lemma transfer_user_named tc d (s : state W) :
  named d ->
  transfer_user serve tc (JObj d) s =
    (Ret tt,
     State (serve (remote s) (create_user_request tc (strip_id d))).1
           (log s ++ [create_user_request tc (strip_id d)])).
Proof.
  intros (name & Hname & Hhash).
  assert (Hget : dict_get "userName" (dict_pop "id" d) = Some name).
  { by rewrite dict_get_pop_other. }
  unfold transfer_user. rewrite bind_run. unfold lift at 1. cbn [py_pop].
  rewrite bind_run, create_user_run. fold (strip_id d).
  unfold create_user_outcome, strip_id. cbn [py_getitem].
  rewrite Hget.
  destruct (accepted _); cbn [rmap rbind]; [|done].
  rewrite bind_run. unfold lift at 1. cbn [py_get].
  rewrite bind_run. unfold lift at 1. by rewrite Hhash.
Qed.

Lemma transfer_user_unnamed tc d (s : state W) :
  dict_get "userName" d = None ->
  transfer_user serve tc (JObj d) s =
    (Raise KeyError,
     State (serve (remote s) (create_user_request tc (strip_id d))).1
           (log s ++ [create_user_request tc (strip_id d)])).
Proof.
  intros Hname.
  assert (Hget : dict_get "userName" (dict_pop "id" d) = None).
  { by rewrite dict_get_pop_other. }
  unfold transfer_user. rewrite bind_run. unfold lift at 1. cbn [py_pop].
  rewrite bind_run, create_user_run. fold (strip_id d).
  unfold create_user_outcome, strip_id. cbn [py_getitem]. rewrite Hget.
  by destruct (accepted _).
Qed.

Lemma named_users_run tc ds : forall s : state W,
  Forall named ds ->
  exists w',
    for_each (map JObj ds) (transfer_user serve tc) s =
      (Ret tt,
       State w' (log s ++ map (fun d => create_user_request tc (strip_id d)) ds)).
Proof.
  induction ds as [|d ds IH]; intros s Hds; cbn [for_each map].
  - exists (remote s). unfold ret. rewrite app_nil_r. by destruct s.
  - apply Forall_cons in Hds as [Hd Hds].
    rewrite bind_run, (transfer_user_named tc d s Hd).
    destruct (IH (State (serve (remote s) (create_user_request tc (strip_id d))).1
                        (log s ++ [create_user_request tc (strip_id d)])) Hds)
      as [w' ->].
    exists w'. cbn [log]. by rewrite <- app_assoc.
Qed.

Lemma transfer_users_first source_workspace target_workspace sc tc
    (s : state W) users us :
  get_workspace_config getenv source_workspace = Some sc ->
  get_workspace_config getenv target_workspace = Some tc ->
  users_outcome (serve (remote s) (users_request sc)).2 = Ret users ->
  py_iter users = Ret us ->
  transfer_users_and_notebooks serve getenv recursion_limit
      source_workspace target_workspace s =
    bind (for_each us (transfer_user serve tc)) (fun _ => after_users serve recursion_limit sc tc)
      (State (serve (remote s) (users_request sc)).1
             (log s ++ [users_request sc])).
Proof.
  intros Hs Ht Husers Hus. unfold transfer_users_and_notebooks.
  rewrite Hs, Ht. rewrite bind_run, get_users_run, Husers.
  rewrite bind_run. unfold lift at 1. by rewrite Hus.
Qed.

(** X4.  When every fetched record has a userName, the user loop sends
    one creation per record, in order and without the id, whatever the
    target answers: a refused creation (a user that already exists) does
    not stop the loop, and the run goes on with the listing of the
    source. *)
Theorem every_named_user_is_attempted
  source_workspace target_workspace sc tc (s : state W) users ds :
  get_workspace_config getenv source_workspace = Some sc ->
  get_workspace_config getenv target_workspace = Some tc ->
  users_outcome (serve (remote s) (users_request sc)).2 = Ret users ->
  py_iter users = Ret (map JObj ds) ->
  Forall (fun d => exists name,
            dict_get "userName" d = Some name /\ py_hashable name = true) ds ->
  exists w',
    transfer_users_and_notebooks serve getenv recursion_limit
        source_workspace target_workspace s =
      bind (list_notebooks serve recursion_limit (cfg_url sc) (cfg_token sc) "/")
        (fun found =>
           for_each (sorted found.2)
             (create_directory serve (cfg_url tc) (cfg_token tc)) ;;;
           for_each found.1 (transfer_notebook serve sc tc))
        (State w'
           (log s ++ users_request sc
              :: map (fun d => create_user_request tc (strip_id d)) ds)).
Proof.
  intros Hs Ht Husers Hus Hds.
  rewrite (transfer_users_first _ _ sc tc s users _ Hs Ht Husers Hus).
  rewrite bind_run.
  edestruct (named_users_run tc ds) as [w' ->]; [exact Hds|].
  exists w'. cbn [log]. by rewrite <- app_assoc.
Qed.

(** X5.  A fetched record without a userName ends the whole run: its
    creation request is sent, then [create_user] raises [KeyError] on
    the log line, in the [try] and in the handler alike, and nothing
    catches it.  The records after it are not created, and no directory
    or notebook is migrated. *)
Theorem user_without_name_aborts_run
  source_workspace target_workspace sc tc (s : state W) users ds d rest :
  get_workspace_config getenv source_workspace = Some sc ->
  get_workspace_config getenv target_workspace = Some tc ->
  users_outcome (serve (remote s) (users_request sc)).2 = Ret users ->
  py_iter users = Ret (map JObj ds ++ JObj d :: rest) ->
  Forall (fun d => exists name,
            dict_get "userName" d = Some name /\ py_hashable name = true) ds ->
  dict_get "userName" d = None ->
  exists w',
    transfer_users_and_notebooks serve getenv recursion_limit
        source_workspace target_workspace s =
      (Raise KeyError,
       State w'
         (log s ++ users_request sc
            :: map (fun d => create_user_request tc (strip_id d)) ds
            ++ [create_user_request tc (strip_id d)])).
Proof.
  intros Hs Ht Husers Hus Hds Hd.
  rewrite (transfer_users_first _ _ sc tc s users _ Hs Ht Husers Hus).
  rewrite bind_run, for_each_app, bind_run.
  edestruct (named_users_run tc ds) as [w1 ->]; [exact Hds|].
  cbn [for_each]. rewrite bind_run, (transfer_user_unnamed tc d _ Hd).
  eexists. cbn [log remote]. by rewrite <- !app_assoc.
Qed.

Lemma users_outcome_failing resp : failing resp -> users_outcome resp = Ret (JArr []).
Proof.
  unfold users_outcome. destruct resp as [|status [|j]]; cbn; [done|..].
  - intros [->|_]; [done|]. by destruct (status_ok status).
  - intros [->|[=]]. done.
Qed.

(** X6.  A source that cannot be reached is no error of the run: when
    the fetch of the users and the listing of the root both fail, the
    migration ends normally after these two requests, and the target
    receives nothing. *)
Theorem unreachable_source_ends_quietly
  source_workspace target_workspace sc tc (s : state W) :
  get_workspace_config getenv source_workspace = Some sc ->
  get_workspace_config getenv target_workspace = Some tc ->
  0 < recursion_limit ->
  failing (serve (remote s) (users_request sc)).2 ->
  failing (serve (serve (remote s) (users_request sc)).1
                 (list_request sc "/")).2 ->
  transfer_users_and_notebooks serve getenv recursion_limit
      source_workspace target_workspace s =
    (Ret tt,
     State (serve (serve (remote s) (users_request sc)).1
                  (list_request sc "/")).1
           (log s ++ [users_request sc; list_request sc "/"])).
Proof.
  intros Hs Ht Hlimit Husers Hlist.
  rewrite (transfer_users_first _ _ sc tc s (JArr []) [] Hs Ht);
    [|by apply users_outcome_failing|done].
  cbn [for_each]. rewrite bind_run. unfold ret at 1. unfold after_users.
  rewrite bind_run. unfold list_notebooks.
  destruct recursion_limit as [|depth]; [lia|].
  rewrite list_notebooks_at_failing by exact Hlist.
  cbn [fst snd remote log]. unfold sorted. rewrite elements_empty.
  cbn. unfold ret. by rewrite <- app_assoc.
Qed.

(** *** The notebook loop *)

(** X7.  A notebook whose export cannot be decoded ends the notebook
    loop: when the exports before it returned and its own export raises
    (a body that is no object, a content that is no base64 or no UTF-8),
    the loop raises the same exception after that export request, and the
    notebooks after it are neither exported nor imported. *)
Theorem undecodable_export_aborts_loop sc tc earlier p later
    (s s1 : state W) e :
  for_each earlier (transfer_notebook serve sc tc) s = (Ret tt, s1) ->
  export_outcome (serve (remote s1) (export_request sc p)).2 = Raise e ->
  for_each (earlier ++ p :: later) (transfer_notebook serve sc tc) s =
    (Raise e,
     State (serve (remote s1) (export_request sc p)).1
           (log s1 ++ [export_request sc p])).
Proof.
  intros Hearlier He.
  rewrite for_each_app, bind_run, Hearlier. cbn [for_each].
  by rewrite bind_run, (transfer_notebook_raise serve sc tc p s1 e He).
Qed.

(** X8.  The bytes of a migrated notebook are the bytes the source
    exported.  When the export answers with a content field that decodes
    from base64 to the bytes [raw], and [raw] is UTF-8 and not empty, the
    notebook is imported to the same path on the target with a content
    field that decodes from base64 to [raw]. *)
Theorem migrated_bytes_are_exported_bytes sc tc p (s : state W)
    status d encoded raw content :
  (serve (remote s) (export_request sc p)).2 =
    Response status (Json (JObj d)) ->
  status_ok status = true ->
  dict_get "content" d = Some (JStr encoded) ->
  b64decode_str encoded = Ret raw ->
  utf8_decode raw = Ret content ->
  raw <> [] ->
  exists w' sent,
    transfer_notebook serve sc tc p s =
      (Ret tt,
       State w' (log s ++ [export_request sc p; import_request tc p sent]))
    /\ b64decode_str sent = Ret raw.
Proof.
  intros Hresp Hok Hd Hraw Hcontent Hne.
  assert (Hout : export_outcome (serve (remote s) (export_request sc p)).2
                 = Ret (Some content)).
  { rewrite Hresp. by eapply export_outcome_decoded. }
  assert (Henc : utf8_encode content = Ret raw).
  { by apply codec_coverage.utf8_decode_encode. }
  assert (Hcne : content <> []).
  { intros ->. cbn in Henc. injection Henc as <-. done. }
  eexists _, (b64encode raw). split.
  - by apply (transfer_notebook_import serve sc tc p s content raw).
  - unfold b64decode_str. rewrite b64encode_ascii.
    + apply a2b_b64encode. by apply (b64decode_bytes (JStr encoded)).
    + by apply (b64decode_bytes (JStr encoded)).
Qed.

(** X9.  [import_notebook] sends one POST to the import endpoint whose
    body names the path, the format SOURCE, the language PYTHON whatever
    the notebook holds, overwriting on, and a content field that decodes,
    from base64 and then from UTF-8, to the text it was given.  It
    returns [True] when the answer has no error status and [False]
    otherwise. *)
Theorem import_request_carries_the_text c p content (s : state W) :
  Forall scalar content ->
  exists sent raw,
    let req := import_request c p sent in
    req = Request POST (fmt (cfg_url c) +:+ "/api/2.0/workspace/import")
            [("Authorization", "Bearer " +:+ fmt (cfg_token c));
             ("Content-Type", "application/json")] []
            (Some (JObj [("path", JStr p); ("format", JStr "SOURCE");
                         ("content", JStr sent); ("overwrite", JBool true);
                         ("language", JStr "PYTHON")]))
    /\ import_notebook serve (cfg_url c) (cfg_token c) p content s =
         (Ret (match (serve (remote s) req).2 with
               | Response status _ => status_ok status
               | ConnectionFailed => false
               end),
          State (serve (remote s) req).1 (log s ++ [req]))
    /\ b64decode_str sent = Ret raw
    /\ utf8_decode raw = Ret content.
Proof.
  intros Hscalar.
  destruct (utf8_roundtrip content Hscalar) as (raw & Henc & Hbytes & Hdec).
  exists (b64encode raw), raw. cbv zeta. split; [reflexivity|]. split.
  - rewrite (import_notebook_run serve c p content raw s Henc).
    unfold import_outcome, accepted.
    destruct (serve _ _) as [w1 [|status payload_]]; cbn [fst snd]; [done|].
    by destruct (status_ok status).
  - split; [|exact Hdec]. unfold b64decode_str.
    rewrite b64encode_ascii by exact Hbytes. by apply a2b_b64encode.
Qed.

(** X10.  The text is encoded before the [try] of [import_notebook]: a
    text that holds a surrogate code point, which UTF-8 cannot encode,
    makes the call raise [UnicodeEncodeError] instead of returning
    [False], and no request is sent. *)
Theorem unencodable_text_raises_unsent c p content (s : state W) :
  Exists (fun cp => (55296 <= cp <= 57343)%Z) content ->
  import_notebook serve (cfg_url c) (cfg_token c) p content s =
    (Raise UnicodeEncodeError, s).
Proof.
  intros Hsur. apply import_notebook_unencodable.
  induction content as [|cp content IH]; [by apply Exists_nil in Hsur|].
  cbn [utf8_encode].
  destruct (utf8_encode_cp cp) as [bs|e] eqn:Hcp; cbn [rbind rmap].
  - apply Exists_cons in Hsur as [Hsur|Hsur].
    + exfalso. unfold utf8_encode_cp in Hcp.
      repeat match type of Hcp with
      | (if ?b then _ else _) = _ => destruct b eqn:?
      end; try discriminate; lia.
    + by rewrite (IH Hsur).
  - by rewrite (utf8_encode_cp_builtin _ _ Hcp).
Qed.

(** *** A whole migration *)

(** X11.  A migration that meets no failure on the source.  When every
    fetched user record has a userName, the source answers the listings
    as the tree [es] says, and every notebook of the tree exports as a
    content field that decodes to UTF-8 bytes, not empty, the run ends
    normally and has sent, in this order: the fetch of the users; one
    creation per user; the listings, depth first; one creation per
    directory of the tree, in increasing order of the paths; and for each
    notebook, in the order of the listings, its export followed by its
    import to the same path with the exported bytes.  What the target
    answers makes no difference. *)
Theorem migration_of_a_tree
  source_workspace target_workspace sc tc (s : state W) users ds
  answer es (exported : string -> list Z) :
  get_workspace_config getenv source_workspace = Some sc ->
  get_workspace_config getenv target_workspace = Some tc ->
  users_outcome (serve (remote s) (users_request sc)).2 = Ret users ->
  py_iter users = Ret (map JObj ds) ->
  Forall (fun d => exists name,
            dict_get "userName" d = Some name /\ py_hashable name = true) ds ->
  (forall w p, (serve w (list_request sc p)).2 = answer p) ->
  lists (answer "/") es ->
  Forall (shown answer) es ->
  max_list (map height es) < recursion_limit ->
  (forall w p, p ∈ flat_map notebooks_of es ->
     exists status d encoded content,
       (serve w (export_request sc p)).2 = Response status (Json (JObj d))
       /\ status_ok status = true
       /\ dict_get "content" d = Some (JStr encoded)
       /\ b64decode_str encoded = Ret (exported p)
       /\ utf8_decode (exported p) = Ret content
       /\ exported p <> []) ->
  exists w',
    transfer_users_and_notebooks serve getenv recursion_limit
        source_workspace target_workspace s =
      (Ret tt,
       State w'
         (log s ++ users_request sc
            :: map (fun d => create_user_request tc (strip_id d)) ds
            ++ map (list_request sc) ("/" :: flat_map directories_of es)
            ++ map (mkdirs_request tc)
                 (sorted (list_to_set (flat_map directories_of es)))
            ++ flat_map (fun p => [export_request sc p;
                                   import_request tc p
                                     (b64encode (exported p))])
                 (flat_map notebooks_of es))).
Proof.
  intros Hs Ht Husers Hus Hds Hanswers Hlists Hshown Hdepth Hexp.
  rewrite (transfer_users_first _ _ sc tc s users _ Hs Ht Husers Hus).
  rewrite bind_run.
  edestruct (named_users_run tc ds) as [w1 ->]; [exact Hds|].
  unfold after_users. rewrite bind_run. unfold list_notebooks.
  edestruct (walk_at sc answer Hanswers recursion_limit "/" es)
    as [w2 ->]; [done..|].
  cbn [fst snd]. rewrite bind_run.
  edestruct (create_directories_run serve tc) as [w3 ->].
  edestruct (exported_notebooks_run serve sc tc exported) as [w4 ->]; [exact Hexp|].
  exists w4. cbn [log]. rewrite <- !app_assoc. by cbn [app].
Qed.

End Coverage.
End migration_coverage.
(** * More of the synchronisation *)

Module sync_coverage.
Import multicloud_git sync sync_facts sync_steps.

Lemma import_outcome_refused path resp :
  refused resp -> import_outcome path resp = None.
Proof.
  unfold import_outcome. destruct resp as [|status content]; cbn; [done|].
  by intros ->.
Qed.

Lemma import_outcome_accepted path resp :
  ~ refused resp -> import_outcome path resp = Some path.
Proof.
  unfold import_outcome. destruct resp as [|status content]; cbn; [done|].
  by destruct (status_ok status).
Qed.

Lemma fetch_outcome_nothing resp :
  failing resp
  \/ (exists status d,
        resp = Response status (Json (JObj d)) /\ status_ok status = true
        /\ truthy (default JNull (dict_get "content" d)) = false) ->
  fetch_outcome resp = Ret None.
Proof.
  unfold fetch_outcome. intros [Hfail|(status & d & -> & Hok & Hfalsy)].
  - revert Hfail. destruct resp as [|status [|j]]; cbn; [done|..].
    + intros [->|_]; [done|]. by destruct (status_ok status).
    + intros [->|[=]]. done.
  - cbn. rewrite Hok. cbn.
    destruct (dict_get "content" d) as [v|]; [|done].
    change (truthy v = false) in Hfalsy. cbn. by rewrite Hfalsy.
Qed.

Lemma fetch_outcome_decoded status d encoded raw content :
  status_ok status = true ->
  dict_get "content" d = Some (JStr encoded) ->
  b64decode_str encoded = Ret raw -> utf8_decode raw = Ret content ->
  raw <> [] ->
  fetch_outcome (Response status (Json (JObj d))) = Ret (Some content).
Proof.
  intros Hok Hd Hraw Hcontent Hne.
  unfold fetch_outcome. cbn. rewrite Hok. cbn. rewrite Hd. cbn.
  destruct (String.eqb_spec encoded "") as [->|_].
  - cbn in Hraw. by injection Hraw as <-.
  - cbn. rewrite Hraw. cbn. by rewrite Hcontent.
Qed.


(** *** The dictionary of permissions *)

Lemma perm_set_items user level d :
  perm_set (JStr user) (JStr level) (acl.items d) =
    acl.items (dict_set user level d).
Proof.
  induction d as [|[k v] d IH]; [done|].
  cbn [acl.items map perm_set dict_set key_eqb fst snd].
  destruct (String.eqb_spec user k) as [->|_]; [done|].
  cbn [map fst snd]. f_equal. exact IH.
Qed.

(** The loop of [get_permissions] assigns the entries that name a user
    and a level, in order. *)
Lemma permissions_of_items permissions_list rs :
  Forall2 acl.says permissions_list rs ->
  forall d,
    permissions_of permissions_list (acl.items d) =
      Ret (acl.items
             (foldl (fun d item => dict_set item.1 item.2 d) d (omap id rs))).
Proof.
  induction 1 as [|entry r permissions_list rs (d0 & -> & Hr) _ IH];
    intros d; [done|].
  cbn [permissions_of py_get rbind].
  destruct r as [[user0 level0]|].
  - destruct Hr as (Hu & Hl & Hune & Hlne). rewrite Hu, Hl.
    cbn [truthy py_hashable].
    destruct (String.eqb_spec user0 "") as [|_]; [done|].
    destruct (String.eqb_spec level0 "") as [|_]; [done|].
    cbn [negb andb]. rewrite perm_set_items, IH.
    by change (omap id (Some (user0, level0) :: rs))
         with ((user0, level0) :: omap id rs).
  - replace (match dict_get "user_name" d0 with
             | Some x => x | None => JNull end)
      with (default JNull (dict_get "user_name" d0))
      by (by destruct (dict_get _ _)).
    replace (match dict_get "permission_level" d0 with
             | Some x => x | None => JNull end)
      with (default JNull (dict_get "permission_level" d0))
      by (by destruct (dict_get _ _)).
    rewrite Hr. apply IH.
Qed.

(** An assignment to a dictionary that has one item per key of [users]. *)
Lemma dict_set_new {V} user (v : V) (g : string -> V) users :
  user ∉ users ->
  dict_set user v (map (fun u => (u, g u)) users) =
    map (fun u => (u, if (u =? user)%string then v else g u)) users
      ++ [(user, v)].
Proof.
  induction users as [|u users IH]; intros Hnew; [done|].
  apply not_elem_of_cons in Hnew as [Hne Hnew].
  cbn [map dict_set app].
  destruct (String.eqb_spec user u) as [|_]; [done|].
  destruct (String.eqb_spec u user) as [|_]; [done|].
  by rewrite (IH Hnew).
Qed.

Lemma dict_set_old {V} user (v : V) (g : string -> V) users :
  NoDup users -> user ∈ users ->
  dict_set user v (map (fun u => (u, g u)) users) =
    map (fun u => (u, if (u =? user)%string then v else g u)) users.
Proof.
  induction 1 as [|u users Hu Hnodup IH]; intros Hin;
    [by apply elem_of_nil in Hin|].
  cbn [map dict_set].
  destruct (String.eqb_spec user u) as [->|Hne].
  - rewrite String.eqb_refl. f_equal.
    apply map_ext_in. intros x Hx%list_elem_of_In.
    destruct (String.eqb_spec x u) as [->|_]; [done|reflexivity].
  - destruct (String.eqb_spec u user) as [|_]; [done|].
    apply elem_of_cons in Hin as [|Hin]; [done|]. by rewrite (IH Hin).
Qed.

(** Assigning the items of a list in order gives one item per key, in the
    order of the first items of the keys, with the value of the last. *)
Lemma assigned_in_order (pairs : list (string * string)) :
  foldl (fun d item => dict_set item.1 item.2 d) [] pairs =
    map (fun u => (u, default "" (dict_get u (reverse pairs))))
      (reverse (remove_dups (reverse (map fst pairs)))).
Proof.
  induction pairs as [|[user level] pairs IH] using rev_ind; [done|].
  rewrite foldl_app. cbn [foldl fst snd]. rewrite IH.
  rewrite map_app, !reverse_app. cbn [map fst reverse app].
  change (reverse [user]) with [user].
  change (reverse [(user, level)]) with [(user, level)].
  cbn [app remove_dups].
  assert (Hlast : forall u,
    default "" (dict_get u ((user, level) :: reverse pairs)) =
      if (u =? user)%string then level
      else default "" (dict_get u (reverse pairs))).
  { intros u. cbn [dict_get]. by destruct (u =? user)%string. }
  destruct (decide_rel elem_of user (reverse (map fst pairs))) as [Hin|Hnew].
  - rewrite dict_set_old.
    + apply map_ext. intros u. by rewrite Hlast.
    + rewrite reverse_Permutation. apply NoDup_remove_dups.
    + by apply elem_of_reverse, elem_of_remove_dups.
  - rewrite reverse_cons, map_app. cbn [map]. rewrite dict_set_new.
    + f_equal.
      * apply map_ext. intros u. by rewrite Hlast.
      * by rewrite Hlast, String.eqb_refl.
    + by rewrite elem_of_reverse, elem_of_remove_dups.
Qed.

Lemma permissions_of_collected permissions_list rs :
  Forall2 acl.says permissions_list rs ->
  permissions_of permissions_list [] = Ret (acl.collected rs).
Proof.
  intros Hsays. change (@nil (json * json)) with (acl.items []).
  rewrite (permissions_of_items _ _ Hsays []).
  by rewrite assigned_in_order.
Qed.

Section Coverage.
Context {W : Type}.
Variable serve : W -> request -> W * response.
Variable getenv : string -> option string.
Variable format_value : json -> string.

(** X12.  When the fetch from the source host gives nothing (the call
    fails, or the answer has no content field, or the field is null or
    empty), the synchronisation ends after that one request: nothing is
    imported and no permission is read or granted. *)
Theorem nothing_fetched_nothing_done
  source_cloud target_cloud git_url cluster_id sc tc (s : state W) :
  get_workspace_config getenv source_cloud = Some sc ->
  get_workspace_config getenv target_cloud = Some tc ->
  failing (serve (remote s) (github_request getenv)).2
  \/ (exists status d,
        (serve (remote s) (github_request getenv)).2 =
          Response status (Json (JObj d))
        /\ status_ok status = true
        /\ truthy (default JNull (dict_get "content" d)) = false) ->
  sync_notebooks_and_permissions serve getenv format_value
      source_cloud target_cloud git_url cluster_id s =
    (Ret tt,
     State (serve (remote s) (github_request getenv)).1
           (log s ++ [github_request getenv])).
Proof.
  intros Hs Ht Hnothing. unfold sync_notebooks_and_permissions.
  rewrite Hs, Ht, bind_run, fetch_notebook_from_github_run.
  by rewrite (fetch_outcome_nothing _ Hnothing).
Qed.

(** The run after the two imports begins with the lookup of the
    notebook in the source workspace. *)
Lemma after_imports_grows sc tc source_path target_path cluster_id
    (s : state W) :
  exists L,
    log (after_imports serve format_value sc tc source_path target_path
           cluster_id s).2 =
      log s ++ status_request sc source_path :: L.
Proof.
  unfold after_imports. rewrite bind_run, get_notebook_id_run.
  destruct (notebook_id_outcome _) as [source_notebook_id|e];
    [|by exists []].
  destruct (negb (truthy source_notebook_id)); [by exists []|].
  set (s1 := State _ _).
  assert (Hrest : emits (fun _ => True)
    (fetched <- get_permissions serve format_value (cfg_url sc) (cfg_token sc)
                  source_path ;;
     target_notebook_id <- get_notebook_id serve (cfg_url tc) (cfg_token tc)
                             target_path ;;
     if negb (truthy target_notebook_id) then ret tt else
     apply_permissions serve format_value sc source_path
       (if no_permissions fetched then default_permissions
        else default [] fetched) cluster_id ;;;
     apply_permissions serve format_value tc target_path
       (if no_permissions fetched then default_permissions
        else default [] fetched) cluster_id : M W unit)).
  { unfold get_notebook_id, get_permissions, get_object_status,
      apply_permissions, grant_permissions, requests_get, requests_patch.
    emits_any. }
  destruct (Hrest s1) as (L & HL & _). exists L.
  rewrite HL. subst s1. cbn [log]. by rewrite <- app_assoc.
Qed.

Lemma sync_fetched source_cloud target_cloud git_url cluster_id sc tc
    (s : state W) status d encoded raw content :
  get_workspace_config getenv source_cloud = Some sc ->
  get_workspace_config getenv target_cloud = Some tc ->
  (serve (remote s) (github_request getenv)).2 =
    Response status (Json (JObj d)) ->
  status_ok status = true ->
  dict_get "content" d = Some (JStr encoded) ->
  b64decode_str encoded = Ret raw ->
  utf8_decode raw = Ret content ->
  raw <> [] ->
  utf8_encode content = Ret raw
  /\ sync_notebooks_and_permissions serve getenv format_value
         source_cloud target_cloud git_url cluster_id s =
       bind (import_notebook serve (cfg_url sc) (cfg_token sc) content
               notebook_name workspace_dir)
         (fun source_notebook_path =>
            if no_path source_notebook_path then ret tt else
            target_notebook_path <- import_notebook serve (cfg_url tc)
                (cfg_token tc) content notebook_name workspace_dir ;;
            if no_path target_notebook_path then ret tt else
            after_imports serve format_value sc tc
              (default "" source_notebook_path)
              (default "" target_notebook_path) cluster_id)
         (State (serve (remote s) (github_request getenv)).1
                (log s ++ [github_request getenv])).
Proof.
  intros Hs Ht Hresp Hok Hd Hraw Hcontent Hne.
  assert (Henc : utf8_encode content = Ret raw).
  { by apply codec_coverage.utf8_decode_encode. }
  assert (Hcne : no_content (Some content) = false).
  { destruct content; [|done]. cbn in Henc. congruence. }
  split; [exact Henc|].
  unfold sync_notebooks_and_permissions.
  rewrite Hs, Ht, bind_run, fetch_notebook_from_github_run, Hresp.
  by rewrite (fetch_outcome_decoded _ _ _ _ _ Hok Hd Hraw Hcontent Hne), Hcne.
Qed.

Lemma b64decode_b64encode_bytes encoded raw :
  b64decode_str encoded = Ret raw -> b64decode_str (b64encode raw) = Ret raw.
Proof.
  intros Hraw.
  assert (Hbytes : Forall byte_ok raw).
  { by apply (b64decode_bytes (JStr encoded)). }
  unfold b64decode_str. rewrite b64encode_ascii by exact Hbytes.
  by apply a2b_b64encode.
Qed.

(** X13.  The notebook fetched from the source host is imported as it
    is, first into the source workspace and then into the target one, to
    the same path and with the same content field, which decodes from
    base64 to the fetched bytes.  An import that is refused ends the run:
    after a refused import into the source the target receives nothing,
    and after a refused import into the target no permission is read or
    granted.  When both are accepted the run goes on with the lookup of
    the notebook in the source workspace. *)
Theorem imports_carry_the_fetched_bytes
  source_cloud target_cloud git_url cluster_id sc tc (s : state W)
  status d encoded raw content :
  get_workspace_config getenv source_cloud = Some sc ->
  get_workspace_config getenv target_cloud = Some tc ->
  (serve (remote s) (github_request getenv)).2 =
    Response status (Json (JObj d)) ->
  status_ok status = true ->
  dict_get "content" d = Some (JStr encoded) ->
  b64decode_str encoded = Ret raw ->
  utf8_decode raw = Ret content ->
  raw <> [] ->
  exists sent,
    b64decode_str sent = Ret raw
    /\ let run := sync_notebooks_and_permissions serve getenv format_value
                    source_cloud target_cloud git_url cluster_id s in
       let w1 := (serve (remote s) (github_request getenv)).1 in
       let to_source := import_request sc notebook_path sent in
       let to_target := import_request tc notebook_path sent in
       let w2 := (serve w1 to_source).1 in
       let w3 := (serve w2 to_target).1 in
       (refused (serve w1 to_source).2 ->
        run = (Ret tt,
               State w2 (log s ++ [github_request getenv; to_source])))
       /\ (~ refused (serve w1 to_source).2 ->
           refused (serve w2 to_target).2 ->
           run = (Ret tt,
                  State w3 (log s ++ [github_request getenv; to_source;
                                      to_target])))
       /\ (~ refused (serve w1 to_source).2 ->
           ~ refused (serve w2 to_target).2 ->
           exists L,
             log run.2 = log s ++ github_request getenv :: to_source
                           :: to_target :: status_request sc notebook_path :: L).
Proof.
  intros Hs Ht Hresp Hok Hd Hraw Hcontent Hne.
  destruct (sync_fetched _ _ git_url cluster_id sc tc s _ _ _ _ _
              Hs Ht Hresp Hok Hd Hraw Hcontent Hne) as [Henc Hstart].
  exists (b64encode raw). split; [by eapply b64decode_b64encode_bytes|].
  cbv zeta.
  rewrite Hstart, bind_run, (sync_import_notebook_run _ _ _ _ _ Henc).
  cbn [remote log].
  split; [|split].
  - intros Href. rewrite (import_outcome_refused _ _ Href).
    cbn [no_path]. unfold ret. by rewrite <- app_assoc.
  - intros Hacc Href. rewrite (import_outcome_accepted _ _ Hacc).
    change (no_path (Some notebook_path)) with false. cbv iota.
    rewrite bind_run, (sync_import_notebook_run _ _ _ _ _ Henc).
    cbn [remote log]. rewrite (import_outcome_refused _ _ Href).
    cbn [no_path]. unfold ret. by rewrite <- !app_assoc.
  - intros Hacc Hacc2. rewrite (import_outcome_accepted _ _ Hacc).
    change (no_path (Some notebook_path)) with false. cbv iota.
    rewrite bind_run, (sync_import_notebook_run _ _ _ _ _ Henc).
    cbn [remote log]. rewrite (import_outcome_accepted _ _ Hacc2).
    change (no_path (Some notebook_path)) with false. cbv iota.
    change (default "" (Some notebook_path)) with notebook_path.
    match goal with |- context [after_imports _ _ _ _ _ _ _ ?st] =>
      destruct (after_imports_grows sc tc notebook_path notebook_path
                  cluster_id st) as (L & ->)
    end.
    exists L. cbn [log]. by rewrite <- !app_assoc.
Qed.


Lemma notebook_id_outcome_nothing resp :
  failing resp
  \/ (exists status d,
        resp = Response status (Json (JObj d)) /\ status_ok status = true
        /\ truthy (default JNull (dict_get "object_id" d)) = false) ->
  exists v, notebook_id_outcome resp = Ret v /\ truthy v = false.
Proof.
  unfold notebook_id_outcome. intros [Hfail|(status & d & -> & Hok & Hfalsy)].
  - exists JNull. split; [|done].
    revert Hfail. destruct resp as [|status [|j]]; cbn; [done|..].
    + intros [->|_]; [done|]. by destruct (status_ok status).
    + intros [->|[=]]. done.
  - cbn. rewrite Hok. cbn.
    destruct (dict_get "object_id" d) as [v|]; [|by exists JNull].
    by exists v.
Qed.

(** X14.  Permissions are granted only once the notebook has been found
    in both workspaces.  When the run has fetched the permissions of the
    source and the lookup of the notebook in the target fails or gives no
    object id, the run ends after that lookup: no permission is granted,
    not to the source workspace either. *)
Theorem no_target_id_no_grant
  source_cloud target_cloud git_url cluster_id sc tc (s s1 : state W)
  source_path target_path fetched :
  get_workspace_config getenv source_cloud = Some sc ->
  get_workspace_config getenv target_cloud = Some tc ->
  fetch_source_permissions serve getenv format_value sc tc s =
    (Ret (Some (source_path, target_path, fetched)), s1) ->
  failing (serve (remote s1) (status_request tc target_path)).2
  \/ (exists status d,
        (serve (remote s1) (status_request tc target_path)).2 =
          Response status (Json (JObj d))
        /\ status_ok status = true
        /\ truthy (default JNull (dict_get "object_id" d)) = false) ->
  sync_notebooks_and_permissions serve getenv format_value
      source_cloud target_cloud git_url cluster_id s =
    (Ret tt,
     State (serve (remote s1) (status_request tc target_path)).1
           (log s1 ++ [status_request tc target_path])).
Proof.
  intros Hs Ht Hreach Hnothing.
  destruct (notebook_id_outcome_nothing _ Hnothing) as (v & Hv & Hfalsy).
  rewrite (sync_after_fetch serve getenv format_value _ _ _ _ sc tc s Hs Ht).
  rewrite bind_run, Hreach. unfold apply_to_both.
  by rewrite bind_run, get_notebook_id_run, Hv, Hfalsy.
Qed.

(** X15.  Permissions that the source has are copied as they are.  When
    the fetch of the permissions of the source yields a dictionary that
    is not empty, the permissions the run applies are these and no
    other: every PATCH it sends from then on grants one of them, and the
    defaults are not used.  When the notebook is found at every lookup,
    in both workspaces, the run ends normally after the lookup in the
    target and then, for every principal of the dictionary in its order,
    a lookup and a PATCH with its level on the source, followed by the
    same requests on the target. *)
Theorem fetched_permissions_applied
  source_cloud target_cloud git_url cluster_id sc tc (s s1 : state W)
  source_path target_path perms :
  get_workspace_config getenv source_cloud = Some sc ->
  get_workspace_config getenv target_cloud = Some tc ->
  fetch_source_permissions serve getenv format_value sc tc s =
    (Ret (Some (source_path, target_path, Some perms)), s1) ->
  perms <> [] ->
  (exists L,
     log (sync_notebooks_and_permissions serve getenv format_value
            source_cloud target_cloud git_url cluster_id s).2 = log s1 ++ L
     /\ Forall (grants_from perms cluster_id) L)
  /\ (forall ds dt source_endpoint target_endpoint,
        (forall w, exists status,
           (serve w (status_request sc source_path)).2 =
             Response status (Json (JObj ds))
           /\ status_ok status = true) ->
        (forall w, exists status,
           (serve w (status_request tc target_path)).2 =
             Response status (Json (JObj dt))
           /\ status_ok status = true) ->
        ds <> [] ->
        truthy (default JNull (dict_get "object_id" dt)) = true ->
        permissions_endpoint format_value (cfg_url sc)
          (default JNull (dict_get "object_type" ds))
          (default JNull (dict_get "object_id" ds)) = Some source_endpoint ->
        permissions_endpoint format_value (cfg_url tc)
          (default JNull (dict_get "object_type" dt))
          (default JNull (dict_get "object_id" dt)) = Some target_endpoint ->
        exists w',
          sync_notebooks_and_permissions serve getenv format_value
              source_cloud target_cloud git_url cluster_id s =
            (Ret tt,
             State w'
               (log s1 ++ status_request tc target_path
                  :: flat_map (fun up =>
                                 [status_request sc source_path;
                                  grant_request sc source_endpoint up.1 up.2
                                    cluster_id]) perms
                  ++ flat_map (fun up =>
                                 [status_request tc target_path;
                                  grant_request tc target_endpoint up.1 up.2
                                    cluster_id]) perms))).
Proof.
  intros Hs Ht Hreach Hne.
  assert (Hrun :
    sync_notebooks_and_permissions serve getenv format_value
        source_cloud target_cloud git_url cluster_id s =
      apply_to_both serve format_value sc tc source_path target_path
        perms cluster_id s1).
  { rewrite (sync_after_fetch serve getenv format_value _ _ _ _ sc tc s Hs Ht).
    rewrite bind_run, Hreach. by destruct perms. }
  rewrite Hrun. split.
  - apply (apply_to_both_emits serve format_value).
  - intros ds dt source_endpoint target_endpoint
      Hstatus_s Hstatus_t Hds Hid_t Hend_s Hend_t.
    apply (apply_to_both_run serve format_value sc tc source_path
             target_path perms cluster_id s1 ds dt source_endpoint
             target_endpoint Hstatus_s Hstatus_t Hds Hid_t Hend_s Hend_t).
Qed.

(** X16.  Permissions exist for notebooks and directories only.  For an
    object of another type, or without a type, [get_permissions] returns
    [None] and [grant_permissions] returns [False] after the lookup of
    the object: no permission request and no PATCH is sent. *)
Theorem unsupported_object_is_left_alone c path email level cluster_id
    (s : state W) status d :
  (serve (remote s) (status_request c path)).2 =
    Response status (Json (JObj d)) ->
  status_ok status = true ->
  d <> [] ->
  py_eq_str (default JNull (dict_get "object_type" d)) "NOTEBOOK" = false ->
  py_eq_str (default JNull (dict_get "object_type" d)) "DIRECTORY" = false ->
  get_permissions serve format_value (cfg_url c) (cfg_token c) path s =
    (Ret None,
     State (serve (remote s) (status_request c path)).1
           (log s ++ [status_request c path]))
  /\ grant_permissions serve format_value (cfg_url c) (cfg_token c) path
       email level cluster_id s =
     (Ret false,
      State (serve (remote s) (status_request c path)).1
            (log s ++ [status_request c path])).
Proof.
  intros Hresp Hok Hd Hn Hdir.
  assert (Hend : permissions_endpoint format_value (cfg_url c)
            (default JNull (dict_get "object_type" d))
            (default JNull (dict_get "object_id" d)) = None).
  { unfold permissions_endpoint. by rewrite Hn, Hdir. }
  assert (Hty : match dict_get "object_type" d with
                | Some x => x | None => JNull end
                = default JNull (dict_get "object_type" d)).
  { by destruct (dict_get _ _). }
  assert (Hid : match dict_get "object_id" d with
                | Some x => x | None => JNull end
                = default JNull (dict_get "object_id" d)).
  { by destruct (dict_get _ _). }
  split.
  - unfold get_permissions. rewrite bind_run, get_object_status_run, Hresp.
    cbn [fst snd]. unfold status_outcome. cbn. rewrite Hok. cbn.
    destruct d as [|kv d]; [done|]. cbn [negb].
    rewrite bind_run. unfold lift at 1. cbn [py_get].
    rewrite bind_run. unfold lift at 1.
    by rewrite Hty, Hid, Hend.
  - unfold grant_permissions. rewrite bind_run, get_object_status_run, Hresp.
    cbn [fst snd]. unfold status_outcome. cbn. rewrite Hok. cbn.
    destruct d as [|kv d]; [done|]. cbn [negb].
    rewrite bind_run. unfold lift at 1. cbn [py_get].
    rewrite bind_run. unfold lift at 1.
    by rewrite Hty, Hid, Hend.
Qed.

(** X17.  The grants of one workspace are independent of each other.
    When the notebook is found at every lookup, [apply_permissions]
    looks it up and sends the PATCH for every principal, in the order of
    the dictionary, whatever the workspace answers to the PATCH requests:
    a refused grant does not keep the later ones from being sent. *)
Theorem refused_grant_does_not_stop_the_rest c path perms cluster_id
    (s : state W) d endpoint :
  (forall w, exists status,
     (serve w (status_request c path)).2 = Response status (Json (JObj d))
     /\ status_ok status = true) ->
  d <> [] ->
  permissions_endpoint format_value (cfg_url c)
    (default JNull (dict_get "object_type" d))
    (default JNull (dict_get "object_id" d)) = Some endpoint ->
  exists w',
    apply_permissions serve format_value c path perms cluster_id s =
      (Ret tt,
       State w'
         (log s ++
          flat_map (fun up =>
                      [status_request c path;
                       grant_request c endpoint up.1 up.2 cluster_id])
            perms)).
Proof. apply apply_permissions_run. Qed.

(** *** Which host a request goes to *)

Lemma permissions_endpoint_prefix u object_type object_id endpoint :
  permissions_endpoint format_value u object_type object_id = Some endpoint ->
  String.prefix (fmt u +:+ "/api/2.0/") endpoint = true.
Proof.
  unfold permissions_endpoint.
  destruct (py_eq_str object_type "NOTEBOOK");
    [|destruct (py_eq_str object_type "DIRECTORY")]; intros [= <-];
    by apply migration_coverage.prefix_append.
Qed.

(** X18.  Every request of a synchronisation is the fetch from the
    source host, or goes to the API of the source workspace with the
    token of the source, or to the API of the target workspace with the
    token of the target: no workspace token is sent to another host. *)
Theorem sync_requests_are_routed
  source_cloud target_cloud git_url cluster_id sc tc (s : state W) :
  get_workspace_config getenv source_cloud = Some sc ->
  get_workspace_config getenv target_cloud = Some tc ->
  exists L,
    log (sync_notebooks_and_permissions serve getenv format_value
           source_cloud target_cloud git_url cluster_id s).2 = log s ++ L
    /\ Forall (fun req =>
                 req = github_request getenv
                 \/ routing.bound_for (cfg_url sc) (cfg_token sc) req
                 \/ routing.bound_for (cfg_url tc) (cfg_token tc) req) L.
Proof.
  intros Hs Ht. revert s.
  change (emits (fun req =>
                   req = github_request getenv
                   \/ routing.bound_for (cfg_url sc) (cfg_token sc) req
                   \/ routing.bound_for (cfg_url tc) (cfg_token tc) req)
            (sync_notebooks_and_permissions serve getenv format_value
               source_cloud target_cloud git_url cluster_id)).
  unfold sync_notebooks_and_permissions. rewrite Hs, Ht.
  unfold fetch_notebook_from_github, import_notebook, get_notebook_id,
    get_permissions, get_object_status, apply_permissions, grant_permissions,
    requests_get, requests_post, requests_patch.
  repeat first
    [ apply emits_ret | apply emits_raise | apply emits_lift
    | apply emits_raise_for_status | apply emits_response_json
    | apply emits_try
    | apply emits_bind; [|intros ?]
    | apply emits_for_each; intros ?
    | apply emits_send;
      first
        [ left; reflexivity
        | right; left; split;
          [ first [ by apply migration_coverage.prefix_append
                  | eapply permissions_endpoint_prefix; eassumption ]
          | reflexivity ]
        | right; right; split;
          [ first [ by apply migration_coverage.prefix_append
                  | eapply permissions_endpoint_prefix; eassumption ]
          | reflexivity ] ]
    | progress cbv zeta
    | match goal with
      | |- emits _ (if ?b then _ else _) => destruct b
      | |- emits _ (match ?x with _ => _ end) => destruct x eqn:?
      end ].
Qed.

(** *** The fetch of the notebook *)

(** X19.  The source host sends the file as base64 broken into lines.
    [fetch_notebook_from_github] returns the text of the file all the
    same: when the content field, without its line breaks and other
    characters outside the alphabet, is the base64 encoding of bytes that
    are UTF-8, the call returns the text these bytes encode. *)
Theorem wrapped_content_is_decoded (s : state W) status d encoded raw content :
  (serve (remote s) (github_request getenv)).2 =
    Response status (Json (JObj d)) ->
  status_ok status = true ->
  dict_get "content" d = Some (JStr encoded) ->
  is_ascii encoded = true ->
  wire.unwrapped encoded = b64encode raw ->
  Forall byte_ok raw ->
  raw <> [] ->
  utf8_decode raw = Ret content ->
  fetch_notebook_from_github serve (GITHUB_REPO_OWNER getenv)
      (GITHUB_REPO_NAME getenv) notebook_name (GITHUB_TOKEN getenv) s =
    (Ret (Some content),
     State (serve (remote s) (github_request getenv)).1
           (log s ++ [github_request getenv])).
Proof.
  intros Hresp Hok Hd Hascii Hwrap Hbytes Hne Hcontent.
  rewrite fetch_notebook_from_github_run, Hresp.
  erewrite fetch_outcome_decoded; eauto.
  by apply codec_coverage.b64decode_wrapped.
Qed.

(** *** The permissions of the source *)

(** X20.  [get_permissions] turns the access control list of a notebook
    or a directory into a dictionary from users to levels.  The
    dictionary has one item per user that the list names, in the order of
    the first entries of the users, each with the level of the last entry
    of the user; an entry that names no user (a group, a service
    principal) or no level adds nothing.  The call sends the lookup of
    the object and then the permission request. *)
Theorem get_permissions_keeps_the_last_level c path (s : state W)
    status d endpoint status' top permissions_list rs :
  (serve (remote s) (status_request c path)).2 =
    Response status (Json (JObj d)) ->
  status_ok status = true ->
  d <> [] ->
  permissions_endpoint format_value (cfg_url c)
    (default JNull (dict_get "object_type" d))
    (default JNull (dict_get "object_id" d)) = Some endpoint ->
  (serve (serve (remote s) (status_request c path)).1
     (permissions_request c endpoint)).2 =
    Response status' (Json (JObj top)) ->
  status_ok status' = true ->
  dict_get "access_control_list" top = Some (JArr permissions_list) ->
  Forall2 acl.says permissions_list rs ->
  get_permissions serve format_value (cfg_url c) (cfg_token c) path s =
    (Ret (Some (acl.collected rs)),
     State (serve (serve (remote s) (status_request c path)).1
              (permissions_request c endpoint)).1
           (log s ++ [status_request c path; permissions_request c endpoint]))
  /\ NoDup (acl.users_of rs)
  /\ (forall user,
        user ∈ acl.users_of rs <-> exists level, Some (user, level) ∈ rs).
Proof.
  intros Hresp Hok Hd Hend Hresp' Hok' Hacl Hsays.
  split; [|split].
  - erewrite (get_permissions_found serve format_value c path s _ status d
                endpoint); [|by rewrite <- Hresp; apply surjective_pairing|done..].
    rewrite Hresp'. unfold permissions_outcome. cbn. rewrite Hok'. cbn.
    rewrite Hacl. cbn. by rewrite (permissions_of_collected _ _ Hsays).
  - unfold acl.users_of. rewrite reverse_Permutation.
    apply NoDup_remove_dups.
  - intros user. unfold acl.users_of.
    rewrite elem_of_reverse, elem_of_remove_dups, elem_of_reverse.
    rewrite list_elem_of_fmap. split.
    + intros ([u level] & -> & Hin). exists level.
      apply list_elem_of_omap in Hin as (r & Hr & Hid). cbn in Hid.
      by subst r.
    + intros (level & Hin). exists (user, level). split; [done|].
      apply list_elem_of_omap. by exists (Some (user, level)).
Qed.

(** *** A whole synchronisation *)

(** X21.  A synchronisation that meets no failure.  When the source host
    returns the file, both workspaces accept the import and show the
    notebook with an object id, and the source workspace returns an
    access control list, the run ends normally and has sent, in this
    order: the fetch; the import into the source and into the target;
    the lookup of the notebook in the source, twice (once for its id,
    once by [get_permissions]); the permission request; the lookup in
    the target; then, for every principal, a lookup and a PATCH on the
    source, and after all of these a lookup and a PATCH on the target.
    The permissions granted are those of the access control list, the
    last level of each user, or the two defaults when the list names no
    user, in the order of the dictionary; what the workspaces answer to
    the PATCH requests makes no difference. *)
Theorem sync_of_a_notebook
  source_cloud target_cloud git_url cluster_id sc tc (s : state W)
  status d encoded raw content ds dt source_endpoint target_endpoint
  top permissions_list rs :
  get_workspace_config getenv source_cloud = Some sc ->
  get_workspace_config getenv target_cloud = Some tc ->
  (serve (remote s) (github_request getenv)).2 =
    Response status (Json (JObj d)) ->
  status_ok status = true ->
  dict_get "content" d = Some (JStr encoded) ->
  b64decode_str encoded = Ret raw ->
  utf8_decode raw = Ret content ->
  raw <> [] ->
  (forall w,
     ~ refused (serve w (import_request sc notebook_path (b64encode raw))).2
     /\ ~ refused (serve w (import_request tc notebook_path (b64encode raw))).2) ->
  (forall w, exists status,
     (serve w (status_request sc notebook_path)).2 =
       Response status (Json (JObj ds))
     /\ status_ok status = true) ->
  (forall w, exists status,
     (serve w (status_request tc notebook_path)).2 =
       Response status (Json (JObj dt))
     /\ status_ok status = true) ->
  truthy (default JNull (dict_get "object_id" ds)) = true ->
  truthy (default JNull (dict_get "object_id" dt)) = true ->
  permissions_endpoint format_value (cfg_url sc)
    (default JNull (dict_get "object_type" ds))
    (default JNull (dict_get "object_id" ds)) = Some source_endpoint ->
  permissions_endpoint format_value (cfg_url tc)
    (default JNull (dict_get "object_type" dt))
    (default JNull (dict_get "object_id" dt)) = Some target_endpoint ->
  (forall w, exists status,
     (serve w (permissions_request sc source_endpoint)).2 =
       Response status (Json (JObj top))
     /\ status_ok status = true) ->
  dict_get "access_control_list" top = Some (JArr permissions_list) ->
  Forall2 acl.says permissions_list rs ->
  exists w',
    let granted := if no_permissions (Some (acl.collected rs))
                   then default_permissions else acl.collected rs in
       sync_notebooks_and_permissions serve getenv format_value
           source_cloud target_cloud git_url cluster_id s =
         (Ret tt,
          State w'
            (log s ++
             [github_request getenv;
              import_request sc notebook_path (b64encode raw);
              import_request tc notebook_path (b64encode raw);
              status_request sc notebook_path;
              status_request sc notebook_path;
              permissions_request sc source_endpoint;
              status_request tc notebook_path]
             ++ flat_map (fun up =>
                            [status_request sc notebook_path;
                             grant_request sc source_endpoint up.1 up.2
                               cluster_id]) granted
             ++ flat_map (fun up =>
                            [status_request tc notebook_path;
                             grant_request tc target_endpoint up.1 up.2
                               cluster_id]) granted)).
Proof.
  intros Hs Ht Hresp Hok Hd Hraw Hcontent Hne Himports Hstatus_s Hstatus_t
    Hid_s Hid_t Hend_s Hend_t Hperm Hacl Hsays.
  assert (Hds : ds <> []) by (by intros ->).
  assert (Hdt : dt <> []) by (by intros ->).
  pose proof (permissions_of_collected _ _ Hsays) as Hfetched.
  destruct (sync_fetched _ _ git_url cluster_id sc tc s _ _ _ _ _
              Hs Ht Hresp Hok Hd Hraw Hcontent Hne) as [Henc Hstart].
  rewrite Hstart, bind_run, (sync_import_notebook_run _ _ _ _ _ Henc).
  cbn [remote log].
  rewrite (import_outcome_accepted _ _ (proj1 (Himports _))).
  change (no_path (Some notebook_path)) with false. cbv iota.
  rewrite bind_run, (sync_import_notebook_run _ _ _ _ _ Henc).
  cbn [remote log].
  rewrite (import_outcome_accepted _ _ (proj2 (Himports _))).
  change (no_path (Some notebook_path)) with false. cbv iota.
  change (default "" (Some notebook_path)) with notebook_path.
  unfold after_imports.
  (* the id of the notebook in the source *)
  rewrite bind_run, get_notebook_id_run. cbn [remote log].
  match goal with |- context [serve ?w (status_request sc notebook_path)] =>
    destruct (Hstatus_s w) as (st1 & Hst1 & Hok1) end.
  rewrite Hst1, (notebook_id_outcome_found _ _ Hok1), Hid_s. cbn [negb].
  (* the permissions of the source *)
  rewrite bind_run.
  match goal with |- context [get_permissions _ _ _ _ _ ?s0] =>
    destruct (Hstatus_s (remote s0)) as (st2 & Hst2 & Hok2);
    erewrite (get_permissions_found serve format_value sc notebook_path s0
                _ st2 ds source_endpoint);
      [|by rewrite <- Hst2; apply surjective_pairing|done..]
  end.
  cbn [remote log].
  match goal with |- context [serve ?w (permissions_request sc source_endpoint)] =>
    destruct (Hperm w) as (st3 & Hst3 & Hok3) end.
  rewrite Hst3. unfold permissions_outcome at 1. cbn [parsed handle rbind].
  rewrite Hok3. cbn [py_get rbind]. rewrite Hacl. cbn [py_iter rbind rmap].
  rewrite Hfetched. cbn [rbind rmap handle].
  (* the id of the notebook in the target *)
  rewrite bind_run, get_notebook_id_run. cbn [remote log].
  match goal with |- context [serve ?w (status_request tc notebook_path)] =>
    destruct (Hstatus_t w) as (st4 & Hst4 & Hok4) end.
  rewrite Hst4, (notebook_id_outcome_found _ _ Hok4), Hid_t. cbn [negb].
  (* the grants *)
  rewrite bind_run.
  edestruct (apply_permissions_run serve format_value sc notebook_path) as [w5 ->];
    [exact Hstatus_s|exact Hds|exact Hend_s|].
  edestruct (apply_permissions_run serve format_value tc notebook_path) as [w6 ->];
    [exact Hstatus_t|exact Hdt|exact Hend_t|].
  exists w6.
  cbv zeta. cbn [log default]. rewrite <- !app_assoc. by cbn [app].
Qed.

End Coverage.
End sync_coverage.
(** * The further properties at concrete inputs *)

Module coverage_instances.
Module B := user_creation_adding_notebooks.
Module G := multicloud_git.
Import migration sync workspace_tree remotes migration_coverage sync_coverage.

Local Open Scope Z_scope.

(** The tree the remote [tree_serve] shows. *)
Lemma tree_shown :
  lists (tree_answer "/") tree /\ Forall (shown tree_answer) tree.
Proof.
  assert (Hdesc : forall ty p e, kind e = ty -> path_of e = p ->
                    describes (object ty p) e).
  { intros ty p e <- <-. by eexists. }
  unfold tree. split.
  - eexists _, _, _.
    split; [reflexivity|]. split; [reflexivity|]. split; [by left|].
    repeat (constructor; [by apply Hdesc|]). constructor.
  - repeat apply Forall_cons_2; try apply Forall_nil_2.
    + constructor.
    + constructor.
      * eexists _, _, _.
        split; [reflexivity|]. split; [reflexivity|]. split; [by left|].
        repeat (constructor; [by apply Hdesc|]). constructor.
      * repeat apply Forall_cons_2; try apply Forall_nil_2.
        -- constructor.
        -- constructor; [|constructor].
           exists 200, [], []. split; [reflexivity|]. split; [reflexivity|].
           split; [by right|]. constructor.
    + by constructor.
    + constructor. by left.
    + constructor.
Defined.

(** X1 on the tree: the notebooks in the order of the listings, the
    directories with the one that cannot be listed, the library left
    out. *)
Lemma list_notebooks_walks_the_tree_witness :
  let c := B.Config (Some "https://src") (Some "s") in
  exists w',
    B.list_notebooks tree_serve 10 (Some "https://src") (Some "s") "/"
        (State tt []) =
      (Ret (["/intro"; "/team/etl"; "/outro"],
            list_to_set ["/team"; "/team/empty"; "/locked"]),
       State w' ([] ++ map (list_request c)
                         ["/"; "/team"; "/team/empty"; "/locked"])).
Proof.
  intros c.
  apply (list_notebooks_walks_the_tree tree_serve 10 c tree_answer
           (fun _ _ => eq_refl) "/" tree (State tt [])
           (proj1 tree_shown) (proj2 tree_shown)).
  vm_compute. lia.
Defined.

(** X2 on the source that shows /loop in every directory, with room for
    five calls. *)
Lemma endless_nesting_raises_witness :
  let c := B.Config (Some "https://src") (Some "s") in
  exists w' ps,
    length ps = 5%nat
    /\ B.list_notebooks loop_serve 5 (Some "https://src") (Some "s") "/"
         (State tt []) =
       (Raise RecursionError, State w' ([] ++ map (list_request c) ps)).
Proof.
  intros c.
  apply (endless_nesting_raises loop_serve 5 c "/" (State tt [])).
  intros w p. exists (Unlisted "/loop"), [].
  split; [|reflexivity].
  eexists _, _, _.
  split; [reflexivity|]. split; [reflexivity|]. split; [by left|].
  constructor; [by eexists|constructor].
Defined.


(** X4 on the target that has both users already: both creations are
    sent and the run goes on. *)
Lemma every_named_user_is_attempted_witness :
  let sc := B.Config (Some "https://src") (Some "s") in
  let tc := B.Config (Some "https://tgt") (Some "t") in
  exists w',
    B.transfer_users_and_notebooks crowd_serve scenario_env 50
        "STAGING" "PREPROD" (State tt []) =
      bind (B.list_notebooks crowd_serve 50 (Some "https://src") (Some "s") "/")
        (fun found =>
           for_each (sorted found.2)
             (B.create_directory crowd_serve (Some "https://tgt") (Some "t")) ;;;
           for_each found.1 (B.transfer_notebook crowd_serve sc tc))
        (State w'
           ([] ++ users_request sc
              :: map (fun d => create_user_request tc (strip_id d))
                   [[("id", JStr "1"); ("userName", JStr "ada@example.com")];
                    [("userName", JStr "bob@example.com")]])).
Proof.
  intros sc tc.
  apply (every_named_user_is_attempted crowd_serve scenario_env 50
           "STAGING" "PREPROD" sc tc (State tt [])
           (JArr [JObj [("id", JStr "1"); ("userName", JStr "ada@example.com")];
                  JObj [("userName", JStr "bob@example.com")]])).
  - reflexivity.
  - reflexivity.
  - reflexivity.
  - reflexivity.
  - repeat apply Forall_cons_2; try apply Forall_nil_2;
      eexists; split; reflexivity.
Defined.

(** X5 on the source whose second record has no userName: the run ends
    with [KeyError] after the second creation request. *)
Lemma user_without_name_aborts_run_witness :
  let sc := B.Config (Some "https://src") (Some "s") in
  let tc := B.Config (Some "https://tgt") (Some "t") in
  exists w',
    B.transfer_users_and_notebooks nameless_serve scenario_env 50
        "STAGING" "PREPROD" (State tt []) =
      (Raise KeyError,
       State w'
         ([] ++ users_request sc
            :: map (fun d => create_user_request tc (strip_id d))
                 [[("id", JStr "1"); ("userName", JStr "ada@example.com")]]
            ++ [create_user_request tc
                  (strip_id [("id", JStr "2"); ("displayName", JStr "build")])])).
Proof.
  intros sc tc.
  apply (user_without_name_aborts_run nameless_serve scenario_env 50
           "STAGING" "PREPROD" sc tc (State tt [])
           (JArr [JObj [("id", JStr "1"); ("userName", JStr "ada@example.com")];
                  JObj [("id", JStr "2"); ("displayName", JStr "build")];
                  JObj [("id", JStr "3"); ("userName", JStr "bob@example.com")]])
           [[("id", JStr "1"); ("userName", JStr "ada@example.com")]]
           [("id", JStr "2"); ("displayName", JStr "build")]
           [JObj [("id", JStr "3"); ("userName", JStr "bob@example.com")]]).
  - reflexivity.
  - reflexivity.
  - reflexivity.
  - reflexivity.
  - repeat apply Forall_cons_2; try apply Forall_nil_2;
      eexists; split; reflexivity.
  - reflexivity.
Defined.

(** X6 without a network. *)
Lemma unreachable_source_ends_quietly_witness :
  let sc := B.Config (Some "https://src") (Some "s") in
  B.transfer_users_and_notebooks offline scenario_env 50
      "STAGING" "PREPROD" (State tt []) =
    (Ret tt, State tt ([] ++ [users_request sc; list_request sc "/"])).
Proof.
  intros sc.
  apply (unreachable_source_ends_quietly offline scenario_env 50
           "STAGING" "PREPROD" sc
           (B.Config (Some "https://tgt") (Some "t")) (State tt [])).
  - reflexivity.
  - reflexivity.
  - lia.
  - exact I.
  - exact I.
Defined.

(** X7 on the source whose content field is no base64: the loop over
    /a, /b ends at /a. *)
Lemma undecodable_export_aborts_loop_witness :
  let sc := B.Config (Some "https://src") (Some "s") in
  let tc := B.Config (Some "https://tgt") (Some "t") in
  for_each ([] ++ "/a" :: ["/b"])
      (B.transfer_notebook malformed_serve sc tc) (State tt []) =
    (Raise BinasciiError, State tt ([] ++ [export_request sc "/a"])).
Proof.
  intros sc tc.
  apply (undecodable_export_aborts_loop malformed_serve sc tc [] "/a" ["/b"]
           (State tt []) (State tt []) BinasciiError); reflexivity.
Defined.

(** X8 on the scenario: the bytes of [print(1)]. *)
Lemma migrated_bytes_are_exported_bytes_witness :
  let sc := B.Config (Some "https://src") (Some "s") in
  let tc := B.Config (Some "https://tgt") (Some "t") in
  exists w' sent,
    B.transfer_notebook scenario_serve sc tc "/n1" (State tt []) =
      (Ret tt,
       State w' ([] ++ [export_request sc "/n1";
                        migration.import_request tc "/n1" sent]))
    /\ b64decode_str sent = Ret [112; 114; 105; 110; 116; 40; 49; 41].
Proof.
  intros sc tc.
  apply (migrated_bytes_are_exported_bytes scenario_serve sc tc "/n1"
           (State tt []) 200 [("content", JStr "cHJpbnQoMSk=")] "cHJpbnQoMSk="
           [112; 114; 105; 110; 116; 40; 49; 41]
           [112; 114; 105; 110; 116; 40; 49; 41]);
    try reflexivity.
  discriminate.
Defined.

(** X9 on a text with one, two, three and four byte characters. *)
Lemma import_request_carries_the_text_witness :
  let c := B.Config (Some "https://tgt") (Some "t") in
  exists sent raw,
    let req := migration.import_request c "/n" sent in
    req = Request POST "https://tgt/api/2.0/workspace/import"
            [("Authorization", "Bearer t");
             ("Content-Type", "application/json")] []
            (Some (JObj [("path", JStr "/n"); ("format", JStr "SOURCE");
                         ("content", JStr sent); ("overwrite", JBool true);
                         ("language", JStr "PYTHON")]))
    /\ B.import_notebook blank_serve (Some "https://tgt") (Some "t") "/n"
         [104; 233; 8364; 128512] (State tt []) =
         (Ret (match (blank_serve tt req).2 with
               | Response status _ => status_ok status
               | ConnectionFailed => false
               end),
          State (blank_serve tt req).1 ([] ++ [req]))
    /\ b64decode_str sent = Ret raw
    /\ utf8_decode raw = Ret [104; 233; 8364; 128512].
Proof.
  intros c.
  apply (import_request_carries_the_text blank_serve c "/n"
           [104; 233; 8364; 128512] (State tt [])).
  repeat constructor; unfold scalar; lia.
Defined.

(** X10 on a text with a lone surrogate. *)
Lemma unencodable_text_raises_unsent_witness :
  B.import_notebook blank_serve (Some "https://tgt") (Some "t") "/n"
      [104; 55357; 105] (State tt []) =
    (Raise UnicodeEncodeError, State tt []).
Proof.
  apply (unencodable_text_raises_unsent blank_serve
           (B.Config (Some "https://tgt") (Some "t")) "/n"
           [104; 55357; 105] (State tt [])).
  apply Exists_cons_tl, Exists_cons_hd. lia.
Defined.

(** X11 on the tree: the whole log of the migration. *)
Lemma migration_of_a_tree_witness :
  let sc := B.Config (Some "https://src") (Some "s") in
  let tc := B.Config (Some "https://tgt") (Some "t") in
  let sent := b64encode [112; 114; 105; 110; 116; 40; 49; 41] in
  exists w',
    B.transfer_users_and_notebooks tree_serve scenario_env 50
        "STAGING" "PREPROD" (State tt []) =
      (Ret tt,
       State w'
         ([] ++ users_request sc
            :: map (fun d => create_user_request tc (strip_id d))
                 [[("id", JStr "42"); ("userName", JStr "ada@example.com")]]
            ++ map (list_request sc) ["/"; "/team"; "/team/empty"; "/locked"]
            ++ map (mkdirs_request tc)
                 (sorted (list_to_set ["/team"; "/team/empty"; "/locked"]))
            ++ flat_map (fun p => [export_request sc p;
                                   migration.import_request tc p sent])
                 ["/intro"; "/team/etl"; "/outro"])).
Proof.
  intros sc tc sent.
  apply (migration_of_a_tree tree_serve scenario_env 50
           "STAGING" "PREPROD" sc tc (State tt [])
           (JArr [JObj [("id", JStr "42"); ("userName", JStr "ada@example.com")]])
           [[("id", JStr "42"); ("userName", JStr "ada@example.com")]]
           tree_answer tree
           (fun _ => [112; 114; 105; 110; 116; 40; 49; 41])).
  - reflexivity.
  - reflexivity.
  - reflexivity.
  - reflexivity.
  - repeat apply Forall_cons_2; try apply Forall_nil_2;
      eexists; split; reflexivity.
  - intros w p. reflexivity.
  - exact (proj1 tree_shown).
  - exact (proj2 tree_shown).
  - vm_compute. lia.
  - intros w p _.
    exists 200, [("content", JStr "cHJpbnQoMSk=")], "cHJpbnQoMSk=",
      [112; 114; 105; 110; 116; 40; 49; 41].
    repeat split; try reflexivity. discriminate.
Defined.

(** X12 on the remote that answers with the empty object: no content
    field, so the run ends after the fetch. *)
Lemma nothing_fetched_nothing_done_witness :
  G.sync_notebooks_and_permissions blank_serve bootstrap_env bootstrap_format
      "aws" "gcp" None None (State tt []) =
    (Ret tt, State tt ([] ++ [github_request bootstrap_env])).
Proof.
  apply (nothing_fetched_nothing_done blank_serve bootstrap_env bootstrap_format
           "aws" "gcp" None None
           (G.Config (Some "https://aws") (Some "a"))
           (G.Config (Some "https://gcp") (Some "g")) (State tt [])).
  - reflexivity.
  - reflexivity.
  - right. exists 200, []. repeat split.
Defined.

(** X13 on the first synchronisation: both imports carry the bytes of
    [print(1)] and are accepted. *)
Lemma imports_carry_the_fetched_bytes_witness :
  let aws := G.Config (Some "https://aws") (Some "a") in
  let gcp := G.Config (Some "https://gcp") (Some "g") in
  exists sent,
    b64decode_str sent = Ret [112; 114; 105; 110; 116; 40; 49; 41]
    /\ exists L,
         log (G.sync_notebooks_and_permissions bootstrap_serve bootstrap_env
                bootstrap_format "aws" "gcp" None None (State tt [])).2 =
           [] ++ github_request bootstrap_env
             :: sync.import_request aws notebook_path sent
             :: sync.import_request gcp notebook_path sent
             :: status_request aws notebook_path :: L.
Proof.
  intros aws gcp.
  destruct (imports_carry_the_fetched_bytes bootstrap_serve bootstrap_env
              bootstrap_format "aws" "gcp" None None aws gcp (State tt [])
              200 [("content", JStr "cHJpbnQoMSk=")] "cHJpbnQoMSk="
              [112; 114; 105; 110; 116; 40; 49; 41]
              [112; 114; 105; 110; 116; 40; 49; 41])
    as (sent & Hsent & _ & _ & Hboth); try reflexivity; [discriminate|].
  exists sent. split; [exact Hsent|]. apply Hboth.
  - vm_compute. discriminate.
  - vm_compute. discriminate.
Defined.

(** X14 on the target that does not show the notebook: the run ends
    after the lookup in the target, without a PATCH. *)
Lemma no_target_id_no_grant_witness :
  let gcp := G.Config (Some "https://gcp") (Some "g") in
  let s1 := (fetch_source_permissions lost_serve bootstrap_env bootstrap_format
               (G.Config (Some "https://aws") (Some "a")) gcp (State tt [])).2 in
  G.sync_notebooks_and_permissions lost_serve bootstrap_env bootstrap_format
      "aws" "gcp" None None (State tt []) =
    (Ret tt, State tt (log s1 ++ [status_request gcp notebook_path])).
Proof.
  intros gcp s1.
  apply (no_target_id_no_grant lost_serve bootstrap_env bootstrap_format
           "aws" "gcp" None None
           (G.Config (Some "https://aws") (Some "a")) gcp (State tt []) s1
           notebook_path notebook_path (Some [])).
  - reflexivity.
  - reflexivity.
  - vm_compute. reflexivity.
  - left. vm_compute. by left.
Defined.

(** X15 on the workspace with an access control list: ada and bob get
    the levels of the list, not the defaults, on the source and then on
    the target. *)
Lemma fetched_permissions_applied_witness :
  let aws := G.Config (Some "https://aws") (Some "a") in
  let gcp := G.Config (Some "https://gcp") (Some "g") in
  let perms := [(JStr "ada@example.com", JStr "CAN_MANAGE");
                (JStr "bob@example.com", JStr "CAN_EDIT")] in
  let s1 := (fetch_source_permissions shared_serve bootstrap_env
               bootstrap_format aws gcp (State tt [])).2 in
  exists w',
    G.sync_notebooks_and_permissions shared_serve bootstrap_env
        bootstrap_format "aws" "gcp" None None (State tt []) =
      (Ret tt,
       State w'
         (log s1 ++ status_request gcp notebook_path
            :: flat_map (fun up =>
                           [status_request aws notebook_path;
                            grant_request aws
                              "https://aws/api/2.0/permissions/notebooks/7"
                              up.1 up.2 None]) perms
            ++ flat_map (fun up =>
                           [status_request gcp notebook_path;
                            grant_request gcp
                              "https://gcp/api/2.0/permissions/notebooks/7"
                              up.1 up.2 None]) perms)).
Proof.
  intros aws gcp perms s1.
  destruct (fetched_permissions_applied shared_serve bootstrap_env
              bootstrap_format "aws" "gcp" None None aws gcp (State tt []) s1
              notebook_path notebook_path perms) as [_ Hexact].
  - reflexivity.
  - reflexivity.
  - vm_compute. reflexivity.
  - discriminate.
  - apply (Hexact
             [("object_id", JNum 7); ("object_type", JStr "NOTEBOOK")]
             [("object_id", JNum 7); ("object_type", JStr "NOTEBOOK")]).
    + intros w. exists 200%Z. split; reflexivity.
    + intros w. exists 200%Z. split; reflexivity.
    + discriminate.
    + reflexivity.
    + reflexivity.
    + reflexivity.
Defined.

(** X16 on a library. *)
Lemma unsupported_object_is_left_alone_witness :
  let c := G.Config (Some "https://aws") (Some "a") in
  G.get_permissions library_serve bootstrap_format (Some "https://aws")
      (Some "a") "/lib.jar" (State tt []) =
    (Ret None, State tt ([] ++ [status_request c "/lib.jar"]))
  /\ G.grant_permissions library_serve bootstrap_format (Some "https://aws")
       (Some "a") "/lib.jar" (JStr "ada@example.com") (JStr "CAN_RUN") None
       (State tt []) =
     (Ret false, State tt ([] ++ [status_request c "/lib.jar"])).
Proof.
  intros c.
  apply (unsupported_object_is_left_alone library_serve bootstrap_format c
           "/lib.jar" (JStr "ada@example.com") (JStr "CAN_RUN") None
           (State tt []) 200
           [("object_id", JNum 9); ("object_type", JStr "LIBRARY")]);
    try reflexivity.
  discriminate.
Defined.

(** X17 on the source workspace that refuses every PATCH: both grants
    are sent. *)
Lemma refused_grant_does_not_stop_the_rest_witness :
  let aws := G.Config (Some "https://aws") (Some "a") in
  let endpoint := "https://aws/api/2.0/permissions/notebooks/7" in
  exists w',
    G.apply_permissions shared_serve bootstrap_format aws notebook_path
        [(JStr "ada@example.com", JStr "CAN_MANAGE");
         (JStr "bob@example.com", JStr "CAN_EDIT")] None (State tt []) =
      (Ret tt,
       State w'
         ([] ++
          flat_map (fun up =>
                      [status_request aws notebook_path;
                       grant_request aws endpoint up.1 up.2 None])
            [(JStr "ada@example.com", JStr "CAN_MANAGE");
             (JStr "bob@example.com", JStr "CAN_EDIT")]))
    /\ grant_outcome
         (shared_serve tt
            (grant_request aws endpoint (JStr "ada@example.com")
               (JStr "CAN_MANAGE") None)).2 = false.
Proof.
  intros aws endpoint.
  destruct (refused_grant_does_not_stop_the_rest shared_serve bootstrap_format
              aws notebook_path
              [(JStr "ada@example.com", JStr "CAN_MANAGE");
               (JStr "bob@example.com", JStr "CAN_EDIT")] None (State tt [])
              [("object_id", JNum 7); ("object_type", JStr "NOTEBOOK")]
              endpoint) as [w' Hrun].
  - intros w. exists 200. split; reflexivity.
  - discriminate.
  - reflexivity.
  - exists w'. split; [exact Hrun|reflexivity].
Defined.

(** X18 on the first synchronisation. *)
Lemma sync_requests_are_routed_witness :
  exists L,
    log (G.sync_notebooks_and_permissions bootstrap_serve bootstrap_env
           bootstrap_format "aws" "gcp" None None (State tt [])).2 = [] ++ L
    /\ Forall (fun req =>
                 req = github_request bootstrap_env
                 \/ routing.bound_for (Some "https://aws") (Some "a") req
                 \/ routing.bound_for (Some "https://gcp") (Some "g") req) L.
Proof.
  apply (sync_requests_are_routed bootstrap_serve bootstrap_env bootstrap_format
           "aws" "gcp" None None
           (G.Config (Some "https://aws") (Some "a"))
           (G.Config (Some "https://gcp") (Some "g")) (State tt []));
    reflexivity.
Defined.

(** X19 on a content field in lines of four characters. *)
Lemma wrapped_content_is_decoded_witness :
  G.fetch_notebook_from_github wrapped_serve (G.GITHUB_REPO_OWNER bootstrap_env)
      (G.GITHUB_REPO_NAME bootstrap_env) G.notebook_name
      (G.GITHUB_TOKEN bootstrap_env) (State tt []) =
    (Ret (Some [112; 114; 105; 110; 116; 40; 49; 41]),
     State tt ([] ++ [github_request bootstrap_env])).
Proof.
  eapply (wrapped_content_is_decoded wrapped_serve bootstrap_env (State tt [])
           200 _ _ [112; 114; 105; 110; 116; 40; 49; 41]
           [112; 114; 105; 110; 116; 40; 49; 41]); try reflexivity.
  - repeat constructor; unfold byte_ok; lia.
  - discriminate.
Defined.

(** X20 on the access control list of the shared workspace: ada has the
    level of her last entry, the group is left out. *)
Lemma get_permissions_keeps_the_last_level_witness :
  let aws := G.Config (Some "https://aws") (Some "a") in
  let endpoint := "https://aws/api/2.0/permissions/notebooks/7" in
  let rs := [Some ("ada@example.com", "CAN_RUN"); None;
             Some ("bob@example.com", "CAN_EDIT");
             Some ("ada@example.com", "CAN_MANAGE")] in
  G.get_permissions shared_serve bootstrap_format (Some "https://aws")
      (Some "a") notebook_path (State tt []) =
    (Ret (Some [(JStr "ada@example.com", JStr "CAN_MANAGE");
                (JStr "bob@example.com", JStr "CAN_EDIT")]),
     State tt [status_request aws notebook_path;
               permissions_request aws endpoint])
  /\ NoDup (acl.users_of rs)
  /\ (forall user,
        user ∈ acl.users_of rs <-> exists level, Some (user, level) ∈ rs).
Proof.
  intros aws endpoint rs.
  eapply (get_permissions_keeps_the_last_level shared_serve bootstrap_format
            aws notebook_path (State tt []) 200
            [("object_id", JNum 7); ("object_type", JStr "NOTEBOOK")]
            endpoint 200 _ _ rs); try reflexivity.
  - discriminate.
  - repeat apply Forall2_cons_2; try apply Forall2_nil_2;
      eexists; (split; [reflexivity|]); repeat split; discriminate.
Defined.

(** X21 on the shared workspaces: the whole log of the synchronisation. *)
Lemma sync_of_a_notebook_witness :
  let aws := G.Config (Some "https://aws") (Some "a") in
  let gcp := G.Config (Some "https://gcp") (Some "g") in
  let sent := b64encode [112; 114; 105; 110; 116; 40; 49; 41] in
  let granted := [(JStr "ada@example.com", JStr "CAN_MANAGE");
                  (JStr "bob@example.com", JStr "CAN_EDIT")] in
  exists w',
       G.sync_notebooks_and_permissions shared_serve bootstrap_env
           bootstrap_format "aws" "gcp" None None (State tt []) =
         (Ret tt,
          State w'
            ([] ++
             [github_request bootstrap_env;
              sync.import_request aws notebook_path sent;
              sync.import_request gcp notebook_path sent;
              status_request aws notebook_path;
              status_request aws notebook_path;
              permissions_request aws
                "https://aws/api/2.0/permissions/notebooks/7";
              status_request gcp notebook_path]
             ++ flat_map (fun up =>
                            [status_request aws notebook_path;
                             grant_request aws
                               "https://aws/api/2.0/permissions/notebooks/7"
                               up.1 up.2 None]) granted
             ++ flat_map (fun up =>
                            [status_request gcp notebook_path;
                             grant_request gcp
                               "https://gcp/api/2.0/permissions/notebooks/7"
                               up.1 up.2 None]) granted)).
Proof.
  intros aws gcp sent granted.
  eapply (sync_of_a_notebook shared_serve bootstrap_env bootstrap_format
            "aws" "gcp" None None aws gcp (State tt [])
            200 [("content", JStr "cHJpbnQoMSk=")] "cHJpbnQoMSk="
            [112; 114; 105; 110; 116; 40; 49; 41]
            [112; 114; 105; 110; 116; 40; 49; 41]
            [("object_id", JNum 7); ("object_type", JStr "NOTEBOOK")]
            [("object_id", JNum 7); ("object_type", JStr "NOTEBOOK")]
            "https://aws/api/2.0/permissions/notebooks/7"
            "https://gcp/api/2.0/permissions/notebooks/7" _ _
            [Some ("ada@example.com", "CAN_RUN"); None;
             Some ("bob@example.com", "CAN_EDIT");
             Some ("ada@example.com", "CAN_MANAGE")]);
    try reflexivity.
  - discriminate.
  - intros w. split; vm_compute; discriminate.
  - intros w. exists 200. split; reflexivity.
  - intros w. exists 200. split; reflexivity.
  - intros w. exists 200. split; reflexivity.
  - reflexivity.
  - repeat apply Forall2_cons_2; try apply Forall2_nil_2;
      eexists; (split; [reflexivity|]); repeat split; discriminate.
Defined.

End coverage_instances.
